(** * t2play: the render-and-dispatch engine of the panel

    A shallow embedding of [main.c]: the layout pass ([render_to_cairo] and
    the functions it calls), the frame driver ([render_frame]), the
    foreign-toplevel handlers, the pointer handlers and the clock-timer
    block of [panel_setup].

    Conventions of the embedding.
    - A C [int] is a [Z] in the range of 32-bit two's complement; signed
      overflow is undefined behaviour in C and is an error ([None]) here.
      A [uint32_t] is a [Z] reduced modulo 2^32.
    - [struct panel] is the state threaded through every function; the
      cairo context a frame draws on is a recording surface in the source
      and a list of drawing operations here.
    - What the process obtains from outside (text measurement by Pango,
      [time], [localtime], the success of [calloc] and [strdup], the buffer
      pool of pool.c, protocol constants) is a field of [Externals].
    - A C string is the sequence of its characters before the terminating
      NUL; a [char *] that may be [NULL] is an [option string]. *)

From Stdlib Require Import ZArith List String Ascii Bool Lia.
From Stdlib Require QArith_base.
Import ListNotations.
Local Open Scope string_scope.
Local Open Scope list_scope.
Local Open Scope Z_scope.

(** ** Machine integers *)

Definition INT_MIN : Z := - 2 ^ 31.
Definition INT_MAX : Z := 2 ^ 31 - 1.

Definition in_int (z : Z) : bool := (INT_MIN <=? z) && (z <=? INT_MAX).

(** A signed result that does not fit an [int] is undefined behaviour. *)
Definition int_of (z : Z) : option Z := if in_int z then Some z else None.

(** [uint32_t] arithmetic wraps. *)
Definition u32 (z : Z) : Z := z mod 2 ^ 32.

(** [(int)u] for a [uint32_t] [u]: the value modulo 2^32 that fits an [int]. *)
Definition int_of_u32 (u : Z) : Z :=
  let m := u mod 2 ^ 32 in if m <=? INT_MAX then m else m - 2 ^ 32.

(** ** Constants of main.c *)

Definition BUTTON_PADDING : Z := 8.
Definition BUTTON_MAX_WIDTH : Z := 200.

(** ** Data model *)

(** [struct toplevel].  [handle] is the foreign-toplevel handle the entry
    owns; it is assigned once, when the entry is created, and one entry is
    created per handle, so a [struct toplevel *] is represented by the
    handle of the entry it points to. *)
Record toplevel : Type := mkToplevel {
  handle : nat;
  title : option string;
  app_id : option string;
  active : bool
}.

(** [struct widget]: [toplevel] is [NULL] ([None]) if the widget is not a
    taskbar button.  The pointer is kept as the handle of the entry it
    was taken from; [toplevel_destroy] frees an entry and leaves the
    widgets alone, so that the entry of a widget may be gone when the
    widget is used. *)
Record widget : Type := mkWidget {
  widget_x : Z;
  widget_width : Z;
  widget_toplevel : option nat
}.

(** [struct pointer], without the cursor theme. *)
Record pointer : Type := mkPointer {
  ptr_serial : Z;
  ptr_x : Z;
  ptr_y : Z
}.

Record seat : Type := mkSeat {
  wl_seat : nat;
  seat_pointer : pointer
}.

Record output : Type := mkOutput {
  wl_output : nat;
  out_scale : Z
}.

Record conf : Type := mkConf {
  background : Z;
  text : Z;
  button_background : Z;
  button_active : Z;
  panel_items : option string
}.

(** Drawing operations recorded on a cairo context.  Coordinates are the
    values the source passes, which are integers, or half-integers for the
    vertical position of the clock label. *)
Inductive draw_op : Type :=
| Scale (sx sy : Z)
| Save
| Restore
| SetOperatorClear
| SetOperatorSource
| SetSourceRGBA (r g b a : QArith_base.Q)
| Paint
| Rectangle (rx ry rw rh : Z)
| Fill
| Clip
| MoveTo (mx : Z) (my : QArith_base.Q)
| ShowText (label : string).

Inductive log_msg : Type :=
| LogAllocWidget
| LogUnknownCode (c : ascii)
| LogPerror (what : string).

(** What [wl_surface_commit] hands to the compositor. *)
Record commit : Type := mkCommit {
  c_buffer : nat;
  c_scale : Z;
  c_content : list draw_op;
  c_damage : Z * Z
}.

(** Requests sent to the compositor on behalf of a widget:
    [zwlr_foreign_toplevel_handle_v1_activate (h, s)]. *)
Inductive action : Type :=
| Activate (h : nat) (s : nat).

(** A timer file descriptor as [timerfd_settime] arms it; the nanosecond
    fields are zero throughout the source. *)
Record timerfd : Type := mkTimerfd {
  tfd_abstime : bool;
  it_interval_sec : Z;
  it_value_sec : Z
}.

(** ** What the process obtains from outside *)

Class Externals (pool : Type) : Type := {
  (** The buffer pool of pool.c, which is not part of these sources:
      [pool] is the state of its two buffers and [get_next_buffer bufs w h]
      returns the index of a free buffer, if any, and the updated pool. *)
  get_next_buffer : pool -> Z -> Z -> option nat * pool;
  (** Pango: pixel width and height of a plain-text label in the panel
      font at scale 1, as [get_text_size] stores them. *)
  text_size : string -> Z * Z;
  (** [time_at k] is what the [k]-th call of [time(NULL)] returns. *)
  time_at : nat -> Z;
  (** [localtime]: hour and minute of a [time_t] in the local time zone. *)
  localtime : Z -> Z * Z;
  (** [alloc_ok k] tells whether the [k]-th allocation ([calloc],
      [strdup]) succeeds. *)
  alloc_ok : nat -> bool;
  (** Protocol constants from the generated headers. *)
  STATE_ACTIVATED : Z;
  BUTTON_STATE_PRESSED : Z
}.

(** ** Events *)

(** The events the listeners receive.  Windows, outputs and seats are
    named by numbers; a handle names one window for the whole run, the
    manager announcing each handle once. *)
Inductive event : Type :=
| EvToplevel (h : nat)
| EvTitle (h : nat) (s : string)
| EvAppId (h : nat) (s : string)
| EvState (h : nat) (state : list Z)
| EvDone (h : nat)
| EvClosed (h : nat)
| EvConfigure (width height : Z)
| EvSurfaceEnter (o : nat)
| EvOutputScale (o : nat) (factor : Z)
| EvPointerEnter (s : nat) (serial surface_x surface_y : Z)
| EvPointerMotion (s : nat) (surface_x surface_y : Z)
| EvPointerButton (s : nat) (state : Z)
| EvPanelRun
| EvRenderFrame
| EvGlobalSeat (name : nat)
| EvGlobalOutput (name : nat).

Section Model.

Context {pool : Type} `{Ext : Externals pool}.

Record panel : Type := mkPanel {
  run_display : bool;
  outputs : list output;
  seats : list seat;
  panel_output : option nat;
  toplevels : list toplevel;
  widgets : list widget;
  panel_width : Z;
  panel_height : Z;
  panel_scale : Z;
  buffers : pool;
  current_buffer : option nat;
  cursor_shape_manager : bool;
  fd_clock : option timerfd;
  panel_conf : conf
}.

(** The state a handler runs in: the panel, the cairo context of the
    frame drawn last, the log, what was committed to the surface, the
    requests sent for widgets, and how many times the clock and the
    allocator were asked. *)
Record world : Type := mkWorld {
  w_panel : panel;
  w_cairo : list draw_op;
  w_log : list log_msg;
  w_commits : list commit;
  w_requests : list action;
  w_time_calls : nat;
  w_allocs : nat
}.

Definition set_widgets (p : panel) (ws : list widget) : panel :=
  mkPanel (run_display p) (outputs p) (seats p) (panel_output p)
    (toplevels p) ws (panel_width p) (panel_height p) (panel_scale p)
    (buffers p) (current_buffer p) (cursor_shape_manager p) (fd_clock p)
    (panel_conf p).

Definition set_toplevels (p : panel) (ts : list toplevel) : panel :=
  mkPanel (run_display p) (outputs p) (seats p) (panel_output p)
    ts (widgets p) (panel_width p) (panel_height p) (panel_scale p)
    (buffers p) (current_buffer p) (cursor_shape_manager p) (fd_clock p)
    (panel_conf p).

Definition set_seats (p : panel) (ss : list seat) : panel :=
  mkPanel (run_display p) (outputs p) ss (panel_output p)
    (toplevels p) (widgets p) (panel_width p) (panel_height p)
    (panel_scale p) (buffers p) (current_buffer p)
    (cursor_shape_manager p) (fd_clock p) (panel_conf p).

Definition set_size (p : panel) (w h : Z) : panel :=
  mkPanel (run_display p) (outputs p) (seats p) (panel_output p)
    (toplevels p) (widgets p) w h (panel_scale p)
    (buffers p) (current_buffer p) (cursor_shape_manager p) (fd_clock p)
    (panel_conf p).

Definition set_outputs (p : panel) (os : list output) : panel :=
  mkPanel (run_display p) os (seats p) (panel_output p)
    (toplevels p) (widgets p) (panel_width p) (panel_height p)
    (panel_scale p) (buffers p) (current_buffer p)
    (cursor_shape_manager p) (fd_clock p) (panel_conf p).

Definition set_output (p : panel) (o : option nat) (s : Z) : panel :=
  mkPanel (run_display p) (outputs p) (seats p) o
    (toplevels p) (widgets p) (panel_width p) (panel_height p) s
    (buffers p) (current_buffer p) (cursor_shape_manager p) (fd_clock p)
    (panel_conf p).

Definition set_buffer (p : panel) (b : option nat) (bs : pool) : panel :=
  mkPanel (run_display p) (outputs p) (seats p) (panel_output p)
    (toplevels p) (widgets p) (panel_width p) (panel_height p)
    (panel_scale p) bs b (cursor_shape_manager p) (fd_clock p)
    (panel_conf p).

Definition set_fd_clock (p : panel) (t : option timerfd) : panel :=
  mkPanel (run_display p) (outputs p) (seats p) (panel_output p)
    (toplevels p) (widgets p) (panel_width p) (panel_height p)
    (panel_scale p) (buffers p) (current_buffer p)
    (cursor_shape_manager p) t (panel_conf p).

(** ** The monad of handlers: state passing over [world], [None] for
    undefined behaviour *)

Definition M (A : Type) : Type := world -> option (A * world).

Definition ret {A : Type} (a : A) : M A := fun w => Some (a, w).

Definition bind {A B : Type} (m : M A) (f : A -> M B) : M B :=
  fun w => match m w with
           | Some (a, w') => f a w'
           | None => None
           end.

Definition int_add (a b : Z) : M Z :=
  fun w => match int_of (a + b) with Some v => Some (v, w) | None => None end.

Definition int_sub (a b : Z) : M Z :=
  fun w => match int_of (a - b) with Some v => Some (v, w) | None => None end.

Definition get_panel : M panel := fun w => Some (w_panel w, w).

Definition modify_panel (f : panel -> panel) : M unit :=
  fun w => Some (tt, mkWorld (f (w_panel w)) (w_cairo w) (w_log w)
                       (w_commits w) (w_requests w) (w_time_calls w)
                       (w_allocs w)).

Definition draw (op : draw_op) : M unit :=
  fun w => Some (tt, mkWorld (w_panel w) (w_cairo w ++ [op]) (w_log w)
                       (w_commits w) (w_requests w) (w_time_calls w)
                       (w_allocs w)).

Definition wlr_log (m : log_msg) : M unit :=
  fun w => Some (tt, mkWorld (w_panel w) (w_cairo w) (w_log w ++ [m])
                       (w_commits w) (w_requests w) (w_time_calls w)
                       (w_allocs w)).

Definition time_now : M Z :=
  fun w => Some (time_at (w_time_calls w),
                 mkWorld (w_panel w) (w_cairo w) (w_log w) (w_commits w)
                   (w_requests w) (S (w_time_calls w)) (w_allocs w)).

Definition alloc : M bool :=
  fun w => Some (alloc_ok (w_allocs w),
                 mkWorld (w_panel w) (w_cairo w) (w_log w) (w_commits w)
                   (w_requests w) (w_time_calls w) (S (w_allocs w))).

Definition request (a : action) : M unit :=
  fun w => Some (tt, mkWorld (w_panel w) (w_cairo w) (w_log w)
                       (w_commits w) (w_requests w ++ [a])
                       (w_time_calls w) (w_allocs w)).

Local Notation "x <- c1 ;; c2" := (bind c1 (fun x => c2))
  (at level 61, c1 at next level, right associativity).
Local Notation "c1 ;; c2" := (bind c1 (fun _ => c2))
  (at level 61, right associativity).

(** ** Text and colours *)

(** [strchr (s, c) != NULL] for a character [c] other than NUL. *)
Fixpoint strchr (s : string) (c : ascii) : bool :=
  match s with
  | EmptyString => false
  | String d rest => if Ascii.eqb d c then true else strchr rest c
  end.

Definition digit (d : Z) : ascii := ascii_of_nat (48 + Z.to_nat d).

Definition two_digits (n : Z) : string :=
  String (digit (n / 10 mod 10)) (String (digit (n mod 10)) EmptyString).

(** [strftime (buf, 6, "%H:%M", tm)]. *)
Definition strftime_HM (tm : Z * Z) : string :=
  String.append (two_digits (fst tm))
    (String.append ":" (two_digits (snd tm))).

(** [cairo_set_source_u32]: the four bytes of the colour, most significant
    first, each divided by 255. *)
Definition channel (color k : Z) : QArith_base.Q :=
  QArith_base.Qmake (Z.land (Z.shiftr color (k * 8)) 255) 255.

Definition cairo_set_source_u32 (color : Z) : M unit :=
  draw (SetSourceRGBA (channel color 3) (channel color 2)
          (channel color 1) (channel color 0)).

(** [render_text] with a plain-text format: the label is shown at the
    current point. *)
Definition render_text (label : string) : M unit := draw (ShowText label).

(** ** Widgets *)

Definition widgets_free : M unit :=
  modify_panel (fun p => set_widgets p []).

(** [wl_list_insert (panel->widgets.prev, ...)] appends at the tail. *)
Definition widget_add (x width : Z) (tl : option nat) : M unit :=
  ok <- alloc ;;
  if ok
  then modify_panel (fun p => set_widgets p (widgets p ++ [mkWidget x width tl]))
  else wlr_log LogAllocWidget.

(** The label of a taskbar button; the same expression occurs in
    [taskbar_natural_width] and in [render_taskbar]. *)
Definition toplevel_label (t : toplevel) : string :=
  match title t with
  | Some s => s
  | None => match app_id t with
            | Some a => a
            | None => "?"
            end
  end.

(** The body of the loop of [taskbar_natural_width]. *)
Fixpoint taskbar_natural_width_loop (tls : list toplevel) (total : Z) : M Z :=
  match tls with
  | [] => ret total
  | t :: rest =>
      let label := toplevel_label t in
      let text_width := fst (text_size label) in
      w0 <- int_add text_width (2 * BUTTON_PADDING) ;;
      let btn_width :=
        if BUTTON_MAX_WIDTH <? w0 then BUTTON_MAX_WIDTH else w0 in
      d <- int_add btn_width BUTTON_PADDING ;;
      total' <- int_add total d ;;
      taskbar_natural_width_loop rest total'
  end.

Definition taskbar_natural_width : M Z :=
  p <- get_panel ;;
  taskbar_natural_width_loop (toplevels p) BUTTON_PADDING.

Definition clock_natural_width : M Z :=
  t <- time_now ;;
  let buf := strftime_HM (localtime t) in
  let text_width := fst (text_size buf) in
  int_add text_width (2 * BUTTON_PADDING).

(** The body of the loop of [render_taskbar]; [x] is the cursor. *)
Fixpoint render_taskbar_loop (tls : list toplevel) (x : Z) : M Z :=
  match tls with
  | [] => ret x
  | t :: rest =>
      let label := toplevel_label t in
      let text_width := fst (text_size label) in
      let text_height := snd (text_size label) in
      w0 <- int_add text_width (2 * BUTTON_PADDING) ;;
      let btn_width :=
        if BUTTON_MAX_WIDTH <? w0 then BUTTON_MAX_WIDTH else w0 in
      widget_add x btn_width (Some (handle t)) ;;
      p <- get_panel ;;
      cairo_set_source_u32
        (if active t then button_active (panel_conf p)
         else button_background (panel_conf p)) ;;
      draw (Rectangle x 2 btn_width (u32 (panel_height p - 4))) ;;
      draw Fill ;;
      draw Save ;;
      xp <- int_add x BUTTON_PADDING ;;
      wp <- int_sub btn_width (2 * BUTTON_PADDING) ;;
      draw (Rectangle xp 0 wp (panel_height p)) ;;
      draw Clip ;;
      cairo_set_source_u32 (text (panel_conf p)) ;;
      draw (MoveTo xp
              (QArith_base.inject_Z (u32 (panel_height p - text_height) / 2))) ;;
      render_text label ;;
      draw Restore ;;
      d <- int_add btn_width BUTTON_PADDING ;;
      x' <- int_add x d ;;
      render_taskbar_loop rest x'
  end.

Definition render_taskbar (start_x : Z) : M Z :=
  x0 <- int_add start_x BUTTON_PADDING ;;
  p <- get_panel ;;
  x <- render_taskbar_loop (toplevels p) x0 ;;
  int_sub x start_x.

Definition render_clock (start_x : Z) : M Z :=
  t <- time_now ;;
  let buf := strftime_HM (localtime t) in
  let text_width := fst (text_size buf) in
  let text_height := snd (text_size buf) in
  width <- int_add text_width (2 * BUTTON_PADDING) ;;
  widget_add start_x width None ;;
  p <- get_panel ;;
  cairo_set_source_u32 (text (panel_conf p)) ;;
  xp <- int_add start_x BUTTON_PADDING ;;
  draw (MoveTo xp (QArith_base.Qmake (u32 (panel_height p - text_height)) 2)) ;;
  render_text buf ;;
  ret width.

(** ** The layout pass *)

(** The first loop of [render_to_cairo]: the widths of the items that are
    not spacers. *)
Fixpoint fixed_width_loop (items : string) (fixed_width : Z) : M Z :=
  match items with
  | EmptyString => ret fixed_width
  | String c rest =>
      fixed_width' <-
        (if Ascii.eqb c "T" then
           n <- taskbar_natural_width ;; int_add fixed_width n
         else if Ascii.eqb c "C" then
           n <- clock_natural_width ;; int_add fixed_width n
         else ret fixed_width) ;;
      fixed_width_loop rest fixed_width'
  end.

(** The block of [render_to_cairo] that computes [spacer_width]. *)
Definition compute_spacer_width (items : string) : M Z :=
  if strchr items "S" then
    fixed_width <- fixed_width_loop items 0 ;;
    p <- get_panel ;;
    spacer_width <- int_sub (int_of_u32 (panel_width p)) fixed_width ;;
    ret (if spacer_width <? 0 then 0 else spacer_width)
  else ret 0.

(** The second loop of [render_to_cairo]; [x] is the cursor. *)
Fixpoint layout_loop (spacer_width : Z) (items : string) (x : Z) : M Z :=
  match items with
  | EmptyString => ret x
  | String c rest =>
      x' <-
        (if Ascii.eqb c "T" then
           d <- render_taskbar x ;; int_add x d
         else if Ascii.eqb c "C" then
           d <- render_clock x ;; int_add x d
         else if Ascii.eqb c "S" then
           int_add x spacer_width
         else
           wlr_log (LogUnknownCode c) ;; ret x) ;;
      layout_loop spacer_width rest x'
  end.

(** The separator drawn after the items. *)
Definition draw_separator : M unit :=
  p <- get_panel ;;
  cairo_set_source_u32 (text (panel_conf p)) ;;
  draw (Rectangle 0 (panel_height p) (panel_width p) 1) ;;
  draw Fill.

(** The block of [render_to_cairo] guarded by [panel->conf->panel_items];
    it returns the final cursor. *)
Definition render_items (items : string) : M Z :=
  spacer_width <- compute_spacer_width items ;;
  layout_loop spacer_width items 0.

Definition render_to_cairo : M unit :=
  draw SetOperatorSource ;;
  p <- get_panel ;;
  cairo_set_source_u32 (background (panel_conf p)) ;;
  draw Paint ;;
  widgets_free ;;
  match panel_items (panel_conf p) with
  | Some items => render_items items ;; ret tt
  | None => ret tt
  end ;;
  draw_separator.

(** A new recording surface and its context. *)
Definition new_recorder : M unit :=
  fun w => Some (tt, mkWorld (w_panel w) [] (w_log w) (w_commits w)
                       (w_requests w) (w_time_calls w) (w_allocs w)).

(** Attach the buffer, damage and commit: the frame shown is what was
    recorded.  [wl_surface_damage] takes [int32_t] arguments, to which the
    [uint32_t] width and height of the panel are converted.  The round
    trip that follows is taken to deliver no event. *)
Definition surface_commit (b : nat) : M unit :=
  fun w =>
    let p := w_panel w in
    Some (tt, mkWorld p (w_cairo w) (w_log w)
                (w_commits w ++
                   [mkCommit b (panel_scale p) (w_cairo w)
                      (int_of_u32 (panel_width p),
                       int_of_u32 (panel_height p))])
                (w_requests w) (w_time_calls w) (w_allocs w)).

Definition render_frame : M unit :=
  p <- get_panel ;;
  if negb (run_display p) || (panel_width p =? 0) || (panel_height p =? 0)
  then ret tt
  else
    new_recorder ;;
    draw (Scale (panel_scale p) (panel_scale p)) ;;
    draw Save ;;
    draw SetOperatorClear ;;
    draw Paint ;;
    draw Restore ;;
    render_to_cairo ;;
    p' <- get_panel ;;
    let nb := get_next_buffer (buffers p')
                (u32 (panel_width p' * panel_scale p'))
                (u32 (panel_height p' * panel_scale p')) in
    modify_panel (fun q => set_buffer q (fst nb) (snd nb)) ;;
    match fst nb with
    | None => ret tt
    | Some b => surface_commit b
    end.

(** ** Protocol handlers *)

Definition set_active (t : toplevel) (b : bool) : toplevel :=
  mkToplevel (handle t) (title t) (app_id t) b.

(** [strdup]: [NULL] when the allocation fails. *)
Definition strdup (s : string) : M (option string) :=
  ok <- alloc ;; ret (if ok then Some s else None).

Definition handle_toplevel_title (t : toplevel) (s : string) : M toplevel :=
  d <- strdup s ;;
  match d with
  | Some _ => ret tt
  | None => wlr_log (LogPerror "strdup")
  end ;;
  ret (mkToplevel (handle t) d (app_id t) (active t)).

Definition handle_toplevel_app_id (t : toplevel) (s : string) : M toplevel :=
  d <- strdup s ;;
  match d with
  | Some _ => ret tt
  | None => wlr_log (LogPerror "strdup")
  end ;;
  ret (mkToplevel (handle t) (title t) d (active t)).

(** [handle_toplevel_state]: the flag is cleared, then set at each entry
    of the array equal to the activated state. *)
Definition handle_toplevel_state (t : toplevel) (state : list Z) : toplevel :=
  fold_left
    (fun t' entry => if entry =? STATE_ACTIVATED then set_active t' true else t')
    state (set_active t false).

(** The entry a [struct toplevel *] with handle [h] points to. *)
Definition find_toplevel (h : nat) (ts : list toplevel) : option toplevel :=
  find (fun t => Nat.eqb (handle t) h) ts.

Fixpoint store_toplevel (t : toplevel) (ts : list toplevel) : list toplevel :=
  match ts with
  | [] => []
  | u :: rest =>
      if Nat.eqb (handle u) (handle t) then t :: rest
      else u :: store_toplevel t rest
  end.

(** [wl_list_remove] of the entry with handle [h]. *)
Fixpoint remove_toplevel (h : nat) (ts : list toplevel) : list toplevel :=
  match ts with
  | [] => []
  | u :: rest =>
      if Nat.eqb (handle u) h then rest else u :: remove_toplevel h rest
  end.

(** Run a handler on the entry with handle [h] and store what it leaves;
    no event is delivered for a handle that has no entry. *)
Definition with_toplevel (h : nat) (f : toplevel -> M toplevel) : M unit :=
  p <- get_panel ;;
  match find_toplevel h (toplevels p) with
  | None => ret tt
  | Some t =>
      t' <- f t ;;
      modify_panel (fun q => set_toplevels q (store_toplevel t' (toplevels q)))
  end.

Definition handle_toplevel_done : M unit := render_frame.

(** [toplevel_destroy] unlinks and frees the entry; the widgets that
    point to it stay in [panel->widgets] until the next pass. *)
Definition toplevel_destroy (h : nat) : M unit :=
  modify_panel (fun q => set_toplevels q (remove_toplevel h (toplevels q))).

Definition handle_toplevel_closed (h : nat) : M unit :=
  toplevel_destroy h ;; render_frame.

Definition handle_toplevel_manager_toplevel (h : nat) : M unit :=
  ok <- alloc ;;
  if ok
  then modify_panel
         (fun q => set_toplevels q (toplevels q ++ [mkToplevel h None None false]))
  else wlr_log (LogPerror "calloc").

Definition layer_surface_configure (width height : Z) : M unit :=
  modify_panel (fun q => set_size q width height) ;;
  render_frame.

(** [surface_enter]: the first output of the list bound to [o]. *)
Definition surface_enter (o : nat) : M unit :=
  p <- get_panel ;;
  match find (fun po => Nat.eqb (wl_output po) o) (outputs p) with
  | Some po =>
      modify_panel
        (fun q => set_output q (Some (wl_output po)) (int_of_u32 (out_scale po))) ;;
      render_frame
  | None => ret tt
  end.

(** [output_scale]; the cursor images of the seats are not modelled. *)
Definition output_scale (o : nat) (factor : Z) : M unit :=
  modify_panel
    (fun q => set_outputs q
       (map (fun po => if Nat.eqb (wl_output po) o
                       then mkOutput (wl_output po) (u32 factor) else po)
          (outputs q))) ;;
  p <- get_panel ;;
  match panel_output p with
  | Some a =>
      if Nat.eqb a o then
        modify_panel (fun q => set_output q (Some a) (int_of_u32 (u32 factor))) ;;
        render_frame
      else ret tt
  | None => ret tt
  end.

(** [handle_global] for a seat: the new seat is bound to the global
    [name] and inserted at the head of [panel->seats]. *)
Definition handle_global_seat (name : nat) : M unit :=
  ok <- alloc ;;
  if ok
  then modify_panel
         (fun q => set_seats q (mkSeat name (mkPointer 0 0 0) :: seats q))
  else wlr_log (LogPerror "calloc").

(** [handle_global] for an output, which is recorded as long as the panel
    has no output of its own. *)
Definition handle_global_output (name : nat) : M unit :=
  p <- get_panel ;;
  match panel_output p with
  | None =>
      ok <- alloc ;;
      if ok
      then modify_panel
             (fun q => set_outputs q (mkOutput name 1 :: outputs q))
      else wlr_log (LogPerror "calloc")
  | Some _ => ret tt
  end.

(** [wl_fixed_to_int]: a 24.8 fixed-point number divided by 256, rounding
    towards zero. *)
Definition wl_fixed_to_int (f : Z) : Z := Z.quot f 256.

(** [wl_pointer_enter]; the serial is stored on the path that loads a
    cursor theme, which is not modelled. *)
Definition wl_pointer_enter (cursor_shape : bool) (s : seat)
    (serial surface_x surface_y : Z) : seat :=
  mkSeat (wl_seat s)
    (mkPointer
       (if cursor_shape then ptr_serial (seat_pointer s) else serial)
       (wl_fixed_to_int surface_x) (wl_fixed_to_int surface_y)).

Definition wl_pointer_motion (s : seat) (surface_x surface_y : Z) : seat :=
  mkSeat (wl_seat s)
    (mkPointer (ptr_serial (seat_pointer s))
       (wl_fixed_to_int surface_x) (wl_fixed_to_int surface_y)).

(** The loop of [wl_pointer_button] over [panel->widgets].  At the widget
    hit, [widget->toplevel->handle] is read from the entry the widget
    points to, without a check: when that entry has been freed the read is
    a use after free, which is undefined. *)
Fixpoint button_scan (ws : list widget) (x : Z) (s : seat) : M unit :=
  match ws with
  | [] => ret tt
  | widget :: rest =>
      hit <-
        (if widget_x widget <=? x then
           right <- int_add (widget_x widget) (widget_width widget) ;;
           ret (x <? right)
         else ret false) ;;
      if hit then
        match widget_toplevel widget with
        | Some h =>
            p <- get_panel ;;
            match find_toplevel h (toplevels p) with
            | Some t => request (Activate (handle t) (wl_seat s))
            | None => fun _ => None
            end
        | None => ret tt
        end
      else button_scan rest x s
  end.

Definition wl_pointer_button (s : seat) (state : Z) : M unit :=
  if negb (state =? BUTTON_STATE_PRESSED) then ret tt
  else
    p <- get_panel ;;
    button_scan (widgets p) (ptr_x (seat_pointer s)) s.

(** ** The clock timer of [panel_setup] *)

(** [time_t] is a 64-bit signed integer. *)
Definition time_t_of (z : Z) : M Z :=
  fun w => if (- 2 ^ 63 <=? z) && (z <=? 2 ^ 63 - 1) then Some (z, w) else None.

(** The block of [panel_setup] that sets [pollfds[FD_CLOCK]]; [now_sec] is
    the [tv_sec] that [clock_gettime (CLOCK_REALTIME)] returns.  [%] of C
    truncates towards zero. *)
Definition panel_setup_clock (now_sec : Z) : M unit :=
  p <- get_panel ;;
  if match panel_items (panel_conf p) with
     | Some items => strchr items "C"
     | None => false
     end
  then
    v0 <- time_t_of (now_sec - Z.rem now_sec 60) ;;
    v <- time_t_of (v0 + 60) ;;
    modify_panel (fun q => set_fd_clock q (Some (mkTimerfd true 60 v)))
  else
    modify_panel (fun q => set_fd_clock q None).

(** The panel of [main] when [panel_setup] starts to listen: zero
    everywhere and with empty lists, but for the scale, which is 1. *)
Definition panel_init (c : conf) (bufs : pool) : panel :=
  mkPanel false [] [] None [] [] 0 0 1 bufs None false None c.

Definition world_init (c : conf) (bufs : pool) : world :=
  mkWorld (panel_init c bufs) [] [] [] [] 0 0.

Definition find_seat (s : nat) (ss : list seat) : option seat :=
  find (fun a => Nat.eqb (wl_seat a) s) ss.

Definition store_seat (a : seat) (ss : list seat) : list seat :=
  map (fun b => if Nat.eqb (wl_seat b) (wl_seat a) then a else b) ss.

Definition set_run_display (p : panel) (b : bool) : panel :=
  mkPanel b (outputs p) (seats p) (panel_output p)
    (toplevels p) (widgets p) (panel_width p) (panel_height p)
    (panel_scale p) (buffers p) (current_buffer p)
    (cursor_shape_manager p) (fd_clock p) (panel_conf p).

(** What the listeners do with an event; an event for a handle or a seat
    that has no entry is not delivered.  [EvPanelRun] is the first
    statement of [panel_run]; [EvRenderFrame] is a call of [render_frame]
    by [panel_run], for the first frame and at each tick of the clock;
    [EvGlobalSeat] and [EvGlobalOutput] are the announcements of the
    registry that [handle_global] records. *)
Definition dispatch (e : event) : M unit :=
  p <- get_panel ;;
  match e with
  | EvToplevel h => handle_toplevel_manager_toplevel h
  | EvTitle h s => with_toplevel h (fun t => handle_toplevel_title t s)
  | EvAppId h s => with_toplevel h (fun t => handle_toplevel_app_id t s)
  | EvState h state =>
      with_toplevel h (fun t => ret (handle_toplevel_state t state))
  | EvDone h =>
      match find_toplevel h (toplevels p) with
      | Some _ => handle_toplevel_done
      | None => ret tt
      end
  | EvClosed h =>
      match find_toplevel h (toplevels p) with
      | Some _ => handle_toplevel_closed h
      | None => ret tt
      end
  | EvConfigure width height => layer_surface_configure width height
  | EvSurfaceEnter o => surface_enter o
  | EvOutputScale o factor => output_scale o factor
  | EvPointerEnter s serial sx sy =>
      match find_seat s (seats p) with
      | Some a =>
          modify_panel (fun q => set_seats q
            (store_seat (wl_pointer_enter (cursor_shape_manager q) a serial sx sy)
               (seats q)))
      | None => ret tt
      end
  | EvPointerMotion s sx sy =>
      match find_seat s (seats p) with
      | Some a =>
          modify_panel (fun q => set_seats q
            (store_seat (wl_pointer_motion a sx sy) (seats q)))
      | None => ret tt
      end
  | EvPointerButton s state =>
      match find_seat s (seats p) with
      | Some a => wl_pointer_button a state
      | None => ret tt
      end
  | EvPanelRun => modify_panel (fun q => set_run_display q true)
  | EvRenderFrame => render_frame
  | EvGlobalSeat name => handle_global_seat name
  | EvGlobalOutput name => handle_global_output name
  end.

Fixpoint run (es : list event) : M unit :=
  match es with
  | [] => ret tt
  | e :: rest => dispatch e ;; run rest
  end.

(** ** Notions used by the statements *)

(** The natural widths of the taskbar and clock items of a string, in
    order, as [taskbar_natural_width] and [clock_natural_width] return
    them. *)
Fixpoint natural_widths (items : string) : M (list Z) :=
  match items with
  | EmptyString => ret []
  | String c rest =>
      if Ascii.eqb c "T" then
        n <- taskbar_natural_width ;;
        ns <- natural_widths rest ;;
        ret (n :: ns)
      else if Ascii.eqb c "C" then
        n <- clock_natural_width ;;
        ns <- natural_widths rest ;;
        ret (n :: ns)
      else natural_widths rest
  end.

Definition sum_Z (l : list Z) : Z := fold_right Z.add 0 l.

(** [z] lies in the interval [[x, x + width)] of a widget. *)
Definition in_widget (a : widget) (z : Z) : Prop :=
  widget_x a <= z < widget_x a + widget_width a.

(** The entry a widget points to, if any, is still in the registry of the
    panel: it has not been freed since the widget was made. *)
Definition alive (p : panel) (a : widget) : Prop :=
  forall h, widget_toplevel a = Some h -> In h (map handle (toplevels p)).

Definition in_widgetb (a : widget) (z : Z) : bool :=
  (widget_x a <=? z) && (z <? widget_x a + widget_width a).

(** Widgets laid out one after the other from [lo] on. *)
Fixpoint chain (lo : Z) (ws : list widget) : Prop :=
  match ws with
  | [] => True
  | a :: rest =>
      lo <= widget_x a /\ 0 <= widget_width a /\
      chain (widget_x a + widget_width a) rest
  end.

(** The right edge of the last widget, or [lo] for an empty list. *)
Fixpoint right_end (lo : Z) (ws : list widget) : Z :=
  match ws with
  | [] => lo
  | a :: rest => right_end (widget_x a + widget_width a) rest
  end.

(** The width of a taskbar button, as the claim words it. *)
Definition button_width (t : toplevel) : Z :=
  Z.min (fst (text_size (toplevel_label t)) + 2 * BUTTON_PADDING)
    BUTTON_MAX_WIDTH.

(** The buttons of one taskbar whose first button starts at [x], and the
    cursor after the last one. *)
Fixpoint taskbar_buttons (x : Z) (tls : list toplevel) : list widget :=
  match tls with
  | [] => []
  | t :: rest =>
      mkWidget x (button_width t) (Some (handle t))
      :: taskbar_buttons (x + (button_width t + BUTTON_PADDING)) rest
  end.

Fixpoint taskbar_end (x : Z) (tls : list toplevel) : Z :=
  match tls with
  | [] => x
  | t :: rest => taskbar_end (x + (button_width t + BUTTON_PADDING)) rest
  end.

(** The label and the width of the clock at the [k]-th reading of the
    time. *)
Definition clock_label (k : nat) : string :=
  strftime_HM (localtime (time_at k)).

Definition clock_width (k : nat) : Z :=
  fst (text_size (clock_label k)) + 2 * BUTTON_PADDING.

(** The widgets one pass over [items] asks for, from cursor [x] on, when
    the next reading of the time is the [k]-th, and the final cursor. *)
Fixpoint layout_widgets (tls : list toplevel) (spacer_width : Z)
    (items : string) (x : Z) (k : nat) : list widget :=
  match items with
  | EmptyString => []
  | String c rest =>
      if Ascii.eqb c "T" then
        taskbar_buttons (x + BUTTON_PADDING) tls ++
        layout_widgets tls spacer_width rest
          (taskbar_end (x + BUTTON_PADDING) tls) k
      else if Ascii.eqb c "C" then
        mkWidget x (clock_width k) None
        :: layout_widgets tls spacer_width rest (x + clock_width k) (S k)
      else if Ascii.eqb c "S" then
        layout_widgets tls spacer_width rest (x + spacer_width) k
      else layout_widgets tls spacer_width rest x k
  end.

Fixpoint layout_end (tls : list toplevel) (spacer_width : Z)
    (items : string) (x : Z) (k : nat) : Z :=
  match items with
  | EmptyString => x
  | String c rest =>
      if Ascii.eqb c "T" then
        layout_end tls spacer_width rest
          (taskbar_end (x + BUTTON_PADDING) tls) k
      else if Ascii.eqb c "C" then
        layout_end tls spacer_width rest (x + clock_width k) (S k)
      else if Ascii.eqb c "S" then
        layout_end tls spacer_width rest (x + spacer_width) k
      else layout_end tls spacer_width rest x k
  end.

(** The widgets of a list whose allocation succeeds, the first one being
    the [k]-th allocation. *)
Fixpoint allocated (k : nat) (ws : list widget) : list widget :=
  match ws with
  | [] => []
  | a :: rest =>
      if alloc_ok k then a :: allocated (S k) rest else allocated (S k) rest
  end.

(** The labels shown by a list of drawing operations. *)
Fixpoint shown (ops : list draw_op) : list string :=
  match ops with
  | [] => []
  | ShowText s :: rest => s :: shown rest
  | _ :: rest => shown rest
  end.

(** The rectangles of a list of drawing operations. *)
Fixpoint rectangles (ops : list draw_op) : list (Z * Z * Z * Z) :=
  match ops with
  | [] => []
  | Rectangle rx ry rw rh :: rest => (rx, ry, rw, rh) :: rectangles rest
  | _ :: rest => rectangles rest
  end.

(** The world after one more request. *)
Definition sent (w : world) (a : action) : world :=
  mkWorld (w_panel w) (w_cairo w) (w_log w) (w_commits w)
    (w_requests w ++ [a]) (w_time_calls w) (w_allocs w).

(** The effect of a step of the layout on the world: widgets and drawing
    operations are appended, the clock and the allocator are consulted,
    nothing else changes. *)
Definition lays (w w' : world) (ws : list widget) (ops : list draw_op)
    (dk da : nat) : Prop :=
  w_panel w' =
    set_widgets (w_panel w) (widgets (w_panel w) ++ allocated (w_allocs w) ws) /\
  w_cairo w' = w_cairo w ++ ops /\
  w_commits w' = w_commits w /\
  w_requests w' = w_requests w /\
  w_time_calls w' = (w_time_calls w + dk)%nat /\
  w_allocs w' = (w_allocs w + da)%nat.

(** The state of a panel that has not been given a size yet. *)
Definition unsized (w v : world) : Prop :=
  widgets (w_panel v) = [] /\
  (panel_width (w_panel v) = 0 \/ panel_height (w_panel v) = 0) /\
  w_requests v = w_requests w /\ w_commits v = w_commits w /\
  w_cairo v = w_cairo w.

(** The right edges of the widgets of a pass fit an [int], as
    [wl_pointer_button] expects. *)
Definition fits (a : widget) : Prop :=
  INT_MIN <= widget_x a + widget_width a <= INT_MAX.

(** The measured width of the label of a window lies between 0 and
    [B]. *)
Definition label_bounded (B : Z) (t : toplevel) : Prop :=
  0 <= fst (text_size (toplevel_label t)) <= B.

Definition with_widgets (w : world) (ws : list widget) : world :=
  mkWorld (set_widgets (w_panel w) ws) (w_cairo w) (w_log w) (w_commits w)
    (w_requests w) (w_time_calls w) (w_allocs w).

(** The layout the end-to-end scenario is said to give for the window
    with handle [h] on a panel 800 wide: a button at 8, a spacer, and a
    clock whose right edge is one padding before 800. *)
Definition claimed_editor_layout (ws : list widget) (h : nat) : Prop :=
  exists b sp c,
    ws = [b; sp; c] /\
    widget_x b = 8 /\ widget_toplevel b = Some h /\
    widget_toplevel sp = None /\
    widget_toplevel c = None /\
    widget_x c + widget_width c = 800 - BUTTON_PADDING.

(** Every configure event of the list has an empty size. *)
Definition empty_configure (e : event) : Prop :=
  match e with
  | EvConfigure width height => width = 0 \/ height = 0
  | _ => True
  end.

(** ** Further notions: the pass in closed form *)

(** The number of occurrences of a code in an item string. *)
Fixpoint count_code (c : ascii) (items : string) : nat :=
  match items with
  | EmptyString => 0%nat
  | String d rest =>
      if Ascii.eqb d c then S (count_code c rest) else count_code c rest
  end.

(** The sum of the natural widths of the items, the next reading of the
    time being the [k]-th. *)
Fixpoint natural_sum (tls : list toplevel) (items : string) (k : nat) : Z :=
  match items with
  | EmptyString => 0
  | String c rest =>
      if Ascii.eqb c "T" then
        taskbar_end BUTTON_PADDING tls + natural_sum tls rest k
      else if Ascii.eqb c "C" then
        clock_width k + natural_sum tls rest (S k)
      else natural_sum tls rest k
  end.

(** The spacer width of a pass of a panel [panel_w] wide, and the reading
    of the time at which its layout loop starts. *)
Definition spacer_of (tls : list toplevel) (items : string) (k : nat)
    (panel_w : Z) : Z :=
  if strchr items "S"
  then Z.max 0 (int_of_u32 panel_w - natural_sum tls items k)
  else 0.

Definition layout_start (items : string) (k : nat) : nat :=
  if strchr items "S" then (k + count_code "C" items)%nat else k.

(** The widgets a pass asks for. *)
Definition pass_widgets (p : panel) (k : nat) : list widget :=
  match panel_items (panel_conf p) with
  | Some items =>
      layout_widgets (toplevels p)
        (spacer_of (toplevels p) items k (panel_width p)) items 0
        (layout_start items k)
  | None => []
  end.

(** [handle_global_remove]: the panel stops when the global of its output
    goes, and the seats bound to the global are destroyed.  The function
    reads [panel->output->wl_name] whether the panel is on an output or
    not, so that it is undefined while [panel->output] is [NULL]. *)
Definition handle_global_remove (name : nat) : M unit :=
  p <- get_panel ;;
  match panel_output p with
  | None => fun _ => None
  | Some o =>
      (if Nat.eqb o name
       then modify_panel (fun q => set_run_display q false)
       else ret tt) ;;
      modify_panel
        (fun q => set_seats q
           (filter (fun a => negb (Nat.eqb (wl_seat a) name)) (seats q)))
  end.

(** What [render_taskbar] draws for the window [t] whose button has the
    position and the width of the widget [a], on a panel of the given
    height. *)
Definition button_ops (c : conf) (height : Z) (ta : toplevel * widget) :
    list draw_op :=
  let t := fst ta in
  let a := snd ta in
  let color := if active t then button_active c else button_background c in
  [SetSourceRGBA (channel color 3) (channel color 2) (channel color 1)
     (channel color 0);
   Rectangle (widget_x a) 2 (widget_width a) (u32 (height - 4));
   Fill;
   Save;
   Rectangle (widget_x a + BUTTON_PADDING) 0
     (widget_width a - 2 * BUTTON_PADDING) height;
   Clip;
   SetSourceRGBA (channel (text c) 3) (channel (text c) 2)
     (channel (text c) 1) (channel (text c) 0);
   MoveTo (widget_x a + BUTTON_PADDING)
     (QArith_base.inject_Z
        (u32 (height - snd (text_size (toplevel_label t))) / 2));
   ShowText (toplevel_label t);
   Restore].

(** The item codes the layout pass knows, in order, and the others. *)
Definition known_code (c : ascii) : bool :=
  Ascii.eqb c "T" || Ascii.eqb c "C" || Ascii.eqb c "S".

Fixpoint known_codes (items : string) : string :=
  match items with
  | EmptyString => EmptyString
  | String c rest =>
      if known_code c then String c (known_codes rest) else known_codes rest
  end.

Fixpoint unknown_codes (items : string) : list ascii :=
  match items with
  | EmptyString => []
  | String c rest =>
      if known_code c then unknown_codes rest else c :: unknown_codes rest
  end.

(** The codes the log reports as unknown, in order. *)
Fixpoint unknown_logged (l : list log_msg) : list ascii :=
  match l with
  | [] => []
  | LogUnknownCode c :: rest => c :: unknown_logged rest
  | _ :: rest => unknown_logged rest
  end.

End Model.

Notation "x <- c1 ;; c2" := (bind c1 (fun x => c2))
  (at level 61, c1 at next level, right associativity).
Notation "c1 ;; c2" := (bind c1 (fun _ => c2))
  (at level 61, right associativity).

(** ** A concrete setting, to run the model *)

(** [conf_init]: the colours and the item string of the default
    configuration. *)
Definition conf_init : conf :=
  mkConf 842150655 4294967295 1246382847 1519044351 (Some "TSC").

(** Seven pixels a character and fifteen pixels high, a clock that reads
    09:05, allocations that succeed, one buffer that is always free, and
    the values of the protocol constants. *)
Definition ext_example : Externals unit :=
  {| get_next_buffer := fun _ _ _ => (Some 0%nat, tt);
     text_size := fun s => (7 * Z.of_nat (String.length s), 15);
     time_at := fun k => 32700 + Z.of_nat k;
     localtime := fun t => ((t / 3600) mod 24, (t / 60) mod 60);
     alloc_ok := fun _ => true;
     STATE_ACTIVATED := 2;
     BUTTON_STATE_PRESSED := 1 |}.

Definition editor : toplevel := mkToplevel 1 (Some "Editor") None false.

(** A running panel 800 wide and 30 high with the default configuration
    and the one window. *)
Definition editor_panel : @panel unit :=
  @mkPanel unit true [mkOutput 0 1] [mkSeat 0 (mkPointer 0 0 0)]
    None [editor] [] 800 30 1 tt None false None conf_init.

Definition editor_world : @world unit :=
  @mkWorld unit editor_panel [] [] [] [] 0 0.

(** The same panel with the widgets a pass leaves. *)
Definition editor_rendered : @world unit :=
  @mkWorld unit
    (set_widgets editor_panel
       [mkWidget 8 58 (Some 1%nat); mkWidget 749 51 None])
    [] [] [] [] 2 2.

(** The same panel before its first configure event, with the pointer
    of its seat at 10. *)
Definition editor_unsized : @world unit :=
  @mkWorld unit
    (@mkPanel unit true [mkOutput 0 1] [mkSeat 0 (mkPointer 0 10 0)]
       None [editor] [] 0 0 1 tt None false None conf_init)
    [] [] [] [] 0 0.

(** The panel of the example once its surface is on the output 5. *)
Definition editor_on_output : @world unit :=
  @mkWorld unit (set_output editor_panel (Some 5%nat) 1) [] [] [] [] 0 0.

(** The panel of the example with an item code that is not known. *)
Definition editor_unknown_code : @world unit :=
  @mkWorld unit
    (@mkPanel unit true [mkOutput 0 1] [mkSeat 0 (mkPointer 0 0 0)]
       None [editor] [] 800 30 1 tt None false None
       (mkConf 842150655 4294967295 1246382847 1519044351 (Some "TxSC")))
    [] [] [] [] 0 0.

(** The panel of the example after a pass, a motion of the pointer to 10
    and a configure event of width 0: the widgets of the pass are still
    in the list. *)
Definition editor_shrunk : @world unit :=
  @mkWorld unit
    (set_size
       (set_seats
          (set_widgets editor_panel
             [mkWidget 8 58 (Some 1%nat); mkWidget 749 51 None])
          [mkSeat 0 (mkPointer 0 10 0)])
       0 30)
    [] [] [] [] 2 2.

(** * Proofs *)

Arguments u32 : simpl never.
Arguments int_of_u32 : simpl never.
Arguments channel : simpl never.
Arguments in_int : simpl never.
Arguments strftime_HM : simpl never.

Section Proofs.

Context {pool : Type} `{Ext : Externals pool}.
Local Abbreviation panel := (@panel pool).
Local Abbreviation world := (@world pool).
Local Abbreviation M := (@M pool).

Lemma bind_inv {A B : Type} (m : M A) (f : A -> M B) (w : world) r :
  bind m f w = Some r ->
  exists a w1, m w = Some (a, w1) /\ f a w1 = Some r.
Proof.
  unfold bind. destruct (m w) as [[a w1]|] eqn:E; [|discriminate].
  intros H. exists a, w1. split; [reflexivity | exact H].
Qed.

Lemma bind_Some {A B : Type} (m : M A) (f : A -> M B) (w w1 : world) a :
  m w = Some (a, w1) -> bind m f w = f a w1.
Proof. intros H. unfold bind. rewrite H. reflexivity. Qed.

Lemma in_int_iff z : in_int z = true <-> INT_MIN <= z <= INT_MAX.
Proof. unfold in_int. rewrite andb_true_iff, !Z.leb_le. tauto. Qed.

Lemma int_add_inv a b (w w' : world) v :
  int_add a b w = Some (v, w') ->
  v = a + b /\ w' = w /\ INT_MIN <= a + b <= INT_MAX.
Proof.
  unfold int_add, int_of. destruct (in_int (a + b)) eqn:E; [|discriminate].
  intros H. inversion H. apply in_int_iff in E. auto.
Qed.

Lemma int_sub_inv a b (w w' : world) v :
  int_sub a b w = Some (v, w') ->
  v = a - b /\ w' = w /\ INT_MIN <= a - b <= INT_MAX.
Proof.
  unfold int_sub, int_of. destruct (in_int (a - b)) eqn:E; [|discriminate].
  intros H. inversion H. apply in_int_iff in E. auto.
Qed.

Lemma int_add_ok a b (w : world) :
  INT_MIN <= a + b <= INT_MAX -> int_add a b w = Some (a + b, w).
Proof.
  intros H. apply in_int_iff in H. unfold int_add, int_of. rewrite H.
  reflexivity.
Qed.

Lemma int_sub_ok a b (w : world) :
  INT_MIN <= a - b <= INT_MAX -> int_sub a b w = Some (a - b, w).
Proof.
  intros H. apply in_int_iff in H. unfold int_sub, int_of. rewrite H.
  reflexivity.
Qed.

Lemma strchr_In s c : strchr s c = true <-> In c (list_ascii_of_string s).
Proof.
  induction s as [|d s IH]; simpl.
  - split; [discriminate | tauto].
  - destruct (Ascii.eqb d c) eqn:E.
    + apply Ascii.eqb_eq in E. tauto.
    + apply Ascii.eqb_neq in E. rewrite IH. split; [tauto|].
      intros [H|H]; [contradiction | exact H].
Qed.

(** Invert the successful run of a sequence of steps. *)
Ltac minv :=
  repeat match goal with
  | H : bind _ _ _ = Some _ |- _ =>
      let a := fresh "a" in let w := fresh "w" in let E := fresh "E" in
      apply bind_inv in H; destruct H as (a & w & E & H)
  | H : int_add _ _ _ = Some _ |- _ =>
      let Hr := fresh "Hr" in
      apply int_add_inv in H; destruct H as (? & ? & Hr); subst
  | H : int_sub _ _ _ = Some _ |- _ =>
      let Hr := fresh "Hr" in
      apply int_sub_inv in H; destruct H as (? & ? & Hr); subst
  | H : ret _ _ = Some _ |- _ => unfold ret in H; inversion H; subst; clear H
  | H : get_panel _ = Some _ |- _ =>
      unfold get_panel in H; inversion H; subst; clear H
  end.

Lemma state_fold_fields (state : list Z) (t : toplevel) :
  let r := fold_left
    (fun t' entry => if entry =? STATE_ACTIVATED then set_active t' true else t')
    state t in
  handle r = handle t /\ title r = title t /\ app_id r = app_id t /\
  (active r = true <-> active t = true \/ In STATE_ACTIVATED state).
Proof.
  revert t. induction state as [|e state IH]; intros t; simpl.
  - tauto.
  - specialize (IH (if e =? STATE_ACTIVATED then set_active t true else t)).
    simpl in IH. destruct IH as (Hh & Ht & Ha & Hact).
    destruct (e =? STATE_ACTIVATED) eqn:E.
    + apply Z.eqb_eq in E. subst e. simpl in *.
      repeat split; try assumption; tauto.
    + apply Z.eqb_neq in E. repeat split; try assumption.
      * intros H. apply Hact in H. destruct H; [tauto|]. right. right. exact H.
      * intros [H|[H|H]]; [tauto | congruence | tauto].
Qed.

(** C7. After [handle_toplevel_state] the active flag is set exactly when
    the activated state is among the delivered entries; the result does
    not depend on the flag the entry had before, and the handle, the title
    and the application identifier are left as they were. *)
Theorem handle_toplevel_state_recomputed (t : toplevel) (state : list Z) :
  (active (handle_toplevel_state t state) = true <->
   In STATE_ACTIVATED state) /\
  (forall b : bool,
      handle_toplevel_state (set_active t b) state =
      handle_toplevel_state t state) /\
  handle (handle_toplevel_state t state) = handle t /\
  title (handle_toplevel_state t state) = title t /\
  app_id (handle_toplevel_state t state) = app_id t.
Proof.
  unfold handle_toplevel_state.
  destruct (state_fold_fields state (set_active t false)) as (Hh & Ht & Ha & Hact).
  simpl in *. repeat split; try assumption.
  - intros H. apply Hact in H. destruct H; [discriminate | assumption].
  - intros H. apply Hact. right. exact H.
Qed.

Lemma toplevel_label_fallback (t : toplevel) :
  (forall s, title t = Some s -> toplevel_label t = s) /\
  (forall a, title t = None -> app_id t = Some a -> toplevel_label t = a) /\
  (title t = None -> app_id t = None -> toplevel_label t = "?").
Proof.
  unfold toplevel_label. repeat split; intros.
  - rewrite H. reflexivity.
  - rewrite H, H0. reflexivity.
  - rewrite H, H0. reflexivity.
Qed.

Lemma set_widgets_same (p : panel) : set_widgets p (widgets p) = p.
Proof. destruct p; reflexivity. Qed.

Lemma set_widgets_twice (p : panel) ws ws' :
  set_widgets (set_widgets p ws) ws' = set_widgets p ws'.
Proof. reflexivity. Qed.

Lemma widget_add_inv x wd tl (w w' : world) u :
  widget_add x wd tl w = Some (u, w') ->
  w' = mkWorld
         (set_widgets (w_panel w)
            (widgets (w_panel w) ++ allocated (w_allocs w) [mkWidget x wd tl]))
         (w_cairo w)
         (w_log w ++ (if alloc_ok (w_allocs w) then [] else [LogAllocWidget]))
         (w_commits w) (w_requests w) (w_time_calls w) (S (w_allocs w)).
Proof.
  unfold widget_add, bind, alloc, modify_panel, wlr_log. simpl.
  destruct (alloc_ok (w_allocs w)); intros H; inversion H; subst; simpl.
  - rewrite app_nil_r. reflexivity.
  - rewrite !app_nil_r, set_widgets_same. reflexivity.
Qed.

Lemma cap_is_min w0 :
  (if BUTTON_MAX_WIDTH <? w0 then BUTTON_MAX_WIDTH else w0) =
  Z.min w0 BUTTON_MAX_WIDTH.
Proof. destruct (BUTTON_MAX_WIDTH <? w0) eqn:E; lia. Qed.

Lemma allocated_app k l1 l2 :
  allocated k (l1 ++ l2) = allocated k l1 ++ allocated (k + List.length l1) l2.
Proof.
  revert k. induction l1 as [|a l1 IH]; intros k; simpl.
  - rewrite Nat.add_0_r. reflexivity.
  - rewrite IH. replace (S k + List.length l1)%nat with (k + S (List.length l1))%nat by lia.
    destruct (alloc_ok k); reflexivity.
Qed.

Lemma allocated_all k l :
  (forall i, alloc_ok i = true) -> allocated k l = l.
Proof.
  intros H. revert k. induction l as [|a l IH]; intros k; simpl.
  - reflexivity.
  - rewrite H, IH. reflexivity.
Qed.

Lemma taskbar_buttons_length x tls :
  List.length (taskbar_buttons x tls) = List.length tls.
Proof.
  revert x. induction tls as [|t tls IH]; intros x; simpl; [|rewrite IH]; reflexivity.
Qed.

Lemma shown_app l1 l2 : shown (l1 ++ l2) = shown l1 ++ shown l2.
Proof.
  induction l1 as [|o l1 IH]; simpl; [reflexivity|].
  destruct o; simpl; rewrite ?IH; reflexivity.
Qed.

Lemma rectangles_app l1 l2 :
  rectangles (l1 ++ l2) = rectangles l1 ++ rectangles l2.
Proof.
  induction l1 as [|o l1 IH]; simpl; [reflexivity|].
  destruct o; simpl; rewrite ?IH; reflexivity.
Qed.

Lemma lays_refl (w : world) : lays w w [] [] 0 0.
Proof.
  unfold lays. simpl. rewrite !app_nil_r, set_widgets_same, !Nat.add_0_r.
  repeat split; reflexivity.
Qed.

Lemma lays_trans (w1 w2 w3 : world) ws1 ws2 ops1 ops2 dk1 dk2 da1 da2 :
  lays w1 w2 ws1 ops1 dk1 da1 ->
  lays w2 w3 ws2 ops2 dk2 da2 ->
  da1 = List.length ws1 ->
  lays w1 w3 (ws1 ++ ws2) (ops1 ++ ops2) (dk1 + dk2) (da1 + da2).
Proof.
  unfold lays. intros (P1 & C1 & M1 & R1 & T1 & A1) (P2 & C2 & M2 & R2 & T2 & A2) L.
  rewrite P2, P1, C2, C1, M2, M1, R2, R1, T2, T1, A2, A1. simpl.
  rewrite allocated_app, <- L, !app_assoc, !Nat.add_assoc.
  repeat split; reflexivity.
Qed.

(** Invert the primitive steps as well, keeping the worlds in normal
    form. *)
Ltac wnorm :=
  cbn [w_panel w_cairo w_log w_commits w_requests w_time_calls w_allocs
       fst snd] in *.

Ltac prim_inv :=
  repeat (match goal with
  | H : widget_add _ _ _ _ = Some _ |- _ => apply widget_add_inv in H; subst
  | H : cairo_set_source_u32 _ _ = Some _ |- _ =>
      unfold cairo_set_source_u32, draw in H; inversion H; subst; clear H
  | H : render_text _ _ = Some _ |- _ =>
      unfold render_text, draw in H; inversion H; subst; clear H
  | H : draw _ _ = Some _ |- _ => unfold draw in H; inversion H; subst; clear H
  | H : wlr_log _ _ = Some _ |- _ =>
      unfold wlr_log in H; inversion H; subst; clear H
  | H : time_now _ = Some _ |- _ =>
      unfold time_now in H; inversion H; subst; clear H
  | H : modify_panel _ _ = Some _ |- _ =>
      unfold modify_panel in H; inversion H; subst; clear H
  end; wnorm).

Lemma render_taskbar_loop_lays tls : forall x (w w' : world) x',
  render_taskbar_loop tls x w = Some (x', w') ->
  x' = taskbar_end x tls /\
  exists ops,
    lays w w' (taskbar_buttons x tls) ops 0 (List.length tls) /\
    shown ops = map toplevel_label tls.
Proof.
  induction tls as [|t tls IH]; intros x w w' x' H.
  - simpl in H. minv. split; [reflexivity|]. exists []. split.
    + apply lays_refl.
    + reflexivity.
  - simpl in H. minv. prim_inv. rewrite cap_is_min in *.
    fold (button_width t) in *.
    apply IH in H. destruct H as (Hx & ops & Hl & Hs).
    split; [exact Hx|].
    eexists. split.
    + change (taskbar_buttons x (t :: tls)) with
        ([mkWidget x (button_width t) (Some (handle t))] ++
         taskbar_buttons (x + (button_width t + BUTTON_PADDING)) tls).
      change (List.length (t :: tls)) with (1 + List.length tls)%nat.
      change 0%nat with (0 + 0)%nat.
      eapply lays_trans; [ | exact Hl | reflexivity].
      unfold lays. simpl. rewrite <- !app_assoc. simpl.
      rewrite Nat.add_0_r, Nat.add_1_r.
      repeat split; reflexivity.
    + rewrite shown_app. simpl. rewrite Hs. reflexivity.
Qed.

Lemma render_taskbar_lays start_x (w w' : world) d :
  render_taskbar start_x w = Some (d, w') ->
  d = taskbar_end (start_x + BUTTON_PADDING) (toplevels (w_panel w)) - start_x /\
  INT_MIN <= d <= INT_MAX /\
  exists ops,
    lays w w' (taskbar_buttons (start_x + BUTTON_PADDING) (toplevels (w_panel w)))
      ops 0 (List.length (toplevels (w_panel w))) /\
    shown ops = map toplevel_label (toplevels (w_panel w)).
Proof.
  unfold render_taskbar. intros H. minv.
  apply render_taskbar_loop_lays in E1. destruct E1 as (Hx & ops & Hl & Hs).
  subst. split; [reflexivity|]. split; [assumption|].
  exists ops. split; assumption.
Qed.

Lemma render_clock_lays start_x (w w' : world) d :
  render_clock start_x w = Some (d, w') ->
  d = clock_width (w_time_calls w) /\
  lays w w' [mkWidget start_x (clock_width (w_time_calls w)) None]
    [SetSourceRGBA (channel (text (panel_conf (w_panel w))) 3)
       (channel (text (panel_conf (w_panel w))) 2)
       (channel (text (panel_conf (w_panel w))) 1)
       (channel (text (panel_conf (w_panel w))) 0);
     MoveTo (start_x + BUTTON_PADDING)
       (QArith_base.Qmake
          (u32 (panel_height (w_panel w) -
                snd (text_size (clock_label (w_time_calls w))))) 2);
     ShowText (clock_label (w_time_calls w))] 1 1.
Proof.
  unfold render_clock. intros H. minv. prim_inv.
  split; [reflexivity|].
  unfold lays. simpl. rewrite <- !app_assoc. simpl.
  rewrite !Nat.add_1_r.
  repeat split; reflexivity.
Qed.

Lemma lays_toplevels (w w' : world) ws ops dk da :
  lays w w' ws ops dk da ->
  toplevels (w_panel w') = toplevels (w_panel w) /\
  panel_conf (w_panel w') = panel_conf (w_panel w) /\
  panel_width (w_panel w') = panel_width (w_panel w) /\
  panel_height (w_panel w') = panel_height (w_panel w).
Proof.
  intros (P & _). rewrite P. repeat split; reflexivity.
Qed.

Lemma layout_loop_lays sw items : forall x (w w' : world) x',
  layout_loop sw items x w = Some (x', w') ->
  x' = layout_end (toplevels (w_panel w)) sw items x (w_time_calls w) /\
  exists ops dk,
    lays w w'
      (layout_widgets (toplevels (w_panel w)) sw items x (w_time_calls w))
      ops dk
      (List.length
         (layout_widgets (toplevels (w_panel w)) sw items x (w_time_calls w))).
Proof.
  induction items as [|c items IH]; intros x w w' x' H.
  - simpl in H. minv. split; [reflexivity|]. exists [], 0%nat. apply lays_refl.
  - simpl in H. apply bind_inv in H. destruct H as (x1 & w1 & Hstep & H).
    apply IH in H. destruct H as (Hx & ops & dk & Hl). simpl.
    destruct (Ascii.eqb c "T") eqn:ET; [|destruct (Ascii.eqb c "C") eqn:EC;
      [|destruct (Ascii.eqb c "S") eqn:ES]].
    + apply bind_inv in Hstep. destruct Hstep as (a & w2 & E & Ha).
      apply int_add_inv in Ha. destruct Ha as (-> & <- & _).
      apply render_taskbar_lays in E. destruct E as (Hd & _ & ops1 & Hl1 & _).
      subst a.
      destruct (lays_toplevels _ _ _ _ _ _ Hl1) as (Ht & _).
      assert (Hk : w_time_calls w1 = w_time_calls w)
        by (destruct Hl1 as (_ & _ & _ & _ & Hk & _); rewrite Hk; lia).
      rewrite Ht, Hk in *.
      replace (x + (taskbar_end (x + BUTTON_PADDING) (toplevels (w_panel w)) - x))
        with (taskbar_end (x + BUTTON_PADDING) (toplevels (w_panel w))) in * by lia.
      split; [exact Hx|].
      exists (ops1 ++ ops), (0 + dk)%nat. rewrite length_app.
      rewrite <- (taskbar_buttons_length (x + BUTTON_PADDING)) in Hl1.
      eapply lays_trans; [exact Hl1 | exact Hl | reflexivity].
    + apply bind_inv in Hstep. destruct Hstep as (a & w2 & E & Ha).
      apply int_add_inv in Ha. destruct Ha as (-> & <- & _).
      apply render_clock_lays in E. destruct E as (Hd & Hl1). subst a.
      destruct (lays_toplevels _ _ _ _ _ _ Hl1) as (Ht & _).
      assert (Hk : w_time_calls w1 = S (w_time_calls w))
        by (destruct Hl1 as (_ & _ & _ & _ & Hk & _); rewrite Hk; lia).
      rewrite Ht, Hk in *.
      split; [exact Hx|].
      eexists _, (1 + dk)%nat.
      change (mkWidget x (clock_width (w_time_calls w)) None ::
              layout_widgets (toplevels (w_panel w)) sw items
                (x + clock_width (w_time_calls w)) (S (w_time_calls w)))
        with ([mkWidget x (clock_width (w_time_calls w)) None] ++
              layout_widgets (toplevels (w_panel w)) sw items
                (x + clock_width (w_time_calls w)) (S (w_time_calls w))).
      rewrite length_app.
      eapply lays_trans; [exact Hl1 | exact Hl | reflexivity].
    + apply int_add_inv in Hstep. destruct Hstep as (-> & -> & _).
      split; [exact Hx|]. exists ops, dk. exact Hl.
    + apply bind_inv in Hstep. destruct Hstep as (u & w2 & E & Ha).
      unfold ret in Ha. injection Ha as <- <-.
      unfold wlr_log in E. injection E as <- <-.
      split; [exact Hx|]. exists ops, dk.
      unfold lays in *. wnorm. exact Hl.
Qed.

Lemma taskbar_end_shift x tls : taskbar_end x tls = x + taskbar_end 0 tls.
Proof.
  revert x. induction tls as [|t tls IH]; intros x; cbn [taskbar_end].
  - lia.
  - rewrite IH. rewrite (IH (0 + (button_width t + BUTTON_PADDING))). lia.
Qed.

Lemma taskbar_natural_width_loop_inv tls : forall total (w w' : world) n,
  taskbar_natural_width_loop tls total w = Some (n, w') ->
  n = taskbar_end total tls /\ w' = w.
Proof.
  induction tls as [|t tls IH]; intros total w w' n H; simpl in H.
  - minv. split; reflexivity.
  - minv. rewrite cap_is_min in H. fold (button_width t) in H.
    apply IH in H. exact H.
Qed.

Lemma taskbar_natural_width_inv (w w' : world) n :
  taskbar_natural_width w = Some (n, w') ->
  n = taskbar_end BUTTON_PADDING (toplevels (w_panel w)) /\ w' = w.
Proof.
  unfold taskbar_natural_width. intros H. minv.
  apply taskbar_natural_width_loop_inv in H. exact H.
Qed.

Lemma clock_natural_width_inv (w w' : world) n :
  clock_natural_width w = Some (n, w') ->
  n = clock_width (w_time_calls w) /\
  w' = mkWorld (w_panel w) (w_cairo w) (w_log w) (w_commits w)
         (w_requests w) (S (w_time_calls w)) (w_allocs w).
Proof.
  unfold clock_natural_width. intros H. minv. prim_inv.
  split; reflexivity.
Qed.

Lemma fixed_width_loop_natural items : forall acc (w w' : world) f,
  fixed_width_loop items acc w = Some (f, w') ->
  exists ns, natural_widths items w = Some (ns, w') /\ f = acc + sum_Z ns /\
             w_panel w' = w_panel w.
Proof.
  induction items as [|c items IH]; intros acc w w' f H; simpl in H.
  - minv. exists []. simpl. repeat split. lia.
  - apply bind_inv in H. destruct H as (f1 & w1 & Hstep & H).
    apply IH in H. destruct H as (ns & Hn & Hf & Hp). simpl.
    destruct (Ascii.eqb c "T"); [|destruct (Ascii.eqb c "C")].
    + minv. pose proof E as E'. apply taskbar_natural_width_inv in E'.
      destruct E' as (_ & ->).
      exists (a :: ns). rewrite (bind_Some _ _ _ _ _ E).
      rewrite (bind_Some _ _ _ _ _ Hn). simpl. repeat split; [lia | exact Hp].
    + minv. pose proof E as E'. apply clock_natural_width_inv in E'.
      destruct E' as (_ & Hw).
      exists (a :: ns). rewrite (bind_Some _ _ _ _ _ E).
      rewrite (bind_Some _ _ _ _ _ Hn). simpl. repeat split; [lia | ].
      rewrite Hp, Hw. reflexivity.
    + minv. exists ns. repeat split; assumption.
Qed.

Lemma bind_assoc {A B C : Type} (m : M A) (f : A -> M B) (g : B -> M C)
    (w : world) :
  bind (bind m f) g w = bind m (fun a => bind (f a) g) w.
Proof. unfold bind. destruct (m w) as [[a w1]|]; reflexivity. Qed.

Lemma bind_ext {A B : Type} (m : M A) (f g : A -> M B) (w : world) :
  (forall a v, f a v = g a v) -> bind m f w = bind m g w.
Proof.
  intros H. unfold bind. destruct (m w) as [[a w1]|]; [apply H | reflexivity].
Qed.

Lemma layout_loop_app sw pre post : forall x (w : world),
  layout_loop sw (String.append pre post) x w =
  (x1 <- layout_loop sw pre x ;; layout_loop sw post x1) w.
Proof.
  induction pre as [|c pre IH]; intros x w.
  - reflexivity.
  - cbn [String.append layout_loop]. rewrite bind_assoc.
    apply bind_ext. intros a v. apply IH.
Qed.

Lemma int_of_u32_small z : 0 <= z <= INT_MAX -> int_of_u32 z = z.
Proof.
  unfold int_of_u32, INT_MAX. intros H.
  rewrite Z.mod_small by lia.
  destruct (z <=? 2 ^ 31 - 1) eqn:E; [reflexivity|].
  apply Z.leb_gt in E. lia.
Qed.

(** C1. When the item string contains [S] and the panel width fits an
    [int], the pass computes one spacer width, the panel width minus the
    sum of the natural widths of its taskbar and clock items and at least
    zero, before it lays out any item; the layout loop that follows runs
    with this value, and every [S] it meets moves the cursor by exactly
    this value and changes nothing else. *)
Theorem spacer_width_single (items : string) (w w' : world) (x_end : Z) :
  In "S"%char (list_ascii_of_string items) ->
  0 <= panel_width (w_panel w) <= INT_MAX ->
  render_items items w = Some (x_end, w') ->
  exists ns w1 sw,
    natural_widths items w = Some (ns, w1) /\
    sw = Z.max 0 (panel_width (w_panel w) - sum_Z ns) /\
    compute_spacer_width items w = Some (sw, w1) /\
    layout_loop sw items 0 w1 = Some (x_end, w') /\
    (forall pre post x (v : world),
        layout_loop sw (String.append pre (String "S" post)) x v =
        (x1 <- layout_loop sw pre x ;;
         x2 <- int_add x1 sw ;;
         layout_loop sw post x2) v) /\
    (forall x (v : world) x2 v2,
        int_add x sw v = Some (x2, v2) -> x2 = x + sw /\ v2 = v).
Proof.
  intros HS Hw H. apply strchr_In in HS.
  unfold render_items in H. apply bind_inv in H.
  destruct H as (sw & w1 & Hc & Hl).
  pose proof Hc as Hc'. unfold compute_spacer_width in Hc'. rewrite HS in Hc'.
  apply bind_inv in Hc'. destruct Hc' as (f & w2 & Hf & Hc').
  apply fixed_width_loop_natural in Hf. destruct Hf as (ns & Hn & Hfv & Hp).
  minv. rewrite Hp, int_of_u32_small in * by assumption.
  exists ns, w1, (Z.max 0 (panel_width (w_panel w) - sum_Z ns)).
  assert (Hmax : (if panel_width (w_panel w) - sum_Z ns <? 0 then 0
                  else panel_width (w_panel w) - sum_Z ns) =
                 Z.max 0 (panel_width (w_panel w) - sum_Z ns)).
  { destruct (panel_width (w_panel w) - sum_Z ns <? 0) eqn:E;
      [apply Z.ltb_lt in E | apply Z.ltb_ge in E]; lia. }
  rewrite Hmax in *.
  repeat split; try assumption.
  - intros pre post x v. rewrite layout_loop_app.
    apply bind_ext. intros x1 v1. reflexivity.
  - apply int_add_inv in H. tauto.
  - apply int_add_inv in H. tauto.
Qed.

Lemma compute_spacer_width_inv items (w w' : world) sw :
  compute_spacer_width items w = Some (sw, w') ->
  0 <= sw /\ w_panel w' = w_panel w /\ w_cairo w' = w_cairo w /\
  w_allocs w' = w_allocs w /\ w_commits w' = w_commits w /\
  w_requests w' = w_requests w.
Proof.
  unfold compute_spacer_width. destruct (strchr items "S").
  - intros H. apply bind_inv in H. destruct H as (f & w1 & Hf & H).
    assert (Hfr : forall its acc (v v' : world) r,
               fixed_width_loop its acc v = Some (r, v') ->
               w_panel v' = w_panel v /\ w_cairo v' = w_cairo v /\
               w_allocs v' = w_allocs v /\ w_commits v' = w_commits v /\
               w_requests v' = w_requests v).
    { induction its as [|c its IH]; intros acc v v' r Hr; simpl in Hr.
      - minv. repeat split.
      - apply bind_inv in Hr. destruct Hr as (f1 & v1 & Hs & Hr).
        apply IH in Hr. destruct Hr as (P & C & A & Cm & R).
        rewrite P, C, A, Cm, R. clear IH P C A Cm R.
        destruct (Ascii.eqb c "T"); [|destruct (Ascii.eqb c "C")].
        + apply bind_inv in Hs. destruct Hs as (n & v2 & E & Ha).
          apply int_add_inv in Ha. destruct Ha as (_ & -> & _).
          apply taskbar_natural_width_inv in E. destruct E as (_ & ->).
          repeat split.
        + apply bind_inv in Hs. destruct Hs as (n & v2 & E & Ha).
          apply int_add_inv in Ha. destruct Ha as (_ & -> & _).
          apply clock_natural_width_inv in E. destruct E as (_ & ->).
          repeat split.
        + unfold ret in Hs. injection Hs as _ <-. repeat split. }
    apply Hfr in Hf. destruct Hf as (P & C & A & Cm & R).
    minv. rewrite P, C, A, Cm, R.
    split; [|repeat split].
    match goal with
    | |- 0 <= (if ?c then _ else _) =>
        destruct c eqn:E; [lia | apply Z.ltb_ge in E; lia]
    end.
  - intros H. minv. split; [lia | repeat split].
Qed.

(** What one pass leaves: the widgets the items ask for, and the drawing
    operations of the items followed by the separator. *)
Lemma render_to_cairo_inv (w w' : world) u :
  render_to_cairo w = Some (u, w') ->
  exists sw k ops,
    0 <= sw /\
    w_panel w' =
      set_widgets (w_panel w)
        (allocated (w_allocs w)
           match panel_items (panel_conf (w_panel w)) with
           | Some items =>
               layout_widgets (toplevels (w_panel w)) sw items 0 k
           | None => []
           end) /\
    w_cairo w' =
      w_cairo w ++ ops ++
      [SetSourceRGBA (channel (text (panel_conf (w_panel w))) 3)
         (channel (text (panel_conf (w_panel w))) 2)
         (channel (text (panel_conf (w_panel w))) 1)
         (channel (text (panel_conf (w_panel w))) 0);
       Rectangle 0 (panel_height (w_panel w)) (panel_width (w_panel w)) 1;
       Fill] /\
    w_commits w' = w_commits w /\ w_requests w' = w_requests w.
Proof.
  unfold render_to_cairo, widgets_free, draw_separator. intros H.
  apply bind_inv in H. destruct H as (u1 & w1 & E1 & H).
  apply bind_inv in H. destruct H as (p & w2 & E2 & H).
  apply bind_inv in H. destruct H as (u3 & w3 & E3 & H).
  apply bind_inv in H. destruct H as (u4 & w4 & E4 & H).
  apply bind_inv in H. destruct H as (u5 & w5 & E5 & H).
  apply bind_inv in H. destruct H as (u6 & w6 & E6 & H).
  minv. prim_inv.
  destruct (panel_items (panel_conf (w_panel w))) as [items|] eqn:Hi.
  - apply bind_inv in E6. destruct E6 as (xe & w7 & E6 & Hr).
    unfold ret in Hr. injection Hr as _ <-.
    unfold render_items in E6.
    apply bind_inv in E6. destruct E6 as (sw & w8 & Hc & Hl).
    apply compute_spacer_width_inv in Hc.
    destruct Hc as (Hsw & P & C & A & Cm & R). wnorm.
    apply layout_loop_lays in Hl. destruct Hl as (_ & ops & dk & Hl).
    destruct Hl as (P' & C' & Cm' & R' & _ & _).
    rewrite P in P'. rewrite A in P'. cbn in P'.
    exists sw, (w_time_calls w8), (SetOperatorSource ::
      SetSourceRGBA (channel (background (panel_conf (w_panel w))) 3)
        (channel (background (panel_conf (w_panel w))) 2)
        (channel (background (panel_conf (w_panel w))) 1)
        (channel (background (panel_conf (w_panel w))) 0) :: Paint :: ops).
    rewrite P', C', C, Cm', Cm, R', R. cbn.
    rewrite <- !app_assoc. cbn.
    split; [exact Hsw|]. repeat split; reflexivity.
  - unfold ret in E6. injection E6 as _ <-. wnorm.
    exists 0, 0%nat, [SetOperatorSource;
      SetSourceRGBA (channel (background (panel_conf (w_panel w))) 3)
        (channel (background (panel_conf (w_panel w))) 2)
        (channel (background (panel_conf (w_panel w))) 1)
        (channel (background (panel_conf (w_panel w))) 0); Paint].
    cbn. rewrite <- !app_assoc. cbn.
    split; [lia|]. repeat split; reflexivity.
Qed.

(** C4. The last thing a pass draws is a rectangle one pixel high and as
    wide as the panel, filled in the text colour; its top row is at
    [panel_height], so that it does not lie within the rows
    [0 .. panel_height - 1] of the panel. *)
Theorem separator_below_panel (w w' : world) (u : unit) :
  render_to_cairo w = Some (u, w') ->
  exists ops,
    w_cairo w' =
      w_cairo w ++ ops ++
      [SetSourceRGBA (channel (text (panel_conf (w_panel w))) 3)
         (channel (text (panel_conf (w_panel w))) 2)
         (channel (text (panel_conf (w_panel w))) 1)
         (channel (text (panel_conf (w_panel w))) 0);
       Rectangle 0 (panel_height (w_panel w)) (panel_width (w_panel w)) 1;
       Fill] /\
    ~ (0 <= panel_height (w_panel w) /\
       panel_height (w_panel w) + 1 <= panel_height (w_panel w)).
Proof.
  intros H. apply render_to_cairo_inv in H.
  destruct H as (sw & k & ops & _ & _ & C & _).
  exists ops. split; [exact C | lia].
Qed.

Lemma chain_weaken ws : forall lo lo',
  lo' <= lo -> chain lo ws -> chain lo' ws.
Proof.
  destruct ws as [|a ws]; simpl; intros lo lo' Hle H; [exact I|].
  destruct H as (H1 & H2 & H3). repeat split; [lia | assumption | assumption].
Qed.

Lemma right_end_ge ws : forall lo, chain lo ws -> lo <= right_end lo ws.
Proof.
  induction ws as [|a ws IH]; simpl; intros lo H; [lia|].
  destruct H as (H1 & H2 & H3). apply IH in H3. lia.
Qed.

Lemma chain_app l1 : forall lo l2,
  chain lo l1 -> chain (right_end lo l1) l2 -> chain lo (l1 ++ l2).
Proof.
  induction l1 as [|a l1 IH]; simpl; intros lo l2 H1 H2; [exact H2|].
  destruct H1 as (Ha & Hw & Hc). repeat split; try assumption.
  apply IH; assumption.
Qed.

Lemma chain_allocated ws : forall lo k,
  chain lo ws -> chain lo (allocated k ws).
Proof.
  induction ws as [|a ws IH]; simpl; intros lo k H; [exact I|].
  destruct H as (Ha & Hw & Hc). destruct (alloc_ok k); simpl.
  - repeat split; try assumption. apply IH. exact Hc.
  - apply IH. apply chain_weaken with (lo := widget_x a + widget_width a);
      [lia | exact Hc].
Qed.

Lemma chain_lower ws : forall lo,
  chain lo ws -> Forall (fun b => lo <= widget_x b) ws.
Proof.
  induction ws as [|a ws IH]; simpl; intros lo H; constructor.
  - tauto.
  - destruct H as (Ha & Hw & Hc). apply IH.
    apply chain_weaken with (lo := widget_x a + widget_width a); [lia | exact Hc].
Qed.

Lemma chain_pairwise ws : forall lo i j a b,
  chain lo ws -> (i < j)%nat ->
  nth_error ws i = Some a -> nth_error ws j = Some b ->
  widget_x a + widget_width a <= widget_x b /\ widget_x a <= widget_x b.
Proof.
  induction ws as [|c ws IH]; intros lo i j a b H Hij Hi Hj.
  - destruct i; discriminate.
  - destruct H as (Ha & Hw & Hc). destruct j as [|j]; [lia|].
    destruct i as [|i]; simpl in Hi, Hj.
    + injection Hi as <-. apply chain_lower in Hc.
      rewrite Forall_forall in Hc. apply nth_error_In in Hj.
      apply Hc in Hj. lia.
    + apply (IH _ i j a b Hc); [lia | assumption | assumption].
Qed.

Section NonNegative.

Hypothesis text_width_nonneg : forall s, 0 <= fst (text_size s).

Lemma button_width_nonneg t : 0 <= button_width t.
Proof.
  unfold button_width, BUTTON_PADDING, BUTTON_MAX_WIDTH.
  pose proof (text_width_nonneg (toplevel_label t)). lia.
Qed.

Lemma clock_width_nonneg k : 0 <= clock_width k.
Proof.
  unfold clock_width, BUTTON_PADDING.
  pose proof (text_width_nonneg (clock_label k)). lia.
Qed.

Lemma chain_taskbar tls : forall lo x,
  lo <= x ->
  chain lo (taskbar_buttons x tls) /\
  right_end lo (taskbar_buttons x tls) <= taskbar_end x tls.
Proof.
  induction tls as [|t tls IH]; intros lo x Hle; simpl.
  - split; [exact I | exact Hle].
  - pose proof (button_width_nonneg t) as Hb.
    destruct (IH (x + button_width t) (x + (button_width t + BUTTON_PADDING)))
      as (Hc & Hr); [unfold BUTTON_PADDING; lia|].
    repeat split; assumption.
Qed.

Lemma chain_layout tls sw items : forall lo x k,
  0 <= sw -> lo <= x -> chain lo (layout_widgets tls sw items x k).
Proof.
  induction items as [|c items IH]; intros lo x k Hsw Hle; simpl; [exact I|].
  destruct (Ascii.eqb c "T"); [|destruct (Ascii.eqb c "C");
    [|destruct (Ascii.eqb c "S")]].
  - destruct (chain_taskbar tls lo (x + BUTTON_PADDING)) as (Hc & Hr);
      [unfold BUTTON_PADDING; lia|].
    apply chain_app; [exact Hc|]. apply IH; assumption.
  - simpl. pose proof (clock_width_nonneg k). repeat split; try assumption.
    apply IH; [assumption | lia].
  - apply IH; [assumption | lia].
  - apply IH; assumption.
Qed.

Lemma render_taskbar_loop_fits tls : forall x (w w' : world) x',
  INT_MIN <= x ->
  render_taskbar_loop tls x w = Some (x', w') ->
  Forall fits (taskbar_buttons x tls).
Proof.
  induction tls as [|t tls IH]; intros x w w' x' Hx H.
  - constructor.
  - cbn [render_taskbar_loop] in H.
    apply bind_inv in H. destruct H as (w0 & v0 & E0 & H).
    apply int_add_inv in E0. destruct E0 as (-> & -> & _).
    rewrite cap_is_min in H. fold (button_width t) in H.
    apply bind_inv in H. destruct H as (u1 & v1 & _ & H).
    apply bind_inv in H. destruct H as (p & v2 & _ & H).
    apply bind_inv in H. destruct H as (u3 & v3 & _ & H).
    apply bind_inv in H. destruct H as (u4 & v4 & _ & H).
    apply bind_inv in H. destruct H as (u5 & v5 & _ & H).
    apply bind_inv in H. destruct H as (u6 & v6 & _ & H).
    apply bind_inv in H. destruct H as (xp & v7 & _ & H).
    apply bind_inv in H. destruct H as (wp & v8 & _ & H).
    apply bind_inv in H. destruct H as (u9 & v9 & _ & H).
    apply bind_inv in H. destruct H as (u10 & v10 & _ & H).
    apply bind_inv in H. destruct H as (u11 & v11 & _ & H).
    apply bind_inv in H. destruct H as (u12 & v12 & _ & H).
    apply bind_inv in H. destruct H as (u13 & v13 & _ & H).
    apply bind_inv in H. destruct H as (u14 & v14 & _ & H).
    apply bind_inv in H. destruct H as (d & v15 & Ed & H).
    apply int_add_inv in Ed. destruct Ed as (-> & _ & _).
    apply bind_inv in H. destruct H as (x1 & v16 & Ex & H).
    apply int_add_inv in Ex. destruct Ex as (-> & _ & Hr).
    pose proof (button_width_nonneg t) as Hb.
    cbn [taskbar_buttons]. constructor.
    + unfold fits. cbn [widget_x widget_width].
      unfold BUTTON_PADDING in *. lia.
    + apply (IH _ _ _ _ (proj1 Hr) H).
Qed.

Lemma layout_loop_fits sw items : forall x (w w' : world) x',
  INT_MIN <= x ->
  layout_loop sw items x w = Some (x', w') ->
  Forall fits
    (layout_widgets (toplevels (w_panel w)) sw items x (w_time_calls w)).
Proof.
  induction items as [|c items IH]; intros x w w' x' Hx H.
  - constructor.
  - cbn [layout_loop] in H. apply bind_inv in H.
    destruct H as (x1 & w1 & Hstep & H). cbn [layout_widgets].
    destruct (Ascii.eqb c "T"); [|destruct (Ascii.eqb c "C");
      [|destruct (Ascii.eqb c "S")]].
    + apply bind_inv in Hstep. destruct Hstep as (d & w2 & E & Ha).
      apply int_add_inv in Ha. destruct Ha as (-> & <- & Hr).
      pose proof E as E'. apply render_taskbar_lays in E'.
      destruct E' as (Hd & _ & ops1 & Hl1 & _). subst d.
      destruct (lays_toplevels _ _ _ _ _ _ Hl1) as (Ht & _).
      assert (Hk : w_time_calls w1 = w_time_calls w)
        by (destruct Hl1 as (_ & _ & _ & _ & Hk & _); rewrite Hk; lia).
      apply IH in H; [|lia]. rewrite Ht, Hk in H.
      replace (x + (taskbar_end (x + BUTTON_PADDING) (toplevels (w_panel w)) - x))
        with (taskbar_end (x + BUTTON_PADDING) (toplevels (w_panel w))) in H
        by lia.
      apply Forall_app. split; [|exact H].
      unfold render_taskbar in E.
      apply bind_inv in E. destruct E as (x0 & v0 & E0 & E).
      apply int_add_inv in E0. destruct E0 as (-> & -> & Hr0).
      apply bind_inv in E. destruct E as (p & v1 & Ep & E).
      unfold get_panel in Ep. injection Ep as <- <-.
      apply bind_inv in E. destruct E as (xe & v2 & El & _).
      apply (render_taskbar_loop_fits _ _ _ _ _ (proj1 Hr0) El).
    + apply bind_inv in Hstep. destruct Hstep as (d & w2 & E & Ha).
      apply int_add_inv in Ha. destruct Ha as (-> & <- & Hr).
      apply render_clock_lays in E. destruct E as (Hd & Hl1). subst d.
      destruct (lays_toplevels _ _ _ _ _ _ Hl1) as (Ht & _).
      assert (Hk : w_time_calls w1 = S (w_time_calls w))
        by (destruct Hl1 as (_ & _ & _ & _ & Hk & _); rewrite Hk; lia).
      apply IH in H; [|lia]. rewrite Ht, Hk in H.
      constructor; [exact Hr | exact H].
    + apply int_add_inv in Hstep. destruct Hstep as (-> & -> & Hr).
      apply IH in H; [exact H | lia].
    + apply bind_inv in Hstep. destruct Hstep as (u & w2 & E & Ha).
      unfold ret in Ha. injection Ha as <- <-.
      unfold wlr_log in E. injection E as <- <-.
      apply IH in H; [exact H | exact Hx].
Qed.

Lemma allocated_fits ws : forall k,
  Forall fits ws -> Forall fits (allocated k ws).
Proof.
  induction ws as [|a ws IH]; intros k H; cbn [allocated]; [constructor|].
  inversion H; subst. destruct (alloc_ok k).
  - constructor; [assumption | apply IH; assumption].
  - apply IH; assumption.
Qed.

Lemma render_to_cairo_fits (w w' : world) u :
  render_to_cairo w = Some (u, w') ->
  Forall fits (widgets (w_panel w')).
Proof.
  unfold render_to_cairo, widgets_free, draw_separator. intros H.
  apply bind_inv in H. destruct H as (u1 & w1 & E1 & H).
  apply bind_inv in H. destruct H as (p & w2 & E2 & H).
  apply bind_inv in H. destruct H as (u3 & w3 & E3 & H).
  apply bind_inv in H. destruct H as (u4 & w4 & E4 & H).
  apply bind_inv in H. destruct H as (u5 & w5 & E5 & H).
  apply bind_inv in H. destruct H as (u6 & w6 & E6 & H).
  minv. prim_inv.
  destruct (panel_items (panel_conf (w_panel w))) as [items|] eqn:Hi.
  - apply bind_inv in E6. destruct E6 as (xe & w7 & E6 & Hr).
    unfold ret in Hr. injection Hr as _ <-.
    unfold render_items in E6.
    apply bind_inv in E6. destruct E6 as (sw & w8 & Hc & Hl).
    apply compute_spacer_width_inv in Hc.
    destruct Hc as (Hsw & P & C & A & Cm & R). wnorm.
    assert (H0 : INT_MIN <= 0) by (unfold INT_MIN; lia).
    pose proof (layout_loop_fits _ _ _ _ _ _ H0 Hl) as Hf.
    apply layout_loop_lays in Hl. destruct Hl as (_ & ops & dk & Hl).
    destruct Hl as (P' & _). rewrite P'. cbn [widgets set_widgets].
    rewrite P. cbn [widgets set_widgets app].
    apply allocated_fits. rewrite P in Hf. exact Hf.
  - unfold ret in E6. injection E6 as _ <-. wnorm. constructor.
Qed.

End NonNegative.

Lemma render_to_cairo_forgets (w : world) ws0 :
  render_to_cairo (with_widgets w ws0) = render_to_cairo w.
Proof. reflexivity. Qed.

(** C9. When measured text widths are not negative, the widgets a pass
    leaves are in left-to-right order: of two widgets the earlier one
    starts no further right than the later one, and no position lies in
    the intervals of both.  The pass does not depend on the widgets the
    panel had before: it empties the list first. *)
Theorem widgets_ordered_disjoint (w w' : world) (u : unit) :
  (forall s, 0 <= fst (text_size s)) ->
  render_to_cairo w = Some (u, w') ->
  (forall i j a b,
      (i < j)%nat ->
      nth_error (widgets (w_panel w')) i = Some a ->
      nth_error (widgets (w_panel w')) j = Some b ->
      widget_x a <= widget_x b /\
      forall z, ~ (in_widget a z /\ in_widget b z)) /\
  (forall ws0 : list widget,
      render_to_cairo (with_widgets w ws0) = Some (u, w')).
Proof.
  intros Hnn H. split.
  - apply render_to_cairo_inv in H.
    destruct H as (sw & k & ops & Hsw & P & _).
    rewrite P. cbn [widgets set_widgets].
    assert (Hc : chain 0
              (allocated (w_allocs w)
                 match panel_items (panel_conf (w_panel w)) with
                 | Some items =>
                     layout_widgets (toplevels (w_panel w)) sw items 0 k
                 | None => []
                 end)).
    { apply chain_allocated.
      destruct (panel_items (panel_conf (w_panel w))); [|exact I].
      apply chain_layout; [exact Hnn | exact Hsw | lia]. }
    intros i j a b Hij Hi Hj.
    destruct (chain_pairwise _ _ _ _ _ _ Hc Hij Hi Hj) as (H1 & H2).
    split; [exact H2|].
    unfold in_widget. intros z. lia.
  - intros ws0. rewrite render_to_cairo_forgets. exact H.
Qed.

Lemma taskbar_buttons_nth tls : forall x i t,
  nth_error tls i = Some t ->
  exists b, nth_error (taskbar_buttons x tls) i = Some b /\
            widget_toplevel b = Some (handle t) /\
            widget_width b = button_width t.
Proof.
  induction tls as [|t0 tls IH]; intros x i t Hi.
  - destruct i; discriminate.
  - destruct i as [|i]; simpl in *.
    + injection Hi as <-. eexists. split; [reflexivity|]. split; reflexivity.
    + apply IH. exact Hi.
Qed.

Lemma taskbar_buttons_gap tls : forall x i b1 b2,
  nth_error (taskbar_buttons x tls) i = Some b1 ->
  nth_error (taskbar_buttons x tls) (S i) = Some b2 ->
  widget_x b2 = widget_x b1 + widget_width b1 + BUTTON_PADDING.
Proof.
  induction tls as [|t0 tls IH]; intros x i b1 b2 H1 H2.
  - destruct i; discriminate.
  - destruct i as [|i].
    + simpl in H1. injection H1 as <-.
      destruct tls as [|t1 tls]; [discriminate|].
      simpl in H2. injection H2 as <-. simpl. lia.
    + simpl in H1. change (nth_error (taskbar_buttons x (t0 :: tls)) (S (S i)))
        with (nth_error
                (taskbar_buttons (x + (button_width t0 + BUTTON_PADDING)) tls)
                (S i)) in H2.
      eapply IH; eassumption.
Qed.

(** C6. The label of a window is its title when there is one, else its
    application identifier when there is one, else "?"; these labels, in
    the order of the registry, are the texts one taskbar shows. *)
Theorem toplevel_label_shown (start_x : Z) (w w' : world) (d : Z) :
  render_taskbar start_x w = Some (d, w') ->
  (exists ops,
      w_cairo w' = w_cairo w ++ ops /\
      shown ops = map toplevel_label (toplevels (w_panel w))) /\
  (forall t s, title t = Some s -> toplevel_label t = s) /\
  (forall t a, title t = None -> app_id t = Some a -> toplevel_label t = a) /\
  (forall t, title t = None -> app_id t = None -> toplevel_label t = "?").
Proof.
  intros H. apply render_taskbar_lays in H.
  destruct H as (_ & _ & ops & (_ & C & _) & Hs).
  split; [exists ops; split; assumption|].
  split; [|split].
  - intros t s Ht. apply (proj1 (toplevel_label_fallback t)). exact Ht.
  - intros t a Ht Ha.
    apply (proj1 (proj2 (toplevel_label_fallback t))); assumption.
  - intros t Ht Ha.
    apply (proj2 (proj2 (toplevel_label_fallback t))); assumption.
Qed.

Lemma int_of_ok z : INT_MIN <= z <= INT_MAX -> int_of z = Some z.
Proof. intros H. apply in_int_iff in H. unfold int_of. rewrite H. reflexivity. Qed.

Lemma find_toplevel_In h ts :
  In h (map handle ts) -> exists t, find_toplevel h ts = Some t.
Proof.
  unfold find_toplevel. induction ts as [|u ts IH]; intros H; [destruct H|].
  cbn [find]. destruct (Nat.eqb (handle u) h) eqn:E.
  - exists u. reflexivity.
  - destruct H as [H|H]; [|exact (IH H)].
    cbn in H. rewrite H, Nat.eqb_refl in E. discriminate.
Qed.

Lemma find_toplevel_handle h ts t :
  find_toplevel h ts = Some t -> handle t = h /\ In t ts.
Proof.
  unfold find_toplevel. intros H. apply find_some in H.
  destruct H as (Hin & E). apply Nat.eqb_eq in E. tauto.
Qed.

Lemma button_scan_step (a : widget) (rest : list widget) (x : Z) (s : seat)
    (w : world) :
  INT_MIN <= widget_x a + widget_width a <= INT_MAX ->
  button_scan (a :: rest) x s w =
  if in_widgetb a x then
    match widget_toplevel a with
    | Some h =>
        match find_toplevel h (toplevels (w_panel w)) with
        | Some t => Some (tt, sent w (Activate (handle t) (wl_seat s)))
        | None => None
        end
    | None => Some (tt, w)
    end
  else button_scan rest x s w.
Proof.
  intros Hr. cbn [button_scan]. unfold in_widgetb, bind.
  destruct (widget_x a <=? x) eqn:E1; cbn [andb].
  - unfold int_add. rewrite int_of_ok by assumption. cbn [ret].
    destruct (x <? widget_x a + widget_width a); [|reflexivity].
    destruct (widget_toplevel a) as [h|]; [|reflexivity].
    unfold get_panel.
    destruct (find_toplevel h (toplevels (w_panel w))); reflexivity.
  - reflexivity.
Qed.

(** The read of [widget->toplevel->handle] at a widget whose entry is
    alive gives the handle the widget was made for. *)
Lemma alive_deref (p : panel) (a : widget) (h : nat) :
  alive p a -> widget_toplevel a = Some h ->
  exists t, find_toplevel h (toplevels p) = Some t /\ handle t = h.
Proof.
  intros Ha Et. destruct (find_toplevel_In _ _ (Ha h Et)) as (t & Ef).
  exists t. split; [exact Ef|].
  apply find_toplevel_handle in Ef. tauto.
Qed.

Lemma in_widgetb_iff a z : in_widgetb a z = true <-> in_widget a z.
Proof.
  unfold in_widgetb, in_widget. rewrite andb_true_iff, Z.leb_le, Z.ltb_lt.
  tauto.
Qed.

Lemma button_scan_miss (ws : list widget) (x : Z) (s : seat) (w : world) :
  Forall fits ws ->
  Forall (fun b => ~ in_widget b x) ws ->
  button_scan ws x s w = Some (tt, w).
Proof.
  induction ws as [|a ws IH]; intros Hr Hm; [reflexivity|].
  inversion Hr; subst. inversion Hm; subst.
  rewrite button_scan_step by assumption.
  destruct (in_widgetb a x) eqn:E.
  - apply in_widgetb_iff in E. contradiction.
  - apply IH; assumption.
Qed.

Lemma button_scan_hit (pre : list widget) (a : widget) (post : list widget)
    (x : Z) (s : seat) (w : world) :
  Forall fits
    (pre ++ a :: post) ->
  Forall (fun b => ~ in_widget b x) pre ->
  in_widget a x ->
  alive (w_panel w) a ->
  button_scan (pre ++ a :: post) x s w =
  Some (tt, match widget_toplevel a with
            | Some h => sent w (Activate h (wl_seat s))
            | None => w
            end).
Proof.
  induction pre as [|b pre IH]; intros Hr Hm Hin Hal.
  - inversion Hr; subst. cbn [app]. rewrite button_scan_step by assumption.
    apply in_widgetb_iff in Hin. rewrite Hin.
    destruct (widget_toplevel a) as [h|] eqn:Et; [|reflexivity].
    destruct (alive_deref _ _ _ Hal Et) as (t & Ef & Eh).
    rewrite Ef, Eh. reflexivity.
  - inversion Hr; subst. inversion Hm; subst.
    cbn [app]. rewrite button_scan_step by assumption.
    destruct (in_widgetb b x) eqn:E.
    + apply in_widgetb_iff in E. contradiction.
    + apply IH; assumption.
Qed.

Lemma button_scan_stale (pre : list widget) (a : widget) (post : list widget)
    (x : Z) (s : seat) (w : world) :
  Forall fits
    (pre ++ a :: post) ->
  Forall (fun b => ~ in_widget b x) pre ->
  in_widget a x ->
  ~ alive (w_panel w) a ->
  button_scan (pre ++ a :: post) x s w = None.
Proof.
  induction pre as [|b pre IH]; intros Hr Hm Hin Hal.
  - inversion Hr; subst. cbn [app]. rewrite button_scan_step by assumption.
    apply in_widgetb_iff in Hin. rewrite Hin.
    destruct (widget_toplevel a) as [h|] eqn:Et.
    + destruct (find_toplevel h (toplevels (w_panel w))) as [t|] eqn:Ef;
        [|reflexivity].
      exfalso. apply Hal. intros h' Eh'. rewrite Et in Eh'.
      injection Eh' as <-.
      apply find_toplevel_handle in Ef. destruct Ef as (<- & Hin').
      apply in_map. exact Hin'.
    + exfalso. apply Hal. intros h' Eh'. rewrite Et in Eh'. discriminate.
  - inversion Hr; subst. inversion Hm; subst.
    cbn [app]. rewrite button_scan_step by assumption.
    destruct (in_widgetb b x) eqn:E.
    + apply in_widgetb_iff in E. contradiction.
    + apply IH; assumption.
Qed.

(** C2. A button event whose state is not "pressed" does nothing.  On a
    press, the widgets are scanned from the first on with the stored
    pointer coordinate; at the first widget whose interval holds the
    coordinate the scan stops, and the window of that widget is activated
    when the widget has one, and nothing is requested when it has none;
    when no interval holds the coordinate nothing is requested.  The
    right edges of the widgets are taken to fit an [int], as those of the
    widgets of a pass do ([render_to_cairo_fits]), and the entry of the
    widget hit is taken to be alive, as those of the widgets of a pass
    are: the handle is read from the entry, and when the entry has been
    freed since the pass the press is undefined. *)
Theorem wl_pointer_button_dispatch (s : seat) (state : Z) (w : world) :
  Forall fits
    (widgets (w_panel w)) ->
  (state <> BUTTON_STATE_PRESSED ->
   wl_pointer_button s state w = Some (tt, w)) /\
  (state = BUTTON_STATE_PRESSED ->
   (forall pre a post,
       widgets (w_panel w) = pre ++ a :: post ->
       Forall (fun b => ~ in_widget b (ptr_x (seat_pointer s))) pre ->
       in_widget a (ptr_x (seat_pointer s)) ->
       alive (w_panel w) a ->
       wl_pointer_button s state w =
       Some (tt, match widget_toplevel a with
                 | Some h => sent w (Activate h (wl_seat s))
                 | None => w
                 end)) /\
   (forall pre a post,
       widgets (w_panel w) = pre ++ a :: post ->
       Forall (fun b => ~ in_widget b (ptr_x (seat_pointer s))) pre ->
       in_widget a (ptr_x (seat_pointer s)) ->
       ~ alive (w_panel w) a ->
       wl_pointer_button s state w = None) /\
   (Forall (fun b => ~ in_widget b (ptr_x (seat_pointer s)))
      (widgets (w_panel w)) ->
    wl_pointer_button s state w = Some (tt, w))).
Proof.
  intros Hr. unfold wl_pointer_button. split.
  - intros Hs. apply Z.eqb_neq in Hs. rewrite Hs. reflexivity.
  - intros Hs. apply Z.eqb_eq in Hs. rewrite Hs. cbn [negb].
    unfold bind, get_panel. split; [|split].
    + intros pre a post Hw Hm Hin Hal. rewrite Hw in *.
      apply button_scan_hit; assumption.
    + intros pre a post Hw Hm Hin Hal. rewrite Hw in *.
      apply button_scan_stale; assumption.
    + intros Hm. apply button_scan_miss; assumption.
Qed.

Lemma rem_60_nonneg now : 0 <= now -> now - Z.rem now 60 = 60 * (now / 60).
Proof.
  intros H. rewrite Z.rem_mod_nonneg by lia.
  pose proof (Z.div_mod now 60). lia.
Qed.

(** C8. The clock timer is armed by [panel_setup] exactly when there is an
    item string and it contains [C].  For a time of day [now_sec] that is
    not negative (and far enough from the end of [time_t]), the timer is
    absolute, expires first at the start of the next minute, which is
    [now_sec] rounded down to a multiple of 60, plus 60, and then every 60
    seconds. *)
Theorem panel_setup_clock_armed (now_sec : Z) (w : world) :
  0 <= now_sec <= 2 ^ 63 - 61 ->
  exists w',
    panel_setup_clock now_sec w = Some (tt, w') /\
    (fd_clock (w_panel w') <> None <->
     exists items,
       panel_items (panel_conf (w_panel w)) = Some items /\
       In "C"%char (list_ascii_of_string items)) /\
    (forall t,
        fd_clock (w_panel w') = Some t ->
        tfd_abstime t = true /\
        it_value_sec t = 60 * (now_sec / 60) + 60 /\
        it_value_sec t mod 60 = 0 /\
        now_sec < it_value_sec t <= now_sec + 60 /\
        it_interval_sec t = 60).
Proof.
  intros Hn. unfold panel_setup_clock, bind, get_panel.
  assert (Hv : now_sec - Z.rem now_sec 60 = 60 * (now_sec / 60))
    by (apply rem_60_nonneg; lia).
  assert (Hd : 60 * (now_sec / 60) <= now_sec < 60 * (now_sec / 60) + 60).
  { pose proof (Z.div_mod now_sec 60). pose proof (Z.mod_pos_bound now_sec 60).
    lia. }
  destruct (panel_items (panel_conf (w_panel w))) as [items|] eqn:Hi.
  - destruct (strchr items "C") eqn:Hc.
    + unfold time_t_of. rewrite Hv.
      assert (E1 : (- 2 ^ 63 <=? 60 * (now_sec / 60)) &&
                   (60 * (now_sec / 60) <=? 2 ^ 63 - 1) = true).
      { apply andb_true_iff. rewrite !Z.leb_le. lia. }
      rewrite E1.
      assert (E2 : (- 2 ^ 63 <=? 60 * (now_sec / 60) + 60) &&
                   (60 * (now_sec / 60) + 60 <=? 2 ^ 63 - 1) = true).
      { apply andb_true_iff. rewrite !Z.leb_le. lia. }
      rewrite E2. unfold modify_panel. eexists. split; [reflexivity|].
      cbn [fd_clock w_panel set_fd_clock tfd_abstime it_value_sec it_interval_sec]. split.
      * split; [|discriminate]. intros _. exists items.
        split; [reflexivity | apply strchr_In; exact Hc].
      * intros t Ht.
        assert (Et : t = mkTimerfd true 60 (60 * (now_sec / 60) + 60))
          by congruence.
        rewrite Et. cbn [tfd_abstime it_value_sec it_interval_sec].
        repeat split; try lia.
        replace (60 * (now_sec / 60) + 60) with ((now_sec / 60 + 1) * 60)
          by lia.
        apply Z.mod_mul. lia.
    + unfold modify_panel. eexists. split; [reflexivity|]. cbn [fd_clock w_panel set_fd_clock tfd_abstime it_value_sec it_interval_sec]. split.
      * split; [congruence|]. intros (items' & Hi' & Hin).
        injection Hi' as <-. apply strchr_In in Hin. congruence.
      * discriminate.
  - unfold modify_panel. eexists. split; [reflexivity|]. cbn [fd_clock w_panel set_fd_clock tfd_abstime it_value_sec it_interval_sec]. split.
    + split; [congruence|]. intros (items' & Hi' & _). discriminate.
    + discriminate.
Qed.

Lemma render_frame_skip (w : world) :
  run_display (w_panel w) = false \/
  panel_width (w_panel w) = 0 \/ panel_height (w_panel w) = 0 ->
  render_frame w = Some (tt, w).
Proof.
  intros H. unfold render_frame, bind, get_panel.
  destruct H as [H|[H|H]]; rewrite H; cbn [negb orb];
    rewrite ?Z.eqb_refl, ?orb_true_r; reflexivity.
Qed.

Lemma dispatch_unsized (e : event) (w v : world) :
  unsized w v -> empty_configure e ->
  exists v', dispatch e v = Some (tt, v') /\ unsized w v'.
Proof.
  intros (Hw & Hz & Hr & Hc & Hd) He.
  assert (Hskip : forall q l,
             panel_width q = 0 \/ panel_height q = 0 ->
             render_frame (mkWorld q (w_cairo v) l (w_commits v)
                             (w_requests v) (w_time_calls v) (w_allocs v)) =
             Some (tt, mkWorld q (w_cairo v) l (w_commits v)
                         (w_requests v) (w_time_calls v) (w_allocs v))).
  { intros q l Hq. apply render_frame_skip. right. exact Hq. }
  destruct e; unfold dispatch, bind, get_panel.
  - unfold handle_toplevel_manager_toplevel, bind, alloc, modify_panel, wlr_log.
    destruct (alloc_ok (w_allocs v)); eexists; (split; [reflexivity|]);
      unfold unsized; cbn; auto.
  - unfold with_toplevel, bind, get_panel.
    destruct (find_toplevel h (toplevels (w_panel v))).
    + unfold handle_toplevel_title, strdup, bind, alloc, ret, modify_panel, wlr_log.
      destruct (alloc_ok (w_allocs v)); eexists; (split; [reflexivity|]);
        unfold unsized; cbn; auto.
    + eexists; (split; [reflexivity|]); unfold unsized; auto.
  - unfold with_toplevel, bind, get_panel.
    destruct (find_toplevel h (toplevels (w_panel v))).
    + unfold handle_toplevel_app_id, strdup, bind, alloc, ret, modify_panel, wlr_log.
      destruct (alloc_ok (w_allocs v)); eexists; (split; [reflexivity|]);
        unfold unsized; cbn; auto.
    + eexists; (split; [reflexivity|]); unfold unsized; auto.
  - unfold with_toplevel, bind, get_panel.
    destruct (find_toplevel h (toplevels (w_panel v))).
    + unfold ret, modify_panel. eexists; (split; [reflexivity|]);
        unfold unsized; cbn; auto.
    + eexists; (split; [reflexivity|]); unfold unsized; auto.
  - destruct (find_toplevel h (toplevels (w_panel v))).
    + unfold handle_toplevel_done. rewrite render_frame_skip by tauto.
      eexists; (split; [reflexivity|]); unfold unsized; auto.
    + eexists; (split; [reflexivity|]); unfold unsized; auto.
  - destruct (find_toplevel h (toplevels (w_panel v))).
    + unfold handle_toplevel_closed, toplevel_destroy, bind, modify_panel.
      cbv beta iota; rewrite Hskip by (cbn; exact Hz).
      eexists; (split; [reflexivity|]); unfold unsized; cbn; auto.
    + eexists; (split; [reflexivity|]); unfold unsized; auto.
  - unfold layer_surface_configure, bind, modify_panel.
    cbv beta iota; rewrite Hskip by (cbn; exact He).
    eexists; (split; [reflexivity|]); unfold unsized; cbn; auto.
  - unfold surface_enter, bind, get_panel.
    destruct (find _ (outputs (w_panel v))).
    + unfold modify_panel. cbv beta iota; rewrite Hskip by (cbn; exact Hz).
      eexists; (split; [reflexivity|]); unfold unsized; cbn; auto.
    + eexists; (split; [reflexivity|]); unfold unsized; auto.
  - unfold output_scale, bind, get_panel, modify_panel.
    cbn [w_panel panel_output set_outputs].
    destruct (panel_output (w_panel v)) as [a|].
    + destruct (Nat.eqb a o).
      * cbv beta iota. wnorm. rewrite Hskip by (cbn; exact Hz).
        eexists; (split; [reflexivity|]); unfold unsized; cbn; auto.
      * eexists; (split; [reflexivity|]); unfold unsized; cbn; auto.
    + eexists; (split; [reflexivity|]); unfold unsized; cbn; auto.
  - destruct (find_seat s (seats (w_panel v))); unfold modify_panel;
      eexists; (split; [reflexivity|]); unfold unsized; cbn; auto.
  - destruct (find_seat s (seats (w_panel v))); unfold modify_panel;
      eexists; (split; [reflexivity|]); unfold unsized; cbn; auto.
  - destruct (find_seat s (seats (w_panel v))).
    + unfold wl_pointer_button.
      destruct (negb (state =? BUTTON_STATE_PRESSED)).
      * eexists; (split; [reflexivity|]); unfold unsized; auto.
      * unfold bind, get_panel. rewrite Hw. cbn [button_scan].
        eexists; (split; [reflexivity|]); unfold unsized; auto.
    + eexists; (split; [reflexivity|]); unfold unsized; auto.
  - unfold modify_panel.
    eexists; (split; [reflexivity|]); unfold unsized; cbn; auto.
  - rewrite render_frame_skip by tauto.
    eexists; (split; [reflexivity|]); unfold unsized; auto.
  - unfold handle_global_seat, bind, alloc, modify_panel, wlr_log.
    destruct (alloc_ok (w_allocs v)); eexists; (split; [reflexivity|]);
      unfold unsized; cbn; auto.
  - unfold handle_global_output, bind, get_panel, alloc, modify_panel, wlr_log.
    destruct (panel_output (w_panel v));
      [|destruct (alloc_ok (w_allocs v))]; eexists;
      (split; [reflexivity|]); unfold unsized; cbn; auto.
Qed.

(** C10. A render pass asked of a panel that is not running, or whose
    width or height is zero, returns at once and leaves the state as it
    is.  So, from a panel that has no widgets and no size yet, as the
    panel of [main] is, whatever events arrive before a configure event
    with a width and a height that are not zero, the widget list stays
    empty, nothing is drawn or committed, and no request is sent: a button
    press finds no widget. *)
Theorem render_frame_not_ready :
  (forall w : world,
      run_display (w_panel w) = false \/
      panel_width (w_panel w) = 0 \/ panel_height (w_panel w) = 0 ->
      render_frame w = Some (tt, w)) /\
  (forall (w : world) (es : list event),
      widgets (w_panel w) = [] ->
      panel_width (w_panel w) = 0 \/ panel_height (w_panel w) = 0 ->
      Forall empty_configure es ->
      exists w',
        run es w = Some (tt, w') /\
        widgets (w_panel w') = [] /\
        w_requests w' = w_requests w /\
        w_commits w' = w_commits w /\
        w_cairo w' = w_cairo w) /\
  (forall (c : conf) (bufs : pool) (es : list event),
      Forall empty_configure es ->
      exists w',
        run es (world_init c bufs) = Some (tt, w') /\
        widgets (w_panel w') = [] /\
        w_requests w' = [] /\ w_commits w' = [] /\ w_cairo w' = []).
Proof.
  assert (G : forall (w : world) (es : list event),
             Forall empty_configure es ->
             forall v, unsized w v ->
             exists w', run es v = Some (tt, w') /\ unsized w w').
  { intros w es Hes. induction Hes as [|e es He Hes IH]; intros v Hv.
    - exists v. split; [reflexivity | exact Hv].
    - destruct (dispatch_unsized e w v Hv He) as (v1 & Hd & Hv1).
      destruct (IH v1 Hv1) as (w' & Hrun & Hw').
      exists w'. split; [|exact Hw'].
      cbn [run]. unfold bind. rewrite Hd. exact Hrun. }
  split; [exact render_frame_skip|]. split.
  - intros w es Hw Hz Hes.
    destruct (G w es Hes w) as (w' & Hrun & (H1 & _ & H3 & H4 & H5)).
    { unfold unsized. auto. }
    exists w'. auto.
  - intros c bufs es Hes.
    destruct (G (world_init c bufs) es Hes (world_init c bufs))
      as (w' & Hrun & (H1 & _ & H3 & H4 & H5)).
    { unfold unsized. cbn. auto. }
    exists w'. auto.
Qed.

(** Running the model forwards, when the sums fit an [int] and the
    allocations succeed. *)
Lemma bind_int_add {B : Type} a b (f : Z -> M B) (w : world) :
  INT_MIN <= a + b <= INT_MAX -> bind (int_add a b) f w = f (a + b) w.
Proof. intros H. unfold bind. rewrite int_add_ok by exact H. reflexivity. Qed.

Lemma bind_int_sub {B : Type} a b (f : Z -> M B) (w : world) :
  INT_MIN <= a - b <= INT_MAX -> bind (int_sub a b) f w = f (a - b) w.
Proof. intros H. unfold bind. rewrite int_sub_ok by exact H. reflexivity. Qed.

Lemma bind_widget_add {B : Type} x wd tl (f : unit -> M B) (w : world) :
  alloc_ok (w_allocs w) = true ->
  bind (widget_add x wd tl) f w =
  f tt (mkWorld
          (set_widgets (w_panel w) (widgets (w_panel w) ++ [mkWidget x wd tl]))
          (w_cairo w) (w_log w) (w_commits w) (w_requests w)
          (w_time_calls w) (S (w_allocs w))).
Proof.
  intros H. unfold widget_add, bind, alloc, modify_panel. rewrite H.
  reflexivity.
Qed.

Lemma clamp_is_max z : (if z <? 0 then 0 else z) = Z.max 0 z.
Proof.
  destruct (z <? 0) eqn:E; [apply Z.ltb_lt in E | apply Z.ltb_ge in E]; lia.
Qed.

Ltac int_side :=
  unfold INT_MIN, INT_MAX, BUTTON_PADDING, BUTTON_MAX_WIDTH in *; lia.

Ltac int_side_nl :=
  unfold INT_MIN, INT_MAX, BUTTON_PADDING, BUTTON_MAX_WIDTH in *; nia.

Ltac fwd :=
  repeat (cbn [bind ret get_panel modify_panel draw wlr_log time_now alloc
               widgets_free cairo_set_source_u32 render_text
               w_panel w_cairo w_log w_commits w_requests w_time_calls
               w_allocs set_widgets widgets toplevels panel_conf panel_width
               panel_height panel_items fst snd];
          rewrite ?bind_assoc;
          rewrite ?cap_is_min;
          try rewrite bind_widget_add by (cbn [w_allocs]; assumption);
          try rewrite bind_int_add by int_side;
          try rewrite bind_int_sub by int_side;
          try rewrite int_add_ok by int_side;
          try rewrite int_sub_ok by int_side).

Ltac fold_clock :=
  repeat match goal with
  | |- context [strftime_HM (localtime (time_at ?k))] =>
      change (strftime_HM (localtime (time_at k))) with (clock_label k)
  end.

(** C3, as the code has it.  With the items "TSC", one window titled
    "Editor" and a panel 800 wide, when the two widgets fit the panel,
    their allocation succeeds and the clock label is as wide when it is
    drawn as when it was measured, a pass leaves exactly two widgets: the
    button of the window at 8, and the clock, whose right edge is at 800.
    The spacer leaves no widget.  The label of the clock starts one
    padding inside its widget, so that the label ends at 800 minus the
    padding. *)
Theorem editor_layout (w : world) (t : toplevel) :
  panel_items (panel_conf (w_panel w)) = Some "TSC" ->
  toplevels (w_panel w) = [t] ->
  title t = Some "Editor" ->
  panel_width (w_panel w) = 800 ->
  alloc_ok (w_allocs w) = true ->
  alloc_ok (S (w_allocs w)) = true ->
  fst (text_size (clock_label (S (w_time_calls w)))) =
  fst (text_size (clock_label (w_time_calls w))) ->
  0 <= fst (text_size "Editor") <= INT_MAX - 16 ->
  0 <= fst (text_size (clock_label (w_time_calls w))) ->
  Z.min (fst (text_size "Editor") + 2 * BUTTON_PADDING) BUTTON_MAX_WIDTH +
  2 * BUTTON_PADDING +
  (fst (text_size (clock_label (w_time_calls w))) + 2 * BUTTON_PADDING) <= 800 ->
  exists w' c,
    render_to_cairo w = Some (tt, w') /\
    widgets (w_panel w') =
      [mkWidget 8
         (Z.min (fst (text_size "Editor") + 2 * BUTTON_PADDING)
            BUTTON_MAX_WIDTH)
         (Some (handle t)); c] /\
    widget_toplevel c = None /\
    widget_width c =
      fst (text_size (clock_label (S (w_time_calls w)))) + 2 * BUTTON_PADDING /\
    widget_x c + widget_width c = 800 /\
    exists ops y sep,
      w_cairo w' =
        w_cairo w ++ ops ++
        MoveTo (widget_x c + BUTTON_PADDING) y
        :: ShowText (clock_label (S (w_time_calls w))) :: sep /\
      widget_x c + BUTTON_PADDING +
      fst (text_size (clock_label (S (w_time_calls w)))) =
      800 - BUTTON_PADDING.
Proof.
  intros Hi Ht Htitle Hw Ha1 Ha2 Hck Htw Hcw Hfit.
  assert (Hlab : toplevel_label t = "Editor")
    by (unfold toplevel_label; rewrite Htitle; reflexivity).
  rewrite Hck.
  set (tw := fst (text_size "Editor")) in *.
  set (cw := fst (text_size (clock_label (w_time_calls w)))) in *.
  unfold render_to_cairo. fwd. rewrite Hi.
  unfold render_items, compute_spacer_width.
  cbn [strchr Ascii.eqb Bool.eqb]. cbn [fixed_width_loop Ascii.eqb Bool.eqb].
  unfold taskbar_natural_width, clock_natural_width. fwd. rewrite Ht.
  cbn [taskbar_natural_width_loop]. rewrite Hlab. fold tw. fwd.
  fold_clock. fold cw. fwd.
  rewrite Hw, int_of_u32_small by int_side. fwd. rewrite clamp_is_max.
  cbn [layout_loop Ascii.eqb Bool.eqb].
  unfold render_taskbar, render_clock. fwd. rewrite Ht.
  cbn [render_taskbar_loop]. rewrite Hlab. fold tw. fwd.
  fold_clock. rewrite Hck. fold cw. fwd.
  unfold draw_separator. fwd.
  eexists. eexists. split; [reflexivity|].
  cbn [w_panel widgets set_widgets app w_cairo].
  split; [reflexivity|].
  cbn [widget_toplevel widget_width widget_x].
  split; [reflexivity|]. split; [reflexivity|].
  split; [int_side|].
  rewrite <- !app_assoc. cbn [app].
  eexists (_ :: _ :: _ :: _ :: _ :: _ :: _ :: _ :: _ :: _ :: _ :: _ :: _ :: [_]).
  eexists. eexists. split; [reflexivity|]. int_side.
Qed.

(** ** The pass is defined when the sizes are moderate *)

Lemma widget_add_defined x wd tl (w : world) :
  exists w', widget_add x wd tl w = Some (tt, w').
Proof.
  unfold widget_add, bind, alloc, modify_panel, wlr_log.
  destruct (alloc_ok (w_allocs w)); eexists; reflexivity.
Qed.

Section Bounded.

(** [B] bounds the measured width of the labels of the clock and of the
    windows. *)
Variable B : Z.
Hypothesis clock_bounded : forall k, 0 <= fst (text_size (clock_label k)) <= B.
Hypothesis B_small : B + 2 * BUTTON_PADDING <= INT_MAX.

Lemma button_width_bounds t :
  label_bounded B t -> 0 <= button_width t <= BUTTON_MAX_WIDTH.
Proof.
  unfold label_bounded, button_width, BUTTON_PADDING, BUTTON_MAX_WIDTH. lia.
Qed.

Lemma clock_width_bounds k : 0 <= clock_width k <= B + 2 * BUTTON_PADDING.
Proof.
  unfold clock_width, BUTTON_PADDING.
  pose proof (clock_bounded k). lia.
Qed.

Lemma taskbar_end_bounds tls : forall x,
  Forall (label_bounded B) tls ->
  x <= taskbar_end x tls <=
  x + (BUTTON_MAX_WIDTH + BUTTON_PADDING) * Z.of_nat (List.length tls).
Proof.
  induction tls as [|t tls IH]; intros x Hl; cbn [taskbar_end List.length].
  - lia.
  - inversion Hl; subst.
    pose proof (button_width_bounds t ltac:(assumption)).
    specialize (IH (x + (button_width t + BUTTON_PADDING)) ltac:(assumption)).
    unfold BUTTON_PADDING, BUTTON_MAX_WIDTH in *. lia.
Qed.

Lemma taskbar_natural_width_loop_defined tls : forall total (w : world),
  Forall (label_bounded B) tls ->
  0 <= total ->
  total + (BUTTON_MAX_WIDTH + BUTTON_PADDING) * Z.of_nat (List.length tls)
    <= INT_MAX ->
  taskbar_natural_width_loop tls total w = Some (taskbar_end total tls, w).
Proof.
  induction tls as [|t tls IH]; intros total w Hl H0 Hb;
    cbn [taskbar_natural_width_loop taskbar_end List.length] in *.
  - reflexivity.
  - inversion Hl as [|? ? Htw Hl']; subst.
    pose proof (button_width_bounds t Htw) as Hbw.
    unfold label_bounded in Htw.
    rewrite bind_int_add by int_side. rewrite cap_is_min.
    fold (button_width t).
    rewrite bind_int_add by int_side.
    rewrite bind_int_add by int_side.
    apply IH; [exact Hl' | int_side | int_side].
Qed.

Lemma render_taskbar_loop_defined tls : forall x (w : world),
  Forall (label_bounded B) tls ->
  0 <= x ->
  x + (BUTTON_MAX_WIDTH + BUTTON_PADDING) * Z.of_nat (List.length tls)
    <= INT_MAX ->
  exists w', render_taskbar_loop tls x w = Some (taskbar_end x tls, w').
Proof.
  induction tls as [|t tls IH]; intros x w Hl H0 Hb;
    cbn [render_taskbar_loop taskbar_end List.length] in *.
  - eexists. reflexivity.
  - inversion Hl as [|? ? Htw Hl']; subst.
    pose proof (button_width_bounds t Htw) as Hbw.
    unfold label_bounded in Htw.
    rewrite bind_int_add by int_side. rewrite cap_is_min.
    fold (button_width t).
    destruct (widget_add_defined x (button_width t) (Some (handle t)) w)
      as (w1 & Hadd).
    rewrite (bind_Some _ _ _ _ _ Hadd). fwd.
    apply IH; [exact Hl' | int_side | int_side].
Qed.

Lemma render_taskbar_defined start_x (w : world) :
  Forall (label_bounded B) (toplevels (w_panel w)) ->
  0 <= start_x ->
  start_x + BUTTON_PADDING +
  (BUTTON_MAX_WIDTH + BUTTON_PADDING) *
  Z.of_nat (List.length (toplevels (w_panel w))) <= INT_MAX ->
  exists w',
    render_taskbar start_x w =
    Some (taskbar_end (start_x + BUTTON_PADDING) (toplevels (w_panel w))
          - start_x, w').
Proof.
  intros HL H0 Hb. unfold render_taskbar.
  rewrite bind_int_add by int_side. cbn [bind get_panel].
  destruct (render_taskbar_loop_defined (toplevels (w_panel w))
              (start_x + BUTTON_PADDING) w) as (w' & Hl);
    [exact HL | int_side | int_side |].
  rewrite (bind_Some _ _ _ _ _ Hl).
  pose proof (taskbar_end_bounds (toplevels (w_panel w))
                (start_x + BUTTON_PADDING) HL) as Hte.
  rewrite int_sub_ok by int_side.
  exists w'. reflexivity.
Qed.

Lemma render_clock_defined start_x (w : world) :
  0 <= start_x ->
  start_x + B + 2 * BUTTON_PADDING <= INT_MAX ->
  exists w', render_clock start_x w = Some (clock_width (w_time_calls w), w').
Proof.
  intros H0 Hb. unfold render_clock. cbn [bind time_now].
  fold_clock.
  pose proof (clock_bounded (w_time_calls w)) as Htw.
  rewrite bind_int_add by int_side.
  match goal with
  | |- context [widget_add ?a ?b ?c] =>
      destruct (widget_add_defined a b c
                  (mkWorld (w_panel w) (w_cairo w) (w_log w) (w_commits w)
                     (w_requests w) (S (w_time_calls w)) (w_allocs w)))
        as (w1 & Hadd)
  end.
  rewrite (bind_Some _ _ _ _ _ Hadd). fwd.
  eexists. reflexivity.
Qed.

Lemma taskbar_natural_width_defined (w : world) :
  Forall (label_bounded B) (toplevels (w_panel w)) ->
  BUTTON_PADDING + (BUTTON_MAX_WIDTH + BUTTON_PADDING) *
    Z.of_nat (List.length (toplevels (w_panel w))) <= INT_MAX ->
  taskbar_natural_width w =
  Some (taskbar_end BUTTON_PADDING (toplevels (w_panel w)), w).
Proof.
  intros HL Hb. unfold taskbar_natural_width, bind, get_panel.
  rewrite taskbar_natural_width_loop_defined by (try assumption; int_side).
  reflexivity.
Qed.

Lemma clock_natural_width_defined (w : world) :
  clock_natural_width w =
  Some (clock_width (w_time_calls w),
        mkWorld (w_panel w) (w_cairo w) (w_log w) (w_commits w)
          (w_requests w) (S (w_time_calls w)) (w_allocs w)).
Proof.
  unfold clock_natural_width. cbn [bind time_now]. fold_clock.
  pose proof (clock_bounded (w_time_calls w)) as Htw.
  rewrite int_add_ok by int_side. reflexivity.
Qed.

(** [A] bounds what one item can add to the cursor. *)
Variable A : Z.

Lemma fixed_width_loop_defined items : forall acc (w : world),
  Forall (label_bounded B) (toplevels (w_panel w)) ->
  BUTTON_PADDING + (BUTTON_MAX_WIDTH + BUTTON_PADDING) *
    Z.of_nat (List.length (toplevels (w_panel w))) <= A ->
  B + 2 * BUTTON_PADDING <= A ->
  0 <= acc ->
  acc + A * Z.of_nat (String.length items) <= INT_MAX ->
  exists f w',
    fixed_width_loop items acc w = Some (f, w') /\ acc <= f.
Proof.
  induction items as [|c items IH]; intros acc w HL HA1 HA2 H0 Hb;
    cbn [fixed_width_loop String.length] in *.
  - exists acc, w. split; [reflexivity | lia].
  - pose proof (taskbar_end_bounds (toplevels (w_panel w)) BUTTON_PADDING HL)
      as Hte.
    pose proof (clock_width_bounds (w_time_calls w)) as Hcw.
    assert (HA : 0 <= A) by int_side.
    destruct (Ascii.eqb c "T"); [|destruct (Ascii.eqb c "C")].
    + rewrite !bind_assoc.
      rewrite (bind_Some _ _ _ _ _ (taskbar_natural_width_defined w HL
                                      ltac:(int_side))).
      rewrite bind_int_add by int_side_nl.
      destruct (IH (acc + taskbar_end BUTTON_PADDING (toplevels (w_panel w))) w)
        as (f & w' & Hf & Hle); try assumption; [int_side | int_side_nl |].
      exists f, w'. split; [exact Hf | int_side].
    + rewrite !bind_assoc.
      rewrite (bind_Some _ _ _ _ _ (clock_natural_width_defined w)).
      rewrite bind_int_add by int_side_nl.
      match goal with
      | |- context [fixed_width_loop items ?a ?v] =>
          destruct (IH a v) as (f & w' & Hf & Hle)
      end; try assumption; [int_side | int_side_nl |].
      exists f, w'. split; [exact Hf | int_side].
    + cbn [bind ret].
      destruct (IH acc w) as (f & w' & Hf & Hle); try assumption; [int_side_nl|].
      exists f, w'. split; assumption.
Qed.

Lemma fixed_width_loop_range items : forall a (v v' : world) r,
  INT_MIN <= a <= INT_MAX ->
  fixed_width_loop items a v = Some (r, v') ->
  INT_MIN <= r <= INT_MAX.
Proof.
  induction items as [|c items IH]; intros a v v' r Ha Hr; simpl in Hr.
  - minv. exact Ha.
  - apply bind_inv in Hr. destruct Hr as (a1 & v1 & Hs & Hr).
    apply (IH a1 v1 v' r); [|exact Hr].
    destruct (Ascii.eqb c "T"); [|destruct (Ascii.eqb c "C")];
      minv; assumption.
Qed.

Lemma compute_spacer_width_defined items (w : world) :
  Forall (label_bounded B) (toplevels (w_panel w)) ->
  BUTTON_PADDING + (BUTTON_MAX_WIDTH + BUTTON_PADDING) *
    Z.of_nat (List.length (toplevels (w_panel w))) <= A ->
  B + 2 * BUTTON_PADDING <= A ->
  0 <= panel_width (w_panel w) <= A ->
  A * Z.of_nat (String.length items) <= INT_MAX ->
  A <= INT_MAX ->
  exists sw w',
    compute_spacer_width items w = Some (sw, w') /\ 0 <= sw <= A.
Proof.
  intros HL HA1 HA2 HW Hb HAm. unfold compute_spacer_width.
  destruct (strchr items "S").
  - destruct (fixed_width_loop_defined items 0 w) as (f & w' & Hf & Hle);
      try assumption; [lia |].
    rewrite (bind_Some _ _ _ _ _ Hf). cbn [bind get_panel].
    pose proof Hf as Hf'. apply fixed_width_loop_natural in Hf'.
    destruct Hf' as (ns & _ & _ & Hp). rewrite Hp.
    rewrite int_of_u32_small by lia.
    assert (Hfr : INT_MIN <= f <= INT_MAX)
      by (apply (fixed_width_loop_range items 0 w w' f); [int_side | exact Hf]).
    rewrite bind_int_sub by int_side. rewrite clamp_is_max.
    eexists. eexists. split; [reflexivity | lia].
  - exists 0, w. split; [reflexivity | int_side].
Qed.

Lemma layout_loop_defined sw items : forall x (w : world),
  Forall (label_bounded B) (toplevels (w_panel w)) ->
  BUTTON_PADDING + (BUTTON_MAX_WIDTH + BUTTON_PADDING) *
    Z.of_nat (List.length (toplevels (w_panel w))) <= A ->
  B + 2 * BUTTON_PADDING <= A ->
  0 <= sw <= A ->
  0 <= x ->
  x + A * Z.of_nat (String.length items) <= INT_MAX ->
  exists x' w', layout_loop sw items x w = Some (x', w').
Proof.
  induction items as [|c items IH]; intros x w HL HA1 HA2 Hsw H0 Hb;
    cbn [layout_loop String.length] in *.
  - exists x, w. reflexivity.
  - pose proof (taskbar_end_bounds (toplevels (w_panel w))
                  (x + BUTTON_PADDING) HL) as Hte.
    pose proof (clock_width_bounds (w_time_calls w)) as Hcw.
    assert (HA : 0 <= A) by int_side.
    destruct (Ascii.eqb c "T"); [|destruct (Ascii.eqb c "C");
      [|destruct (Ascii.eqb c "S")]].
    + destruct (render_taskbar_defined x w) as (w1 & Hr);
        [exact HL | lia | int_side_nl |].
      rewrite !bind_assoc. rewrite (bind_Some _ _ _ _ _ Hr).
      rewrite bind_int_add by int_side_nl.
      apply render_taskbar_lays in Hr. destruct Hr as (_ & _ & ops & Hl & _).
      destruct (lays_toplevels _ _ _ _ _ _ Hl) as (Ht & _).
      apply IH; try assumption;
        [rewrite Ht; exact HL | rewrite Ht; exact HA1 | int_side | int_side_nl].
    + destruct (render_clock_defined x w) as (w1 & Hr); [lia | int_side_nl |].
      rewrite !bind_assoc. rewrite (bind_Some _ _ _ _ _ Hr).
      rewrite bind_int_add by int_side_nl.
      apply render_clock_lays in Hr. destruct Hr as (_ & Hl).
      destruct (lays_toplevels _ _ _ _ _ _ Hl) as (Ht & _).
      apply IH; try assumption;
        [rewrite Ht; exact HL | rewrite Ht; exact HA1 | int_side | int_side_nl].
    + rewrite bind_int_add by int_side_nl.
      apply IH; try assumption; [int_side | int_side_nl].
    + rewrite !bind_assoc. cbn [bind wlr_log ret].
      apply IH; try assumption. int_side_nl.
Qed.

(** One pass is defined on a panel whose width, windows and items are
    such that the cursor cannot leave the range of an [int]. *)
Lemma render_to_cairo_defined (w : world) :
  Forall (label_bounded B) (toplevels (w_panel w)) ->
  BUTTON_PADDING + (BUTTON_MAX_WIDTH + BUTTON_PADDING) *
    Z.of_nat (List.length (toplevels (w_panel w))) <= A ->
  B + 2 * BUTTON_PADDING <= A ->
  0 <= panel_width (w_panel w) <= A ->
  A <= INT_MAX ->
  (forall items,
      panel_items (panel_conf (w_panel w)) = Some items ->
      A * Z.of_nat (String.length items) <= INT_MAX) ->
  exists w', render_to_cairo w = Some (tt, w').
Proof.
  intros HL HA1 HA2 HW HAm Hb. unfold render_to_cairo. fwd.
  destruct (panel_items (panel_conf (w_panel w))) as [items|].
  - unfold render_items. rewrite !bind_assoc.
    match goal with
    | |- context [bind (compute_spacer_width items) _ ?v] =>
        destruct (compute_spacer_width_defined items v)
          as (sw & w1 & Hc & Hsw)
    end; try assumption; [apply Hb; reflexivity |].
    rewrite (bind_Some _ _ _ _ _ Hc).
    apply compute_spacer_width_inv in Hc. destruct Hc as (_ & Hp & _).
    destruct (layout_loop_defined sw items 0 w1) as (x' & w2 & Hl);
      try assumption; try lia;
      [rewrite Hp; exact HL | rewrite Hp; exact HA1
      | rewrite Z.add_0_l; apply Hb; reflexivity |].
    rewrite (bind_Some _ _ _ _ _ Hl). unfold draw_separator. fwd.
    eexists. reflexivity.
  - unfold draw_separator. fwd. eexists. reflexivity.
Qed.

End Bounded.

(** C5. When the allocation of widgets succeeds, one taskbar appends one
    button for every window, in the order of the registry: the button of a
    window refers to it and is as wide as its label plus twice the padding,
    at most [BUTTON_MAX_WIDTH]; the first button starts one padding after
    the cursor, and each next one starts one padding after the right edge
    of the one before.  The taskbar is laid out whenever the widths of the
    labels are bounded and the last button ends within the range of an
    [int]. *)
Theorem render_taskbar_buttons (start_x : Z) (w : world) :
  (forall k, alloc_ok k = true) ->
  (forall d w',
      render_taskbar start_x w = Some (d, w') ->
      exists bs,
        widgets (w_panel w') = widgets (w_panel w) ++ bs /\
        List.length bs = List.length (toplevels (w_panel w)) /\
        (forall i t,
            nth_error (toplevels (w_panel w)) i = Some t ->
            exists b,
              nth_error bs i = Some b /\
              widget_toplevel b = Some (handle t) /\
              widget_width b =
                Z.min (fst (text_size (toplevel_label t)) + 2 * BUTTON_PADDING)
                  BUTTON_MAX_WIDTH) /\
        (forall b, nth_error bs 0 = Some b ->
                   widget_x b = start_x + BUTTON_PADDING) /\
        (forall i b1 b2,
            nth_error bs i = Some b1 -> nth_error bs (S i) = Some b2 ->
            widget_x b2 = widget_x b1 + widget_width b1 + BUTTON_PADDING)) /\
  (forall B,
      Forall (label_bounded B) (toplevels (w_panel w)) ->
      B + 2 * BUTTON_PADDING <= INT_MAX ->
      0 <= start_x ->
      start_x + BUTTON_PADDING +
      (BUTTON_MAX_WIDTH + BUTTON_PADDING) *
      Z.of_nat (List.length (toplevels (w_panel w))) <= INT_MAX ->
      exists d w', render_taskbar start_x w = Some (d, w')).
Proof.
  intros Ha. split.
  - intros d w' H. apply render_taskbar_lays in H.
    destruct H as (_ & _ & ops & (P & _) & _).
    rewrite allocated_all in P by exact Ha.
    exists (taskbar_buttons (start_x + BUTTON_PADDING) (toplevels (w_panel w))).
    split; [rewrite P; reflexivity|].
    split; [apply taskbar_buttons_length|].
    split; [intros i t Hi; apply taskbar_buttons_nth; exact Hi|].
    split.
    + intros b Hb. destruct (toplevels (w_panel w)); [discriminate|].
      simpl in Hb. injection Hb as <-. reflexivity.
    + apply taskbar_buttons_gap.
  - intros B HB HBs H0 Hb.
    destruct (render_taskbar_defined B HBs start_x w HB H0 Hb) as (w' & H).
    eexists. exists w'. exact H.
Qed.

(** ** Further properties of the layout *)

Lemma fixed_width_loop_sum items : forall acc (w w' : world) f,
  fixed_width_loop items acc w = Some (f, w') ->
  f = acc + natural_sum (toplevels (w_panel w)) items (w_time_calls w) /\
  w_time_calls w' = (w_time_calls w + count_code "C" items)%nat.
Proof.
  induction items as [|c items IH]; intros acc w w' f H;
    cbn [fixed_width_loop natural_sum count_code] in *.
  - minv. split; lia.
  - apply bind_inv in H. destruct H as (f1 & w1 & Hstep & H).
    apply IH in H. destruct H as (Hf & Hk).
    destruct (Ascii.eqb c "T") eqn:ET; [|destruct (Ascii.eqb c "C") eqn:EC].
    + assert (c = "T"%char) by (apply Ascii.eqb_eq; exact ET). subst c.
      cbn [Ascii.eqb Bool.eqb andb].
      apply bind_inv in Hstep. destruct Hstep as (n & w2 & E & Ha).
      apply int_add_inv in Ha. destruct Ha as (-> & <- & _).
      apply taskbar_natural_width_inv in E. destruct E as (-> & ->).
      split; [lia | rewrite Hk; lia].
    + apply bind_inv in Hstep. destruct Hstep as (n & w2 & E & Ha).
      apply int_add_inv in Ha. destruct Ha as (-> & <- & _).
      apply clock_natural_width_inv in E. destruct E as (-> & ->).
      cbn [w_panel w_time_calls] in *. split; [lia | rewrite Hk; lia].
    + unfold ret in Hstep. injection Hstep as <- <-. split; [lia | exact Hk].
Qed.

Lemma compute_spacer_width_spec items (w w' : world) sw :
  compute_spacer_width items w = Some (sw, w') ->
  sw = spacer_of (toplevels (w_panel w)) items (w_time_calls w)
         (panel_width (w_panel w)) /\
  w_time_calls w' = layout_start items (w_time_calls w).
Proof.
  unfold compute_spacer_width, spacer_of, layout_start.
  destruct (strchr items "S").
  - intros H. apply bind_inv in H. destruct H as (f & w1 & Hf & H).
    pose proof Hf as Hf'. apply fixed_width_loop_natural in Hf'.
    destruct Hf' as (_ & _ & _ & Hp).
    apply fixed_width_loop_sum in Hf. destruct Hf as (-> & Hk).
    apply bind_inv in H. destruct H as (p & w2 & E & H).
    unfold get_panel in E. injection E as <- <-.
    apply bind_inv in H. destruct H as (s0 & w3 & E & H).
    apply int_sub_inv in E. destruct E as (-> & -> & _).
    unfold ret in H. injection H as <- <-.
    rewrite clamp_is_max, Hp. split; [f_equal; lia | exact Hk].
  - intros H. unfold ret in H. injection H as <- <-. split; reflexivity.
Qed.

(** What a pass leaves in the widget list, in closed form. *)
Lemma render_to_cairo_widgets (w w' : world) u :
  render_to_cairo w = Some (u, w') ->
  w_panel w' =
    set_widgets (w_panel w)
      (allocated (w_allocs w) (pass_widgets (w_panel w) (w_time_calls w))).
Proof.
  unfold render_to_cairo, widgets_free, draw_separator. intros H.
  apply bind_inv in H. destruct H as (u1 & w1 & E1 & H).
  apply bind_inv in H. destruct H as (p & w2 & E2 & H).
  apply bind_inv in H. destruct H as (u3 & w3 & E3 & H).
  apply bind_inv in H. destruct H as (u4 & w4 & E4 & H).
  apply bind_inv in H. destruct H as (u5 & w5 & E5 & H).
  apply bind_inv in H. destruct H as (u6 & w6 & E6 & H).
  minv. prim_inv. unfold pass_widgets.
  destruct (panel_items (panel_conf (w_panel w))) as [items|] eqn:Hi.
  - apply bind_inv in E6. destruct E6 as (xe & w7 & E6 & Hr).
    unfold ret in Hr. injection Hr as _ <-.
    unfold render_items in E6.
    apply bind_inv in E6. destruct E6 as (sw & w8 & Hc & Hl).
    pose proof Hc as Hc'. apply compute_spacer_width_spec in Hc'.
    destruct Hc' as (-> & Hk).
    apply compute_spacer_width_inv in Hc.
    destruct Hc as (_ & P & _ & A & _). wnorm.
    apply layout_loop_lays in Hl. destruct Hl as (_ & ops & dk & (P' & _)).
    rewrite P', P, A, Hk. reflexivity.
  - unfold ret in E6. injection E6 as _ <-. wnorm. reflexivity.
Qed.

Lemma natural_sum_shift tls items : forall j1 j2,
  (forall i, (i < count_code "C" items)%nat ->
             clock_width (j1 + i) = clock_width (j2 + i)) ->
  natural_sum tls items j1 = natural_sum tls items j2.
Proof.
  induction items as [|c items IH]; intros j1 j2 H;
    cbn [natural_sum count_code] in *; [reflexivity|].
  destruct (Ascii.eqb c "T") eqn:ET; [|destruct (Ascii.eqb c "C") eqn:EC].
  - assert (c = "T"%char) by (apply Ascii.eqb_eq; exact ET). subst c.
    cbn [Ascii.eqb Bool.eqb andb] in H. f_equal. apply IH. exact H.
  - assert (c = "C"%char) by (apply Ascii.eqb_eq; exact EC). subst c.
    try rewrite Ascii.eqb_refl in H.
    pose proof (H 0%nat ltac:(lia)) as H0. rewrite !Nat.add_0_r in H0.
    rewrite H0. f_equal. apply IH. intros i Hi.
    specialize (H (S i) ltac:(lia)).
    replace (S j1 + i)%nat with (j1 + S i)%nat by lia.
    replace (S j2 + i)%nat with (j2 + S i)%nat by lia. exact H.
  - apply IH. exact H.
Qed.

Lemma layout_widgets_shift tls sw items : forall x j1 j2,
  (forall i, (i < count_code "C" items)%nat ->
             clock_width (j1 + i) = clock_width (j2 + i)) ->
  layout_widgets tls sw items x j1 = layout_widgets tls sw items x j2 /\
  layout_end tls sw items x j1 = layout_end tls sw items x j2.
Proof.
  induction items as [|c items IH]; intros x j1 j2 H;
    cbn [layout_widgets layout_end count_code] in *; [split; reflexivity|].
  destruct (Ascii.eqb c "T") eqn:ET; [|destruct (Ascii.eqb c "C") eqn:EC;
    [|destruct (Ascii.eqb c "S") eqn:ES]].
  - assert (c = "T"%char) by (apply Ascii.eqb_eq; exact ET). subst c.
    cbn [Ascii.eqb Bool.eqb andb] in H.
    destruct (IH (taskbar_end (x + BUTTON_PADDING) tls) j1 j2 H) as (Hw & He).
    rewrite Hw, He. split; reflexivity.
  - assert (c = "C"%char) by (apply Ascii.eqb_eq; exact EC). subst c.
    try rewrite Ascii.eqb_refl in H.
    pose proof (H 0%nat ltac:(lia)) as H0. rewrite !Nat.add_0_r in H0.
    rewrite H0.
    destruct (IH (x + clock_width j2) (S j1) (S j2)) as (Hw & He).
    { intros i Hi. specialize (H (S i) ltac:(lia)).
      replace (S j1 + i)%nat with (j1 + S i)%nat by lia.
      replace (S j2 + i)%nat with (j2 + S i)%nat by lia. exact H. }
    rewrite Hw, He. split; reflexivity.
  - apply IH. exact H.
  - apply IH. exact H.
Qed.

Lemma layout_end_sum tls sw items : forall x j,
  layout_end tls sw items x j =
  x + natural_sum tls items j + Z.of_nat (count_code "S" items) * sw.
Proof.
  induction items as [|c items IH]; intros x j;
    cbn [layout_end natural_sum count_code]; [lia|].
  destruct (Ascii.eqb c "T") eqn:ET; [|destruct (Ascii.eqb c "C") eqn:EC;
    [|destruct (Ascii.eqb c "S") eqn:ES]].
  - assert (c = "T"%char) by (apply Ascii.eqb_eq; exact ET). subst c.
    cbn [Ascii.eqb Bool.eqb andb]. rewrite IH.
    rewrite (taskbar_end_shift (x + BUTTON_PADDING)).
    rewrite (taskbar_end_shift BUTTON_PADDING). lia.
  - assert (c = "C"%char) by (apply Ascii.eqb_eq; exact EC). subst c.
    cbn [Ascii.eqb Bool.eqb andb]. rewrite IH. lia.
  - rewrite IH. lia.
  - rewrite IH. lia.
Qed.

Lemma layout_loop_time sw items : forall x (w w' : world) x',
  layout_loop sw items x w = Some (x', w') ->
  w_time_calls w' = (w_time_calls w + count_code "C" items)%nat.
Proof.
  induction items as [|c items IH]; intros x w w' x' H;
    cbn [layout_loop count_code] in *.
  - minv. lia.
  - apply bind_inv in H. destruct H as (x1 & w1 & Hstep & H).
    apply IH in H. rewrite H. clear H IH.
    destruct (Ascii.eqb c "T") eqn:ET; [|destruct (Ascii.eqb c "C") eqn:EC;
      [|destruct (Ascii.eqb c "S") eqn:ES]].
    + assert (c = "T"%char) by (apply Ascii.eqb_eq; exact ET). subst c.
      cbn [Ascii.eqb Bool.eqb andb].
      apply bind_inv in Hstep. destruct Hstep as (d & w2 & E & Ha).
      apply int_add_inv in Ha. destruct Ha as (_ & <- & _).
      apply render_taskbar_lays in E.
      destruct E as (_ & _ & ops & (_ & _ & _ & _ & Hk & _) & _).
      rewrite Hk. lia.
    + apply bind_inv in Hstep. destruct Hstep as (d & w2 & E & Ha).
      apply int_add_inv in Ha. destruct Ha as (_ & <- & _).
      apply render_clock_lays in E.
      destruct E as (_ & (_ & _ & _ & _ & Hk & _)).
      rewrite Hk. lia.
    + apply int_add_inv in Hstep. destruct Hstep as (_ & -> & _). lia.
    + apply bind_inv in Hstep. destruct Hstep as (u & w2 & E & Ha).
      unfold ret in Ha. injection Ha as _ <-.
      unfold wlr_log in E. injection E as _ <-. cbn. lia.
Qed.

Lemma count_code_strchr c items :
  strchr items c = true <-> (0 < count_code c items)%nat.
Proof.
  induction items as [|d items IH]; cbn [strchr count_code].
  - split; [discriminate | lia].
  - destruct (Ascii.eqb d c); [split; [lia | reflexivity] | exact IH].
Qed.

(** X1. The natural width of an item is what laying it out adds to the
    cursor: for the taskbar at any cursor, and for the clock when its
    label is as wide at both readings of the time.  An empty registry
    gives a taskbar one padding wide. *)
Theorem natural_width_is_advance (w : world) :
  (forall start_x n d (w1 w2 : world),
      taskbar_natural_width w = Some (n, w1) ->
      render_taskbar start_x w = Some (d, w2) ->
      d = n) /\
  (forall start_x n d (v w1 w2 : world),
      clock_natural_width w = Some (n, w1) ->
      render_clock start_x v = Some (d, w2) ->
      fst (text_size (clock_label (w_time_calls v))) =
      fst (text_size (clock_label (w_time_calls w))) ->
      d = n) /\
  (toplevels (w_panel w) = [] ->
   taskbar_natural_width w = Some (BUTTON_PADDING, w)).
Proof.
  split; [|split].
  - intros start_x n d w1 w2 Hn Hr.
    apply taskbar_natural_width_inv in Hn. destruct Hn as (-> & _).
    apply render_taskbar_lays in Hr. destruct Hr as (-> & _).
    rewrite (taskbar_end_shift (start_x + BUTTON_PADDING)).
    rewrite (taskbar_end_shift BUTTON_PADDING). lia.
  - intros start_x n d v w1 w2 Hn Hr Hw.
    apply clock_natural_width_inv in Hn. destruct Hn as (-> & _).
    apply render_clock_lays in Hr. destruct Hr as (-> & _).
    unfold clock_width. rewrite Hw. reflexivity.
  - intros Ht. unfold taskbar_natural_width, bind, get_panel. rewrite Ht.
    reflexivity.
Qed.

(** X2. With exactly one spacer among the items, the layout ends at the
    right edge of the panel when the other items fit, and at the sum of
    their natural widths when they do not: the spacer takes what is left
    and never less than nothing.  (The clock label is taken to be as wide
    when it is drawn as when it was measured.) *)
Theorem layout_ends_at_panel_width (items : string) (w w' : world) (x_end : Z) :
  count_code "S" items = 1%nat ->
  0 <= panel_width (w_panel w) <= INT_MAX ->
  (forall i, (i < count_code "C" items)%nat ->
             clock_width (w_time_calls w + count_code "C" items + i) =
             clock_width (w_time_calls w + i)) ->
  render_items items w = Some (x_end, w') ->
  x_end =
  Z.max (panel_width (w_panel w))
    (natural_sum (toplevels (w_panel w)) items (w_time_calls w)).
Proof.
  intros HS HW Hck H. unfold render_items in H.
  apply bind_inv in H. destruct H as (sw & w1 & Hc & Hl).
  pose proof Hc as Hc'. apply compute_spacer_width_spec in Hc'.
  destruct Hc' as (-> & Hk).
  apply compute_spacer_width_inv in Hc. destruct Hc as (_ & P & _).
  apply layout_loop_lays in Hl. destruct Hl as (-> & _).
  rewrite P, Hk, layout_end_sum, HS.
  assert (Hs : strchr items "S" = true)
    by (apply count_code_strchr; rewrite HS; lia).
  unfold spacer_of, layout_start. rewrite Hs.
  rewrite int_of_u32_small by exact HW.
  rewrite (natural_sum_shift _ items
             (w_time_calls w + count_code "C" items) (w_time_calls w) Hck).
  lia.
Qed.

(** X3. A second pass on an unchanged panel leaves the same widget list
    as the first, when the allocations succeed and the clock label keeps
    its width over the readings of the two passes. *)
Theorem render_to_cairo_idempotent (w w1 w2 : world) (u u' : unit) :
  (forall k, alloc_ok k = true) ->
  (forall items i,
      panel_items (panel_conf (w_panel w)) = Some items ->
      (i < 4 * count_code "C" items)%nat ->
      clock_width (w_time_calls w + i) = clock_width (w_time_calls w)) ->
  render_to_cairo w = Some (u, w1) ->
  render_to_cairo w1 = Some (u', w2) ->
  widgets (w_panel w2) = widgets (w_panel w1).
Proof.
  intros Ha Hck H1 H2.
  pose proof (render_to_cairo_widgets _ _ _ H1) as P1.
  pose proof (render_to_cairo_widgets _ _ _ H2) as P2.
  rewrite P2, P1. cbn [widgets set_widgets].
  rewrite !allocated_all by exact Ha.
  unfold pass_widgets. cbn [panel_conf toplevels panel_width set_widgets].
  destruct (panel_items (panel_conf (w_panel w))) as [items|] eqn:Hi;
    [|reflexivity].
  assert (Hk1 : exists d, (d <= 2 * count_code "C" items)%nat /\
                          w_time_calls w1 = (w_time_calls w + d)%nat).
  { revert H1. unfold render_to_cairo, widgets_free, draw_separator. intros H.
    apply bind_inv in H. destruct H as (a1 & v1 & E1 & H).
    apply bind_inv in H. destruct H as (p & v2 & E2 & H).
    apply bind_inv in H. destruct H as (a3 & v3 & E3 & H).
    apply bind_inv in H. destruct H as (a4 & v4 & E4 & H).
    apply bind_inv in H. destruct H as (a5 & v5 & E5 & H).
    apply bind_inv in H. destruct H as (a6 & v6 & E6 & H).
    minv. prim_inv. rewrite Hi in E6.
    apply bind_inv in E6. destruct E6 as (xe & v7 & E6 & Hr).
    unfold ret in Hr. injection Hr as _ <-.
    unfold render_items in E6.
    apply bind_inv in E6. destruct E6 as (sw & v8 & Hc & Hl).
    apply compute_spacer_width_spec in Hc. destruct Hc as (_ & Hk).
    apply layout_loop_time in Hl. wnorm. rewrite Hl, Hk.
    unfold layout_start. destruct (strchr items "S").
    - exists (count_code "C" items + count_code "C" items)%nat. split; lia.
    - exists (count_code "C" items). split; lia. }
  destruct Hk1 as (d & Hd & Hk1). rewrite Hk1.
  assert (Hc : forall i, (i < 4 * count_code "C" items)%nat ->
                         clock_width (w_time_calls w + i) =
                         clock_width (w_time_calls w))
    by (intros i Hi'; apply (Hck items i eq_refl Hi')).
  assert (Hns : natural_sum (toplevels (w_panel w)) items (w_time_calls w + d) =
                natural_sum (toplevels (w_panel w)) items (w_time_calls w)).
  { apply natural_sum_shift. intros i Hi'.
    rewrite <- Nat.add_assoc. rewrite !Hc by lia. reflexivity. }
  unfold spacer_of. rewrite Hns.
  apply layout_widgets_shift. intros i Hi'.
  unfold layout_start. destruct (strchr items "S");
    rewrite <- ?Nat.add_assoc; rewrite !Hc by lia; reflexivity.
Qed.

(** ** Hit-testing against the widgets of a pass *)

Lemma button_scan_chain (ws : list widget) : forall lo (a : widget) (x : Z)
    (s : seat) (w : world),
  chain lo ws -> Forall fits ws -> In a ws -> in_widget a x ->
  alive (w_panel w) a ->
  button_scan ws x s w =
  Some (tt, match widget_toplevel a with
            | Some h => sent w (Activate h (wl_seat s))
            | None => w
            end).
Proof.
  induction ws as [|b ws IH]; intros lo a x s w Hc Hf Hin Hx Hal;
    [destruct Hin|].
  destruct Hc as (Hlo & Hw & Hc). inversion Hf as [|? ? Hfb Hfr]; subst.
  rewrite button_scan_step by exact Hfb.
  destruct (in_widgetb b x) eqn:Eb.
  - apply in_widgetb_iff in Eb. destruct Hin as [->|Hin].
    + destruct (widget_toplevel a) as [h|] eqn:Et; [|reflexivity].
      destruct (alive_deref _ _ _ Hal Et) as (t & Ef & Eh).
      rewrite Ef, Eh. reflexivity.
    + apply chain_lower in Hc. rewrite Forall_forall in Hc.
      specialize (Hc a Hin). unfold in_widget in *. lia.
  - destruct Hin as [->|Hin].
    + apply in_widgetb_iff in Hx. congruence.
    + apply (IH _ a x s w Hc Hfr Hin Hx Hal).
Qed.

(** X4. A press inside a widget of the last pass reaches that widget,
    wherever it is in the list: its window is activated when it has one and
    nothing is requested when it has none.  The intervals of a pass do not
    overlap, so the first match of the scan is the only one.  The entry of
    the widget is taken to be alive still: its window has not been closed
    since the pass. *)
Theorem press_reaches_widget (w0 w v : world) (u : unit) (s : seat)
    (a : widget) :
  (forall l, 0 <= fst (text_size l)) ->
  render_to_cairo w0 = Some (u, w) ->
  widgets (w_panel v) = widgets (w_panel w) ->
  In a (widgets (w_panel w)) ->
  in_widget a (ptr_x (seat_pointer s)) ->
  alive (w_panel v) a ->
  wl_pointer_button s BUTTON_STATE_PRESSED v =
  Some (tt, match widget_toplevel a with
            | Some h => sent v (Activate h (wl_seat s))
            | None => v
            end).
Proof.
  intros Hnn Hr Hv Hin Hx Hal.
  pose proof (render_to_cairo_fits Hnn _ _ _ Hr) as Hf.
  assert (Hc : chain 0 (widgets (w_panel w))).
  { apply render_to_cairo_inv in Hr.
    destruct Hr as (sw & k & ops & Hsw & P & _). rewrite P.
    cbn [widgets set_widgets]. apply chain_allocated.
    destruct (panel_items (panel_conf (w_panel w0))); [|exact I].
    apply chain_layout; [exact Hnn | exact Hsw | lia]. }
  unfold wl_pointer_button. rewrite Z.eqb_refl. cbn [negb].
  unfold bind, get_panel. rewrite Hv.
  apply (button_scan_chain _ 0 a _ s v Hc Hf Hin Hx Hal).
Qed.

Lemma allocated_In k ws a : In a (allocated k ws) -> In a ws.
Proof.
  revert k. induction ws as [|b ws IH]; intros k H; cbn [allocated] in H.
  - exact H.
  - destruct (alloc_ok k).
    + destruct H as [->|H]; [left; reflexivity | right; apply (IH _ H)].
    + right. apply (IH _ H).
Qed.

Lemma taskbar_buttons_targets tls : forall x,
  map widget_toplevel (taskbar_buttons x tls) =
  map (fun t => Some (handle t)) tls.
Proof.
  induction tls as [|t tls IH]; intros x; cbn [taskbar_buttons map].
  - reflexivity.
  - rewrite IH. reflexivity.
Qed.

Lemma layout_widgets_targets tls sw items : forall x k a h,
  In a (layout_widgets tls sw items x k) ->
  widget_toplevel a = Some h ->
  In h (map handle tls).
Proof.
  induction items as [|c items IH]; intros x k a h Hin Ht;
    cbn [layout_widgets] in Hin; [destruct Hin|].
  destruct (Ascii.eqb c "T"); [|destruct (Ascii.eqb c "C");
    [|destruct (Ascii.eqb c "S")]].
  - apply in_app_or in Hin. destruct Hin as [Hin|Hin].
    + assert (Hm : In (Some h) (map widget_toplevel
                                  (taskbar_buttons (x + BUTTON_PADDING) tls)))
        by (rewrite <- Ht; apply in_map; exact Hin).
      rewrite taskbar_buttons_targets in Hm.
      apply in_map_iff in Hm. destruct Hm as (t & E & Hin').
      injection E as <-. apply in_map. exact Hin'.
    + apply (IH _ _ _ _ Hin Ht).
  - destruct Hin as [<-|Hin]; [discriminate Ht | apply (IH _ _ _ _ Hin Ht)].
  - apply (IH _ _ _ _ Hin Ht).
  - apply (IH _ _ _ _ Hin Ht).
Qed.

Lemma layout_widgets_covers tls sw items : forall x k t,
  strchr items "T" = true -> In t tls ->
  exists a, In a (layout_widgets tls sw items x k) /\
            widget_toplevel a = Some (handle t).
Proof.
  induction items as [|c items IH]; intros x k t Hs Hin;
    cbn [layout_widgets strchr] in *; [discriminate|].
  destruct (Ascii.eqb c "T") eqn:ET.
  - assert (Hm : In (Some (handle t))
                   (map widget_toplevel
                      (taskbar_buttons (x + BUTTON_PADDING) tls)))
      by (rewrite taskbar_buttons_targets;
          apply (in_map (fun t => Some (handle t))); exact Hin).
    apply in_map_iff in Hm. destruct Hm as (a & E & Ha).
    exists a. split; [apply in_or_app; left; exact Ha | exact E].
  - destruct (Ascii.eqb c "C"); [|destruct (Ascii.eqb c "S")].
    + destruct (IH (x + clock_width k) (S k) t Hs Hin) as (a & Ha & E).
      exists a. split; [right; exact Ha | exact E].
    + apply (IH _ _ _ Hs Hin).
    + apply (IH _ _ _ Hs Hin).
Qed.

(** X5. After a pass every widget that refers to a window refers to a
    window of the registry; and when the items contain a taskbar and the
    allocations succeed, every window of the registry has a widget. *)
Theorem widgets_match_registry (w w' : world) (u : unit) :
  render_to_cairo w = Some (u, w') ->
  (forall a h,
      In a (widgets (w_panel w')) -> widget_toplevel a = Some h ->
      In h (map handle (toplevels (w_panel w)))) /\
  ((forall k, alloc_ok k = true) ->
   forall items t,
     panel_items (panel_conf (w_panel w)) = Some items ->
     In "T"%char (list_ascii_of_string items) ->
     In t (toplevels (w_panel w)) ->
     exists a, In a (widgets (w_panel w')) /\
               widget_toplevel a = Some (handle t)).
Proof.
  intros H. apply render_to_cairo_widgets in H. rewrite H.
  cbn [widgets set_widgets]. unfold pass_widgets. split.
  - intros a h Hin Ht. apply allocated_In in Hin.
    destruct (panel_items (panel_conf (w_panel w))); [|destruct Hin].
    apply (layout_widgets_targets _ _ _ _ _ _ _ Hin Ht).
  - intros Ha items t Hi HT Hin. rewrite allocated_all by exact Ha.
    rewrite Hi. apply layout_widgets_covers; [|exact Hin].
    apply strchr_In. exact HT.
Qed.

(** ** Frames *)

Lemma render_to_cairo_frame (w w' : world) u :
  render_to_cairo w = Some (u, w') ->
  buffers (w_panel w') = buffers (w_panel w) /\
  panel_scale (w_panel w') = panel_scale (w_panel w) /\
  panel_width (w_panel w') = panel_width (w_panel w) /\
  panel_height (w_panel w') = panel_height (w_panel w) /\
  toplevels (w_panel w') = toplevels (w_panel w) /\
  seats (w_panel w') = seats (w_panel w) /\
  run_display (w_panel w') = run_display (w_panel w).
Proof.
  intros H. apply render_to_cairo_widgets in H. rewrite H.
  repeat split; reflexivity.
Qed.

(** A frame that is not skipped: the recording, the pass, the buffer and
    the commit. *)
Lemma render_frame_inv (w w' : world) u :
  run_display (w_panel w) = true ->
  panel_width (w_panel w) <> 0 ->
  panel_height (w_panel w) <> 0 ->
  render_frame w = Some (u, w') ->
  exists w1,
    render_to_cairo
      (mkWorld (w_panel w)
         [Scale (panel_scale (w_panel w)) (panel_scale (w_panel w));
          Save; SetOperatorClear; Paint; Restore]
         (w_log w) (w_commits w) (w_requests w) (w_time_calls w)
         (w_allocs w)) = Some (tt, w1) /\
    w' =
    mkWorld
      (set_buffer (w_panel w1)
         (fst (get_next_buffer (buffers (w_panel w))
                 (u32 (panel_width (w_panel w) * panel_scale (w_panel w)))
                 (u32 (panel_height (w_panel w) * panel_scale (w_panel w)))))
         (snd (get_next_buffer (buffers (w_panel w))
                 (u32 (panel_width (w_panel w) * panel_scale (w_panel w)))
                 (u32 (panel_height (w_panel w) * panel_scale (w_panel w))))))
      (w_cairo w1) (w_log w1)
      (w_commits w ++
       match fst (get_next_buffer (buffers (w_panel w))
                 (u32 (panel_width (w_panel w) * panel_scale (w_panel w)))
                 (u32 (panel_height (w_panel w) * panel_scale (w_panel w))))
       with
       | Some b =>
           [mkCommit b (panel_scale (w_panel w)) (w_cairo w1)
              (int_of_u32 (panel_width (w_panel w)),
               int_of_u32 (panel_height (w_panel w)))]
       | None => []
       end)
      (w_requests w) (w_time_calls w1) (w_allocs w1).
Proof.
  intros Hr Hw Hh H.
  assert (Hg : negb (run_display (w_panel w))
               || (panel_width (w_panel w) =? 0)
               || (panel_height (w_panel w) =? 0) = false).
  { rewrite Hr. apply Z.eqb_neq in Hw, Hh. rewrite Hw, Hh. reflexivity. }
  unfold render_frame in H.
  rewrite (bind_Some get_panel _ w w (w_panel w) eq_refl) in H.
  rewrite Hg in H.
  rewrite (bind_Some new_recorder _ _ _ tt eq_refl) in H.
  rewrite !(bind_Some (draw _) _ _ _ tt eq_refl) in H.
  wnorm. cbn [app] in H.
  apply bind_inv in H. destruct H as ([] & w1 & Hp & H).
  exists w1. split; [exact Hp|].
  pose proof (render_to_cairo_inv _ _ _ Hp) as Hi.
  destruct Hi as (_ & _ & _ & _ & _ & _ & Hcm & Hrq).
  cbn [w_commits w_requests] in Hcm, Hrq.
  pose proof (render_to_cairo_frame _ _ _ Hp) as Hf.
  destruct Hf as (Hb & Hs & Hpw & Hph & _). cbn [w_panel] in Hb, Hs, Hpw, Hph.
  rewrite (bind_Some get_panel _ w1 w1 (w_panel w1) eq_refl) in H.
  rewrite Hb, Hs, Hpw, Hph in H.
  rewrite (bind_Some (modify_panel _) _ _ _ tt eq_refl) in H.
  destruct (fst (get_next_buffer (buffers (w_panel w))
              (u32 (panel_width (w_panel w) * panel_scale (w_panel w)))
              (u32 (panel_height (w_panel w) * panel_scale (w_panel w)))))
    as [b|].
  - unfold surface_commit in H.
    cbn [w_panel w_cairo w_log w_commits w_requests w_time_calls w_allocs
         panel_scale panel_width panel_height set_buffer] in H.
    rewrite Hs, Hpw, Hph, Hcm, Hrq in H.
    symmetry. congruence.
  - unfold ret in H. rewrite Hcm, Hrq in H. rewrite app_nil_r.
    symmetry. congruence.
Qed.

(** X6. A frame of a running panel with a size replaces the widget list
    by that of its pass and asks the pool for a buffer of the scaled size.
    When the pool has none the frame is dropped: nothing is committed,
    though the widget list is already replaced.  Otherwise exactly one
    commit is added, of that buffer, with the scale of the panel, the
    recording of the frame and, as damage, the width and the height of
    the panel as [wl_surface_damage] receives them, converted from
    [uint32_t] to [int32_t]: the whole panel when they are below 2^31. *)
Theorem render_frame_commits (w w' : world) (u : unit) :
  run_display (w_panel w) = true ->
  panel_width (w_panel w) <> 0 ->
  panel_height (w_panel w) <> 0 ->
  render_frame w = Some (u, w') ->
  widgets (w_panel w') =
    allocated (w_allocs w) (pass_widgets (w_panel w) (w_time_calls w)) /\
  current_buffer (w_panel w') =
    fst (get_next_buffer (buffers (w_panel w))
           (u32 (panel_width (w_panel w) * panel_scale (w_panel w)))
           (u32 (panel_height (w_panel w) * panel_scale (w_panel w)))) /\
  (current_buffer (w_panel w') = None -> w_commits w' = w_commits w) /\
  (forall b,
      current_buffer (w_panel w') = Some b ->
      w_commits w' =
      w_commits w ++
      [mkCommit b (panel_scale (w_panel w)) (w_cairo w')
         (int_of_u32 (panel_width (w_panel w)),
          int_of_u32 (panel_height (w_panel w)))]) /\
  w_requests w' = w_requests w.
Proof.
  intros Hr Hw Hh H.
  destruct (render_frame_inv _ _ _ Hr Hw Hh H) as (w1 & Hp & ->).
  apply render_to_cairo_widgets in Hp. cbn [w_panel w_allocs w_time_calls] in Hp.
  cbn [w_panel w_commits w_requests w_cairo widgets current_buffer set_buffer].
  rewrite Hp. cbn [widgets set_widgets].
  split; [reflexivity|]. split; [reflexivity|]. split; [|split].
  - intros E. rewrite E. apply app_nil_r.
  - intros b E. rewrite E. reflexivity.
  - reflexivity.
Qed.

(** ** The registry of windows *)

Lemma pass_targets (w w' : world) u a h :
  render_to_cairo w = Some (u, w') ->
  In a (widgets (w_panel w')) -> widget_toplevel a = Some h ->
  In h (map handle (toplevels (w_panel w))).
Proof.
  intros H Hin Ht. apply render_to_cairo_widgets in H. rewrite H in Hin.
  cbn [widgets set_widgets] in Hin. unfold pass_widgets in Hin.
  apply allocated_In in Hin.
  destruct (panel_items (panel_conf (w_panel w))); [|destruct Hin].
  apply (layout_widgets_targets _ _ _ _ _ _ _ Hin Ht).
Qed.

Lemma remove_toplevel_filter h ts :
  NoDup (map handle ts) ->
  remove_toplevel h ts =
  filter (fun t => negb (Nat.eqb (handle t) h)) ts.
Proof.
  induction ts as [|u ts IH]; intros Hn; cbn [remove_toplevel filter].
  - reflexivity.
  - cbn [map] in Hn. apply NoDup_cons_iff in Hn. destruct Hn as (Hu & Hn).
    destruct (Nat.eqb (handle u) h) eqn:E; cbn [negb].
    + apply Nat.eqb_eq in E. subst h. clear IH.
      induction ts as [|v ts IH]; [reflexivity|].
      cbn [filter]. destruct (Nat.eqb (handle v) (handle u)) eqn:E'.
      * apply Nat.eqb_eq in E'. exfalso. apply Hu. left. exact E'.
      * cbn [negb]. f_equal. apply IH.
        -- intros H. apply Hu. right. exact H.
        -- cbn [map] in Hn. apply NoDup_cons_iff in Hn. tauto.
    + f_equal. apply IH. exact Hn.
Qed.

(** X7. When a window that the registry holds is closed, its entry leaves
    the registry and the others stay as they are and in order.  A panel
    that is running and has a size is drawn again at once, and no widget
    refers to the closed window any more; a panel that is not skips the
    frame and keeps the widget list it had, the widget of the closed
    window included. *)
Theorem closed_window_forgotten (w w' : world) (u : unit) (h : nat) :
  NoDup (map handle (toplevels (w_panel w))) ->
  In h (map handle (toplevels (w_panel w))) ->
  dispatch (EvClosed h) w = Some (u, w') ->
  toplevels (w_panel w') =
    filter (fun t => negb (Nat.eqb (handle t) h)) (toplevels (w_panel w)) /\
  (run_display (w_panel w) = true ->
   panel_width (w_panel w) <> 0 -> panel_height (w_panel w) <> 0 ->
   forall a, In a (widgets (w_panel w')) -> widget_toplevel a <> Some h) /\
  (run_display (w_panel w) = false \/
   panel_width (w_panel w) = 0 \/ panel_height (w_panel w) = 0 ->
   widgets (w_panel w') = widgets (w_panel w)).
Proof.
  intros Hn Hin H. unfold dispatch in H.
  rewrite (bind_Some get_panel _ w w (w_panel w) eq_refl) in H.
  destruct (find_toplevel_In _ _ Hin) as (t & Ef). rewrite Ef in H.
  unfold handle_toplevel_closed, toplevel_destroy in H.
  rewrite (bind_Some (modify_panel _) _ _ _ tt eq_refl) in H.
  rewrite (remove_toplevel_filter _ _ Hn) in H.
  set (w0 := mkWorld _ _ _ _ _ _ _) in H.
  assert (Hnot : ~ In h (map handle (toplevels (w_panel w0)))).
  { cbn [w0 w_panel toplevels set_toplevels]. intros Hc.
    apply in_map_iff in Hc. destruct Hc as (t' & E & Hc).
    apply filter_In in Hc. destruct Hc as (_ & Hc).
    rewrite E, Nat.eqb_refl in Hc. discriminate. }
  destruct (run_display (w_panel w)) eqn:Hr;
    [destruct (Z.eq_dec (panel_width (w_panel w)) 0) as [Hw|Hw];
     [|destruct (Z.eq_dec (panel_height (w_panel w)) 0) as [Hh|Hh]]|].
  4: { rewrite render_frame_skip in H by (left; exact Hr).
       injection H as <- <-. cbn [w0 w_panel toplevels widgets set_toplevels].
       split; [reflexivity|]. split; [discriminate | reflexivity]. }
  2: { rewrite render_frame_skip in H by (right; right; exact Hh).
       injection H as <- <-. cbn [w0 w_panel toplevels widgets set_toplevels].
       split; [reflexivity|]. split; [intros _ _ Hc; contradiction|reflexivity]. }
  1: { rewrite render_frame_skip in H by (right; left; exact Hw).
       injection H as <- <-. cbn [w0 w_panel toplevels widgets set_toplevels].
       split; [reflexivity|]. split; [intros _ Hc; contradiction|reflexivity]. }
  apply render_frame_inv in H; [|exact Hr|exact Hw|exact Hh].
  destruct H as (w1 & Hp & ->).
  cbn [w_panel toplevels widgets set_buffer].
  split; [|split].
  - apply render_to_cairo_frame in Hp.
    destruct Hp as (_ & _ & _ & _ & Ht & _). rewrite Ht. reflexivity.
  - intros _ _ _ a Ha Et. apply Hnot.
    apply (pass_targets _ _ _ _ _ Hp Ha Et).
  - intros [Hc|[Hc|Hc]]; [discriminate | contradiction | contradiction].
Qed.

Lemma store_toplevel_handles t ts :
  map handle (store_toplevel t ts) = map handle ts.
Proof.
  induction ts as [|u ts IH]; cbn [store_toplevel map]; [reflexivity|].
  destruct (Nat.eqb (handle u) (handle t)) eqn:E; cbn [map].
  - apply Nat.eqb_eq in E. rewrite E. reflexivity.
  - rewrite IH. reflexivity.
Qed.

Lemma find_store_toplevel t ts :
  In (handle t) (map handle ts) ->
  find_toplevel (handle t) (store_toplevel t ts) = Some t.
Proof.
  unfold find_toplevel. induction ts as [|u ts IH]; intros H; [destruct H|].
  cbn [store_toplevel]. destruct (Nat.eqb (handle u) (handle t)) eqn:E.
  - cbn [find]. rewrite Nat.eqb_refl. reflexivity.
  - cbn [find]. rewrite E. apply IH. destruct H as [H|H]; [|exact H].
    cbn in H. rewrite H, Nat.eqb_refl in E. discriminate.
Qed.

Lemma find_store_toplevel_other t ts h :
  h <> handle t ->
  find_toplevel h (store_toplevel t ts) = find_toplevel h ts.
Proof.
  unfold find_toplevel. intros Hne.
  induction ts as [|u ts IH]; [reflexivity|].
  cbn [store_toplevel]. destruct (Nat.eqb (handle u) (handle t)) eqn:E.
  - cbn [find]. apply Nat.eqb_eq in E. rewrite E.
    destruct (Nat.eqb (handle t) h) eqn:E'; [|reflexivity].
    apply Nat.eqb_eq in E'. congruence.
  - cbn [find]. rewrite IH. reflexivity.
Qed.

Lemma with_toplevel_pure (w : world) h t (t' : toplevel) (v : world) f :
  find_toplevel h (toplevels (w_panel w)) = Some t ->
  f t w = Some (t', v) ->
  with_toplevel h f w =
  Some (tt, mkWorld (set_toplevels (w_panel v)
                       (store_toplevel t' (toplevels (w_panel v))))
              (w_cairo v) (w_log v) (w_commits v) (w_requests v)
              (w_time_calls v) (w_allocs v)).
Proof.
  intros Ef Hf. unfold with_toplevel.
  rewrite (bind_Some get_panel _ w w (w_panel w) eq_refl), Ef.
  rewrite (bind_Some (f t) _ w v t' Hf). reflexivity.
Qed.

Lemma strdup_entry (w : world) (s : string) (g : option string -> toplevel) :
  bind (strdup s)
    (fun d => bind match d with
                   | Some _ => ret tt
                   | None => wlr_log (LogPerror "strdup")
                   end (fun _ => ret (g d))) w =
  Some (g (if alloc_ok (w_allocs w) then Some s else None),
        mkWorld (w_panel w) (w_cairo w)
          (w_log w ++ if alloc_ok (w_allocs w) then []
                      else [LogPerror "strdup"])
          (w_commits w) (w_requests w) (w_time_calls w) (S (w_allocs w))).
Proof.
  unfold strdup, alloc, bind, ret, wlr_log. cbn [w_allocs w_panel w_cairo
    w_log w_commits w_requests w_time_calls].
  destruct (alloc_ok (w_allocs w)); cbn [w_allocs w_panel w_cairo
    w_log w_commits w_requests w_time_calls]; rewrite ?app_nil_r;
    destruct w; reflexivity.
Qed.

(** X8. A title, app-id or state event of a window that the registry
    holds rewrites the entry of that window only: the handles of the
    registry and the entries of the other windows stay, and nothing is
    drawn, committed or requested before the done event.  The title (or
    the app-id) becomes the string sent, or none when its copy cannot be
    allocated; the other fields of the entry stay.  The state event sets
    the active flag to whether the activated state is among the states
    sent. *)
Theorem toplevel_event_updates_entry (w : world) (h : nat) (t : toplevel) :
  find_toplevel h (toplevels (w_panel w)) = Some t ->
  forall e t',
    (exists s,
        e = EvTitle h s /\
        t' = mkToplevel h
               (if alloc_ok (w_allocs w) then Some s else None)
               (app_id t) (active t)) \/
    (exists s,
        e = EvAppId h s /\
        t' = mkToplevel h (title t)
               (if alloc_ok (w_allocs w) then Some s else None)
               (active t)) \/
    (exists state,
        e = EvState h state /\
        t' = mkToplevel h (title t) (app_id t)
               (existsb (fun entry => entry =? STATE_ACTIVATED) state)) ->
    exists w',
      dispatch e w = Some (tt, w') /\
      find_toplevel h (toplevels (w_panel w')) = Some t' /\
      map handle (toplevels (w_panel w')) =
        map handle (toplevels (w_panel w)) /\
      (forall h', h' <> h ->
         find_toplevel h' (toplevels (w_panel w')) =
         find_toplevel h' (toplevels (w_panel w))) /\
      widgets (w_panel w') = widgets (w_panel w) /\
      w_cairo w' = w_cairo w /\ w_commits w' = w_commits w /\
      w_requests w' = w_requests w.
Proof.
  intros Ef e t' He.
  destruct (find_toplevel_handle _ _ _ Ef) as (Eh & Hin).
  rewrite <- Eh in Ef.
  assert (Hh : In h (map handle (toplevels (w_panel w))))
    by (rewrite <- Eh; apply in_map; exact Hin).
  assert (Hstore : forall t0 : toplevel, handle t0 = h ->
            find_toplevel h (store_toplevel t0 (toplevels (w_panel w)))
              = Some t0 /\
            map handle (store_toplevel t0 (toplevels (w_panel w))) =
              map handle (toplevels (w_panel w)) /\
            forall h', h' <> h ->
              find_toplevel h' (store_toplevel t0 (toplevels (w_panel w))) =
              find_toplevel h' (toplevels (w_panel w))).
  { intros t0 E0. split; [|split].
    - rewrite <- E0. apply find_store_toplevel. rewrite E0. exact Hh.
    - apply store_toplevel_handles.
    - intros h' Hne. apply find_store_toplevel_other. congruence. }
  destruct He as [(s & -> & ->)|[(s & -> & ->)|(state & -> & ->)]].
  - pose proof (strdup_entry w s
                  (fun d => mkToplevel (handle t) d (app_id t) (active t)))
      as Hs.
    pose proof (with_toplevel_pure w (handle t) t _ _
                  (fun t0 => handle_toplevel_title t0 s) Ef Hs) as Hd.
    rewrite Eh in Hd. eexists. split.
    + unfold dispatch.
      rewrite (bind_Some get_panel _ w w (w_panel w) eq_refl). exact Hd.
    + cbn [w_panel w_cairo w_commits w_requests toplevels widgets
           set_toplevels].
      destruct (Hstore (mkToplevel h
                  (if alloc_ok (w_allocs w) then Some s else None)
                  (app_id t) (active t)) eq_refl) as (H1 & H2 & H3).
      split; [exact H1|]. split; [exact H2|]. split; [exact H3|].
      split; [reflexivity|]. split; [reflexivity|].
      split; reflexivity.
  - pose proof (strdup_entry w s
                  (fun d => mkToplevel (handle t) (title t) d (active t)))
      as Hs.
    pose proof (with_toplevel_pure w (handle t) t _ _
                  (fun t0 => handle_toplevel_app_id t0 s) Ef Hs) as Hd.
    rewrite Eh in Hd. eexists. split.
    + unfold dispatch.
      rewrite (bind_Some get_panel _ w w (w_panel w) eq_refl). exact Hd.
    + cbn [w_panel w_cairo w_commits w_requests toplevels widgets
           set_toplevels].
      destruct (Hstore (mkToplevel h (title t)
                  (if alloc_ok (w_allocs w) then Some s else None)
                  (active t)) eq_refl) as (H1 & H2 & H3).
      split; [exact H1|]. split; [exact H2|]. split; [exact H3|].
      split; [reflexivity|]. split; [reflexivity|].
      split; reflexivity.
  - assert (Est : handle_toplevel_state t state =
                  mkToplevel h (title t) (app_id t)
                    (existsb (fun entry => entry =? STATE_ACTIVATED) state)).
    { unfold handle_toplevel_state. rewrite <- Eh.
      assert (G : forall t0 : toplevel,
                 fold_left
                   (fun t'0 entry =>
                      if entry =? STATE_ACTIVATED then set_active t'0 true
                      else t'0) state t0 =
                 mkToplevel (handle t0) (title t0) (app_id t0)
                   (active t0 ||
                    existsb (fun entry => entry =? STATE_ACTIVATED) state)).
      { induction state as [|z state IH]; intros t0; cbn [fold_left existsb].
        - rewrite orb_false_r. destruct t0; reflexivity.
        - rewrite IH. destruct (z =? STATE_ACTIVATED); cbn [set_active handle
            title app_id active orb]; [|reflexivity].
          rewrite orb_true_r. reflexivity. }
      rewrite G. reflexivity. }
    pose proof (with_toplevel_pure w (handle t) t _ w
                  (fun t0 => ret (handle_toplevel_state t0 state)) Ef eq_refl)
      as Hd.
    rewrite Est, Eh in Hd. eexists. split.
    + unfold dispatch.
      rewrite (bind_Some get_panel _ w w (w_panel w) eq_refl). exact Hd.
    + cbn [w_panel w_cairo w_commits w_requests toplevels widgets
           set_toplevels].
      destruct (Hstore (mkToplevel h (title t) (app_id t)
                  (existsb (fun entry => entry =? STATE_ACTIVATED) state))
                  eq_refl) as (H1 & H2 & H3).
      split; [exact H1|]. split; [exact H2|]. split; [exact H3|].
      split; [reflexivity|]. split; [reflexivity|].
      split; reflexivity.
Qed.

(** ** Pointer and outputs *)

Lemma render_frame_cases (w w' : world) u :
  render_frame w = Some (u, w') ->
  ((run_display (w_panel w) = false \/
    panel_width (w_panel w) = 0 \/ panel_height (w_panel w) = 0) /\
   w' = w) \/
  (run_display (w_panel w) = true /\
   panel_width (w_panel w) <> 0 /\ panel_height (w_panel w) <> 0).
Proof.
  intros H.
  destruct (run_display (w_panel w)) eqn:Hr;
    [destruct (Z.eq_dec (panel_width (w_panel w)) 0) as [Hw|Hw];
     [|destruct (Z.eq_dec (panel_height (w_panel w)) 0) as [Hh|Hh]]|].
  - left. rewrite render_frame_skip in H by tauto.
    injection H as _ <-. tauto.
  - left. rewrite render_frame_skip in H by tauto.
    injection H as _ <-. tauto.
  - right. tauto.
  - left. rewrite render_frame_skip in H by tauto.
    injection H as _ <-. tauto.
Qed.

Lemma int_of_u32_u32 z : INT_MIN <= z <= INT_MAX -> int_of_u32 (u32 z) = z.
Proof.
  unfold int_of_u32, u32, INT_MIN, INT_MAX. intros H.
  rewrite Z.mod_mod by lia.
  destruct (Z_lt_le_dec z 0) as [Hn|Hp].
  - assert (E : z mod 2 ^ 32 = z + 2 ^ 32)
      by (symmetry; apply Z.mod_unique with (q := -1); lia).
    rewrite E. destruct (z + 2 ^ 32 <=? 2 ^ 31 - 1) eqn:L.
    + apply Z.leb_le in L. lia.
    + lia.
  - rewrite Z.mod_small by lia.
    destruct (z <=? 2 ^ 31 - 1) eqn:L; [reflexivity|].
    apply Z.leb_gt in L. lia.
Qed.

Lemma wl_fixed_to_int_floor n r :
  0 <= n -> 0 <= r < 256 -> wl_fixed_to_int (256 * n + r) = n.
Proof.
  intros Hn Hr. unfold wl_fixed_to_int.
  rewrite Z.quot_div_nonneg by lia.
  symmetry. apply Z.div_unique with (r := r); lia.
Qed.

Lemma find_store_seat (a0 a1 : seat) (s : nat) (ss : list seat) :
  find_seat s ss = Some a0 -> wl_seat a1 = s ->
  find_seat s (store_seat a1 ss) = Some a1.
Proof.
  unfold find_seat, store_seat. intros H <-.
  induction ss as [|b ss IH]; [discriminate|].
  cbn [find map] in *. destruct (Nat.eqb (wl_seat b) (wl_seat a1)) eqn:E.
  - rewrite Nat.eqb_refl. reflexivity.
  - rewrite E. apply IH. exact H.
Qed.

Lemma pass_chain_fits (w0 w : world) u :
  (forall l, 0 <= fst (text_size l)) ->
  render_to_cairo w0 = Some (u, w) ->
  chain 0 (widgets (w_panel w)) /\ Forall fits (widgets (w_panel w)).
Proof.
  intros Hnn Hr. split; [|exact (render_to_cairo_fits Hnn _ _ _ Hr)].
  apply render_to_cairo_inv in Hr.
  destruct Hr as (sw & k & ops & Hsw & P & _). rewrite P.
  cbn [widgets set_widgets]. apply chain_allocated.
  destruct (panel_items (panel_conf (w_panel w0))); [|exact I].
  apply chain_layout; [exact Hnn | exact Hsw | lia].
Qed.

(** X9. A pointer of a seat moves to the surface position [(sx, sy)],
    in 24.8 fixed point, and its button is pressed.  The press is looked up
    at the integer part [n] of [sx]: when [n] lies inside a widget of the
    last pass, the window of that widget is asked to be activated on that
    seat, or nothing is asked when the widget has no window; when [n] lies
    in no widget, nothing is asked.  Nothing is drawn or committed.  The
    entries of the widgets are taken to be alive still: no window of the
    last pass has been closed since. *)
Theorem motion_then_press (w0 w v : world) (u : unit) (s : nat) (a0 : seat)
    (sx sy n r : Z) :
  (forall l, 0 <= fst (text_size l)) ->
  render_to_cairo w0 = Some (u, w) ->
  widgets (w_panel v) = widgets (w_panel w) ->
  Forall (alive (w_panel v)) (widgets (w_panel w)) ->
  find_seat s (seats (w_panel v)) = Some a0 ->
  sx = 256 * n + r -> 0 <= n -> 0 <= r < 256 ->
  exists v',
    run [EvPointerMotion s sx sy; EvPointerButton s BUTTON_STATE_PRESSED] v
      = Some (tt, v') /\
    widgets (w_panel v') = widgets (w_panel v) /\
    w_cairo v' = w_cairo v /\ w_commits v' = w_commits v /\
    (forall b,
        In b (widgets (w_panel w)) -> in_widget b n ->
        w_requests v' =
        w_requests v ++
        match widget_toplevel b with
        | Some h => [Activate h s]
        | None => []
        end) /\
    ((forall b, In b (widgets (w_panel w)) -> ~ in_widget b n) ->
     w_requests v' = w_requests v).
Proof.
  intros Hnn Hr Hv Hal Hs -> Hn Hrr.
  destruct (pass_chain_fits _ _ _ Hnn Hr) as (Hc & Hf).
  rewrite Forall_forall in Hal.
  assert (Es : wl_seat a0 = s).
  { unfold find_seat in Hs. apply find_some in Hs.
    destruct Hs as (_ & E). apply Nat.eqb_eq. exact E. }
  set (a1 := wl_pointer_motion a0 (256 * n + r) sy).
  set (v1 := mkWorld (set_seats (w_panel v) (store_seat a1 (seats (w_panel v))))
               (w_cairo v) (w_log v) (w_commits v) (w_requests v)
               (w_time_calls v) (w_allocs v)).
  assert (E1 : dispatch (EvPointerMotion s (256 * n + r) sy) v = Some (tt, v1)).
  { unfold dispatch.
    rewrite (bind_Some get_panel _ v v (w_panel v) eq_refl), Hs.
    reflexivity. }
  assert (Ex : ptr_x (seat_pointer a1) = n).
  { cbn [a1 wl_pointer_motion seat_pointer ptr_x].
    apply wl_fixed_to_int_floor; assumption. }
  assert (E2 : dispatch (EvPointerButton s BUTTON_STATE_PRESSED) v1 =
               button_scan (widgets (w_panel w)) n a1 v1).
  { unfold dispatch.
    rewrite (bind_Some get_panel _ v1 v1 (w_panel v1) eq_refl).
    cbn [v1 w_panel seats set_seats].
    rewrite (find_store_seat a0 a1 s _ Hs) by exact Es.
    unfold wl_pointer_button. rewrite Z.eqb_refl. cbn [negb].
    rewrite (bind_Some get_panel _ _ _ _ eq_refl).
    cbn [v1 w_panel widgets set_seats]. rewrite Hv, Ex. reflexivity. }
  assert (Hrun : forall v',
             button_scan (widgets (w_panel w)) n a1 v1 = Some (tt, v') ->
             run [EvPointerMotion s (256 * n + r) sy;
                  EvPointerButton s BUTTON_STATE_PRESSED] v = Some (tt, v')).
  { intros v' Hb. cbn [run].
    rewrite (bind_Some _ _ v v1 tt E1).
    unfold bind at 1. rewrite E2, Hb. reflexivity. }
  destruct (existsb (fun b => in_widgetb b n) (widgets (w_panel w))) eqn:Eh.
  - apply existsb_exists in Eh. destruct Eh as (b & Hin & Hb).
    apply in_widgetb_iff in Hb.
    pose proof (button_scan_chain _ 0 b n a1 v1 Hc Hf Hin Hb (Hal b Hin))
      as Hsc.
    eexists. split; [apply Hrun; exact Hsc|].
    assert (Huniq : forall b', In b' (widgets (w_panel w)) ->
              in_widget b' n -> widget_toplevel b' = widget_toplevel b).
    { intros b' Hin' Hb'.
      pose proof (button_scan_chain _ 0 b' n a1 v1 Hc Hf Hin' Hb'
                    (Hal b' Hin')) as Hsc'.
      rewrite Hsc in Hsc'. injection Hsc' as E.
      destruct (widget_toplevel b) as [h|], (widget_toplevel b') as [h'|];
        try reflexivity.
      - apply (f_equal w_requests) in E. cbn [sent w_requests] in E.
        apply app_inv_head in E. congruence.
      - apply (f_equal w_requests) in E. cbn [sent w_requests v1] in E.
        rewrite <- (app_nil_r (w_requests v)) in E at 2.
        apply app_inv_head in E. discriminate.
      - apply (f_equal w_requests) in E. cbn [sent w_requests v1] in E.
        rewrite <- (app_nil_r (w_requests v)) in E at 1.
        apply app_inv_head in E. discriminate. }
    destruct (widget_toplevel b) as [h|] eqn:Et.
    + cbn [sent v1 w_panel w_cairo w_commits w_requests widgets set_seats].
      split; [reflexivity|]. split; [reflexivity|]. split; [reflexivity|].
      split.
      * intros b' Hin' Hb'. rewrite (Huniq b' Hin' Hb').
        cbn [a1 wl_pointer_motion wl_seat]. rewrite Es. reflexivity.
      * intros Hno. exfalso. exact (Hno b Hin Hb).
    + cbn [v1 w_panel w_cairo w_commits w_requests widgets set_seats].
      split; [reflexivity|]. split; [reflexivity|]. split; [reflexivity|].
      split.
      * intros b' Hin' Hb'. rewrite (Huniq b' Hin' Hb').
        rewrite app_nil_r. reflexivity.
      * intros _. reflexivity.
  - assert (Hno : Forall (fun b => ~ in_widget b n) (widgets (w_panel w))).
    { apply Forall_forall. intros b Hin Hb. apply in_widgetb_iff in Hb.
      assert (Ht : existsb (fun b => in_widgetb b n) (widgets (w_panel w))
                   = true)
        by (apply existsb_exists; exists b; tauto).
      congruence. }
    pose proof (button_scan_miss _ n a1 v1 Hf Hno) as Hsc.
    exists v1. split; [apply Hrun; exact Hsc|].
    cbn [v1 w_panel w_cairo w_commits w_requests widgets set_seats].
    split; [reflexivity|]. split; [reflexivity|]. split; [reflexivity|].
    split.
    + intros b Hin Hb. rewrite Forall_forall in Hno.
      exfalso. exact (Hno b Hin Hb).
    + intros _. reflexivity.
Qed.

(** X10. A scale event of an output that is not the output of the panel
    changes the record of that output only: the scale of the panel stays
    and nothing is drawn or committed.  A scale event of the output of the
    panel sets the scale of the panel to the factor sent, whatever its
    sign; a panel that is running and has a size is drawn again at once,
    the recording starts with that scale, and the frame, when the pool has
    a buffer for it, is committed with that buffer scale; its damage is
    the width and the height of the panel converted from [uint32_t] to
    [int32_t], as [wl_surface_damage] receives them. *)
Theorem output_scale_applies (w w' : world) (u : unit) (o : nat)
    (factor : Z) :
  output_scale o factor w = Some (u, w') ->
  (panel_output (w_panel w) <> Some o ->
   panel_scale (w_panel w') = panel_scale (w_panel w) /\
   widgets (w_panel w') = widgets (w_panel w) /\
   w_cairo w' = w_cairo w /\ w_commits w' = w_commits w) /\
  (panel_output (w_panel w) = Some o ->
   INT_MIN <= factor <= INT_MAX ->
   panel_scale (w_panel w') = factor /\
   (run_display (w_panel w) = true ->
    panel_width (w_panel w) <> 0 -> panel_height (w_panel w) <> 0 ->
    (exists ops, w_cairo w' = Scale factor factor :: ops) /\
    forall b,
      current_buffer (w_panel w') = Some b ->
      w_commits w' =
      w_commits w ++
      [mkCommit b factor (w_cairo w')
         (int_of_u32 (panel_width (w_panel w)),
          int_of_u32 (panel_height (w_panel w)))])).
Proof.
  intros H. unfold output_scale in H.
  rewrite (bind_Some (modify_panel _) _ _ _ tt eq_refl) in H.
  rewrite (bind_Some get_panel _ _ _ _ eq_refl) in H.
  cbn [w_panel panel_output set_outputs] in H.
  destruct (panel_output (w_panel w)) as [a|] eqn:Eo.
  2: { injection H as _ <-. cbn [w_panel w_cairo w_commits panel_scale widgets
         set_outputs]. split; [tauto | discriminate]. }
  destruct (Nat.eqb a o) eqn:Ea.
  2: { injection H as _ <-. cbn [w_panel w_cairo w_commits panel_scale widgets
         set_outputs]. split; [tauto|]. intros E. injection E as ->.
       rewrite Nat.eqb_refl in Ea. discriminate. }
  apply Nat.eqb_eq in Ea. subst a.
  split; [intros Hc; contradiction|]. intros _ Hfac.
  rewrite (bind_Some (modify_panel _) _ _ _ tt eq_refl) in H.
  cbn [w_panel w_cairo w_log w_commits w_requests w_time_calls w_allocs] in H.
  rewrite (int_of_u32_u32 _ Hfac) in H.
  destruct (render_frame_cases _ _ _ H) as [(Hk & ->)|(Hr & Hw & Hh)];
    cbn [w_panel run_display panel_width panel_height panel_scale set_output
         set_outputs] in *.
  - split; [reflexivity|]. intros Hr Hw Hh.
    destruct Hk as [Hk|[Hk|Hk]]; [congruence | contradiction | contradiction].
  - apply render_frame_inv in H; [|exact Hr|exact Hw|exact Hh].
    destruct H as (w1 & Hp & ->).
    cbn [w_panel w_cairo w_log w_commits w_requests w_time_calls w_allocs
         run_display panel_width panel_height panel_scale set_output
         set_outputs set_buffer current_buffer buffers] in *.
    pose proof (render_to_cairo_frame _ _ _ Hp) as Hf.
    destruct Hf as (_ & Hs & _).
    cbn [w_panel panel_scale set_output] in Hs.
    split; [exact Hs|]. intros _ _ _. split.
    + apply render_to_cairo_inv in Hp.
      destruct Hp as (sw & k & ops & _ & _ & Hc & _).
      cbn [w_cairo] in Hc. rewrite Hc. cbn [app]. eexists. reflexivity.
    + intros b Eb. rewrite Eb. reflexivity.
Qed.

(** ** A panel that has stopped *)

Lemma button_scan_frame (ws : list widget) (x : Z) (s : seat) :
  forall (v v' : world) u,
    button_scan ws x s v = Some (u, v') ->
    w_panel v' = w_panel v /\ w_cairo v' = w_cairo v /\
    w_commits v' = w_commits v.
Proof.
  induction ws as [|a ws IH]; intros v v' u H; cbn [button_scan] in H.
  - injection H as _ <-. auto.
  - apply bind_inv in H. destruct H as (hit & v1 & E & H).
    assert (Ev : v1 = v).
    { destruct (widget_x a <=? x).
      - apply bind_inv in E. destruct E as (z & v2 & E & E').
        apply int_add_inv in E. destruct E as (_ & -> & _).
        injection E' as _ <-. reflexivity.
      - injection E as _ <-. reflexivity. }
    subst v1. destruct hit.
    + destruct (widget_toplevel a) as [h|].
      * unfold bind, get_panel in H.
        destruct (find_toplevel h (toplevels (w_panel v))); [|discriminate].
        injection H as _ <-; cbn; auto.
      * injection H as _ <-; cbn; auto.
    + apply (IH _ _ _ H).
Qed.

Lemma dispatch_stopped (e : event) (v v' : world) u :
  e <> EvPanelRun ->
  run_display (w_panel v) = false ->
  dispatch e v = Some (u, v') ->
  run_display (w_panel v') = false /\
  widgets (w_panel v') = widgets (w_panel v) /\
  w_cairo v' = w_cairo v /\ w_commits v' = w_commits v.
Proof.
  intros Hne Hr H.
  assert (Hskip : forall q l,
             run_display q = false ->
             render_frame (mkWorld q (w_cairo v) l (w_commits v)
                             (w_requests v) (w_time_calls v) (w_allocs v)) =
             Some (tt, mkWorld q (w_cairo v) l (w_commits v)
                         (w_requests v) (w_time_calls v) (w_allocs v))).
  { intros q l Hq. apply render_frame_skip. left. exact Hq. }
  destruct e; unfold dispatch, bind, get_panel in H.
  - unfold handle_toplevel_manager_toplevel, bind, alloc, modify_panel,
      wlr_log in H.
    destruct (alloc_ok (w_allocs v)); injection H as _ <-; cbn; auto.
  - unfold with_toplevel, bind, get_panel in H.
    destruct (find_toplevel h (toplevels (w_panel v))).
    + unfold handle_toplevel_title, strdup, bind, alloc, ret, modify_panel,
        wlr_log in H.
      destruct (alloc_ok (w_allocs v)); injection H as _ <-; cbn; auto.
    + injection H as _ <-; auto.
  - unfold with_toplevel, bind, get_panel in H.
    destruct (find_toplevel h (toplevels (w_panel v))).
    + unfold handle_toplevel_app_id, strdup, bind, alloc, ret, modify_panel,
        wlr_log in H.
      destruct (alloc_ok (w_allocs v)); injection H as _ <-; cbn; auto.
    + injection H as _ <-; auto.
  - unfold with_toplevel, bind, get_panel in H.
    destruct (find_toplevel h (toplevels (w_panel v))).
    + unfold ret, modify_panel in H. injection H as _ <-; cbn; auto.
    + injection H as _ <-; auto.
  - destruct (find_toplevel h (toplevels (w_panel v))).
    + unfold handle_toplevel_done in H.
      rewrite render_frame_skip in H by tauto. injection H as _ <-; auto.
    + injection H as _ <-; auto.
  - destruct (find_toplevel h (toplevels (w_panel v))).
    + unfold handle_toplevel_closed, toplevel_destroy, bind, modify_panel in H.
      cbv beta iota in H; rewrite Hskip in H by (cbn; exact Hr).
      injection H as _ <-; cbn; auto.
    + injection H as _ <-; auto.
  - unfold layer_surface_configure, bind, modify_panel in H.
    cbv beta iota in H; rewrite Hskip in H by (cbn; exact Hr).
    injection H as _ <-; cbn; auto.
  - unfold surface_enter, bind, get_panel in H.
    destruct (find _ (outputs (w_panel v))).
    + unfold modify_panel in H.
      cbv beta iota in H; rewrite Hskip in H by (cbn; exact Hr).
      injection H as _ <-; cbn; auto.
    + injection H as _ <-; auto.
  - unfold output_scale, bind, get_panel, modify_panel in H.
    cbn [w_panel panel_output set_outputs] in H.
    destruct (panel_output (w_panel v)) as [a|].
    + destruct (Nat.eqb a o).
      * cbv beta iota in H.
        cbn [w_panel w_cairo w_log w_commits w_requests w_time_calls
             w_allocs] in H.
        rewrite Hskip in H by (cbn; exact Hr).
        injection H as _ <-; cbn; auto.
      * injection H as _ <-; cbn; auto.
    + injection H as _ <-; cbn; auto.
  - destruct (find_seat s (seats (w_panel v))); unfold modify_panel in H;
      injection H as _ <-; cbn; auto.
  - destruct (find_seat s (seats (w_panel v))); unfold modify_panel in H;
      injection H as _ <-; cbn; auto.
  - destruct (find_seat s (seats (w_panel v))).
    + unfold wl_pointer_button in H.
      destruct (negb (state =? BUTTON_STATE_PRESSED)).
      * injection H as _ <-; auto.
      * unfold bind, get_panel in H. apply button_scan_frame in H.
        destruct H as (Hp & Hc & Hm). rewrite Hp. auto.
    + injection H as _ <-; auto.
  - contradiction.
  - rewrite render_frame_skip in H by tauto. injection H as _ <-; auto.
  - unfold handle_global_seat, bind, alloc, modify_panel, wlr_log in H.
    destruct (alloc_ok (w_allocs v)); injection H as _ <-; cbn; auto.
  - unfold handle_global_output, bind, get_panel, alloc, modify_panel,
      wlr_log in H.
    destruct (panel_output (w_panel v));
      [|destruct (alloc_ok (w_allocs v))]; injection H as _ <-; cbn; auto.
Qed.

Lemma run_stopped (es : list event) : forall (v v' : world) u,
  ~ In EvPanelRun es ->
  run_display (w_panel v) = false ->
  run es v = Some (u, v') ->
  run_display (w_panel v') = false /\
  widgets (w_panel v') = widgets (w_panel v) /\
  w_cairo v' = w_cairo v /\ w_commits v' = w_commits v.
Proof.
  induction es as [|e es IH]; intros v v' u Hn Hr H; cbn [run] in H.
  - injection H as _ <-. auto.
  - apply bind_inv in H. destruct H as ([] & v1 & E & H).
    apply dispatch_stopped in E;
      [|intros ->; apply Hn; left; reflexivity|exact Hr].
    destruct E as (Hr1 & E1 & E2 & E3).
    apply IH in H; [|intros Hc; apply Hn; right; exact Hc|exact Hr1].
    destruct H as (Hr2 & F1 & F2 & F3).
    rewrite F1, F2, F3. auto.
Qed.

(** X11. When the global of the output of the panel is removed, the
    panel stops and the seats bound to that name are destroyed, the other
    seats staying in order.  Whatever events are then handled before
    [panel_run] is entered again, no frame is drawn or committed and the
    widget list stays as it was.  When another global is removed the panel
    goes on as it was. *)
Theorem handle_global_remove_stops (w : world) (o name : nat) :
  panel_output (w_panel w) = Some o ->
  exists w1,
    handle_global_remove name w = Some (tt, w1) /\
    seats (w_panel w1) =
      filter (fun a => negb (Nat.eqb (wl_seat a) name)) (seats (w_panel w)) /\
    find_seat name (seats (w_panel w1)) = None /\
    widgets (w_panel w1) = widgets (w_panel w) /\
    toplevels (w_panel w1) = toplevels (w_panel w) /\
    (name <> o -> run_display (w_panel w1) = run_display (w_panel w)) /\
    (name = o ->
     run_display (w_panel w1) = false /\
     forall es (w' : world) u,
       ~ In EvPanelRun es ->
       run es w1 = Some (u, w') ->
       w_commits w' = w_commits w /\ w_cairo w' = w_cairo w /\
       widgets (w_panel w') = widgets (w_panel w)).
Proof.
  intros Ho. unfold handle_global_remove.
  rewrite (bind_Some get_panel _ w w (w_panel w) eq_refl), Ho.
  assert (Hf : forall ss,
             find_seat name
               (filter (fun a => negb (Nat.eqb (wl_seat a) name)) ss) = None).
  { intros ss. unfold find_seat.
    destruct (find _ _) as [a|] eqn:E; [|reflexivity].
    apply find_some in E. destruct E as (Hin & E).
    apply filter_In in Hin. destruct Hin as (_ & Hin).
    rewrite E in Hin. discriminate. }
  destruct (Nat.eqb o name) eqn:E.
  - apply Nat.eqb_eq in E. subst name.
    eexists. split; [reflexivity|].
    cbn [w_panel seats widgets toplevels run_display set_seats
         set_run_display].
    split; [reflexivity|]. split; [apply Hf|].
    split; [reflexivity|]. split; [reflexivity|].
    split; [intros Hc; contradiction|]. intros _.
    split; [reflexivity|]. intros es w' u Hn Hrun.
    apply run_stopped in Hrun; [|exact Hn|reflexivity].
    destruct Hrun as (_ & H1 & H2 & H3). rewrite H1, H2, H3.
    split; [reflexivity|]. split; reflexivity.
  - apply Nat.eqb_neq in E.
    eexists. split; [reflexivity|].
    cbn [w_panel seats widgets toplevels run_display set_seats].
    split; [reflexivity|]. split; [apply Hf|].
    split; [reflexivity|]. split; [reflexivity|].
    split; [reflexivity|]. intros Hc. congruence.
Qed.

(** ** What the taskbar draws *)

Lemma render_taskbar_loop_ops tls : forall x (w w' : world) x',
  render_taskbar_loop tls x w = Some (x', w') ->
  w_cairo w' =
  w_cairo w ++
  flat_map (button_ops (panel_conf (w_panel w)) (panel_height (w_panel w)))
    (combine tls (taskbar_buttons x tls)).
Proof.
  induction tls as [|t tls IH]; intros x w w' x' H.
  - simpl in H. minv. cbn [combine flat_map]. rewrite app_nil_r. reflexivity.
  - simpl in H. minv. prim_inv. rewrite cap_is_min in *.
    fold (button_width t) in *.
    apply IH in H. rewrite H.
    cbn [w_panel w_cairo panel_conf panel_height set_widgets combine flat_map
         taskbar_buttons button_ops fst snd widget_x widget_width].
    rewrite <- !app_assoc. reflexivity.
Qed.

(** X12. The taskbar draws, for each window of the registry in order,
    one button: a rectangle filled in the active colour when the window
    is active and in the button background otherwise, then the label in
    the text colour, clipped to the button less its padding on each
    side and between a save and a restore.  The rectangle filled has the
    position and the width of the widget of that window, so that what is
    seen as the button is what a press is tested against; a button whose
    widget could not be allocated is drawn all the same. *)
Theorem render_taskbar_draws (w w' : world) (start_x d : Z) :
  render_taskbar start_x w = Some (d, w') ->
  w_cairo w' =
    w_cairo w ++
    flat_map (button_ops (panel_conf (w_panel w)) (panel_height (w_panel w)))
      (combine (toplevels (w_panel w))
         (taskbar_buttons (start_x + BUTTON_PADDING) (toplevels (w_panel w))))
  /\
  widgets (w_panel w') =
    widgets (w_panel w) ++
    allocated (w_allocs w)
      (taskbar_buttons (start_x + BUTTON_PADDING) (toplevels (w_panel w))).
Proof.
  intros H. pose proof H as H'. apply render_taskbar_lays in H'.
  destruct H' as (_ & _ & ops & (Hp & _) & _).
  split; [|rewrite Hp; reflexivity].
  unfold render_taskbar in H.
  apply bind_inv in H. destruct H as (x0 & w1 & E & H).
  apply int_add_inv in E. destruct E as (-> & -> & _).
  rewrite (bind_Some get_panel _ w w (w_panel w) eq_refl) in H.
  apply bind_inv in H. destruct H as (x1 & w2 & E & H).
  apply render_taskbar_loop_ops in E.
  unfold int_sub in H. destruct (int_of (x1 - start_x)); [|discriminate].
  injection H as _ <-. exact E.
Qed.

(** ** Colours *)

Lemma byte_of_color (color k : Z) :
  0 <= k ->
  Z.land (Z.shiftr color (k * 8)) 255 = (color / 2 ^ (k * 8)) mod 256.
Proof.
  intros Hk. rewrite Z.shiftr_div_pow2 by lia.
  change 255 with (Z.ones 8). rewrite Z.land_ones by lia. reflexivity.
Qed.

(** X13. [cairo_set_source_u32] reads a colour as four bytes, red first
    and alpha last: for the colour made of the bytes [r], [g], [b] and [a]
    it sets the source to [r/255], [g/255], [b/255] and [a/255], and draws
    nothing else.  Whatever the colour, each component lies between 0 and
    255 over 255. *)
Theorem cairo_set_source_u32_bytes (w : world) :
  (forall r g b a,
      0 <= r < 256 -> 0 <= g < 256 -> 0 <= b < 256 -> 0 <= a < 256 ->
      exists w',
        cairo_set_source_u32 (r * 2 ^ 24 + g * 2 ^ 16 + b * 2 ^ 8 + a) w
          = Some (tt, w') /\
        w_cairo w' =
          w_cairo w ++
          [SetSourceRGBA (QArith_base.Qmake r 255) (QArith_base.Qmake g 255)
             (QArith_base.Qmake b 255) (QArith_base.Qmake a 255)] /\
        w_panel w' = w_panel w /\ w_commits w' = w_commits w) /\
  (forall color k,
      0 <= QArith_base.Qnum (channel color k) <= 255 /\
      QArith_base.Qden (channel color k) = 255%positive).
Proof.
  split.
  - intros r g b a Hr Hg Hb Ha. eexists. split; [reflexivity|].
    cbn [w_cairo w_panel w_commits].
    split; [|split; reflexivity].
    unfold channel. rewrite !byte_of_color by lia.
    change (3 * 8) with 24. change (2 * 8) with 16.
    change (1 * 8) with 8. change (0 * 8) with 0.
    change (2 ^ 24) with 16777216. change (2 ^ 16) with 65536.
    change (2 ^ 8) with 256. change (2 ^ 0) with 1.
    assert (E3 : (r * 16777216 + g * 65536 + b * 256 + a) / 16777216 mod 256
                 = r) by (Z.div_mod_to_equations; lia).
    assert (E2 : (r * 16777216 + g * 65536 + b * 256 + a) / 65536 mod 256
                 = g) by (Z.div_mod_to_equations; lia).
    assert (E1 : (r * 16777216 + g * 65536 + b * 256 + a) / 256 mod 256
                 = b) by (Z.div_mod_to_equations; lia).
    assert (E0 : (r * 16777216 + g * 65536 + b * 256 + a) / 1 mod 256
                 = a) by (Z.div_mod_to_equations; lia).
    rewrite E3, E2, E1, E0. reflexivity.
  - intros color k. unfold channel. cbn [QArith_base.Qnum QArith_base.Qden].
    split; [|reflexivity].
    change 255 with (Z.ones 8) at 1 2.
    rewrite Z.land_ones by lia. change (Z.ones 8) with 255.
    pose proof (Z.mod_pos_bound (Z.shiftr color (k * 8)) (2 ^ 8) ltac:(lia)).
    change (2 ^ 8) with 256 in *. lia.
Qed.

(** ** Item codes that are not known *)

Lemma known_codes_count c items :
  known_code c = true ->
  count_code c (known_codes items) = count_code c items.
Proof.
  intros Hc. induction items as [|d items IH];
    cbn [known_codes count_code]; [reflexivity|].
  destruct (known_code d) eqn:Ed; cbn [count_code].
  - rewrite IH. reflexivity.
  - destruct (Ascii.eqb d c) eqn:E; [|exact IH].
    apply Ascii.eqb_eq in E. congruence.
Qed.

Lemma known_codes_strchr c items :
  known_code c = true ->
  strchr (known_codes items) c = strchr items c.
Proof.
  intros Hc. induction items as [|d items IH];
    cbn [known_codes strchr]; [reflexivity|].
  destruct (known_code d) eqn:Ed; cbn [strchr].
  - rewrite IH. reflexivity.
  - destruct (Ascii.eqb d c) eqn:E; [|exact IH].
    apply Ascii.eqb_eq in E. congruence.
Qed.

Lemma known_codes_natural_sum tls items : forall k,
  natural_sum tls (known_codes items) k = natural_sum tls items k.
Proof.
  induction items as [|c items IH]; intros k;
    cbn [known_codes natural_sum]; [reflexivity|].
  unfold known_code.
  destruct (Ascii.eqb c "T") eqn:ET; [|destruct (Ascii.eqb c "C") eqn:EC;
    [|destruct (Ascii.eqb c "S") eqn:ES]]; cbn [orb natural_sum];
    rewrite ?ET, ?EC, ?IH; reflexivity.
Qed.

Lemma known_codes_layout tls sw items : forall x k,
  layout_widgets tls sw (known_codes items) x k =
  layout_widgets tls sw items x k.
Proof.
  induction items as [|c items IH]; intros x k;
    cbn [known_codes layout_widgets]; [reflexivity|].
  unfold known_code.
  destruct (Ascii.eqb c "T") eqn:ET; [|destruct (Ascii.eqb c "C") eqn:EC;
    [|destruct (Ascii.eqb c "S") eqn:ES]]; cbn [orb layout_widgets];
    rewrite ?ET, ?EC, ?ES, ?IH; reflexivity.
Qed.

Lemma unknown_logged_app l1 l2 :
  unknown_logged (l1 ++ l2) = unknown_logged l1 ++ unknown_logged l2.
Proof.
  induction l1 as [|m l1 IH]; cbn [app unknown_logged]; [reflexivity|].
  destruct m; cbn [app]; rewrite IH; reflexivity.
Qed.

Lemma fixed_width_loop_log items : forall acc (w w' : world) f,
  fixed_width_loop items acc w = Some (f, w') -> w_log w' = w_log w.
Proof.
  induction items as [|c items IH]; intros acc w w' f H; simpl in H.
  - minv. reflexivity.
  - apply bind_inv in H. destruct H as (f1 & w1 & Hs & H).
    apply IH in H. rewrite H. clear IH H.
    destruct (Ascii.eqb c "T"); [|destruct (Ascii.eqb c "C")].
    + apply bind_inv in Hs. destruct Hs as (n & v2 & E & Ha).
      apply int_add_inv in Ha. destruct Ha as (_ & -> & _).
      apply taskbar_natural_width_inv in E. destruct E as (_ & ->).
      reflexivity.
    + apply bind_inv in Hs. destruct Hs as (n & v2 & E & Ha).
      apply int_add_inv in Ha. destruct Ha as (_ & -> & _).
      apply clock_natural_width_inv in E. destruct E as (_ & ->).
      reflexivity.
    + unfold ret in Hs. injection Hs as _ <-. reflexivity.
Qed.

Lemma compute_spacer_width_log items (w w' : world) sw :
  compute_spacer_width items w = Some (sw, w') -> w_log w' = w_log w.
Proof.
  unfold compute_spacer_width. destruct (strchr items "S").
  - intros H. apply bind_inv in H. destruct H as (f & w1 & Hf & H).
    apply fixed_width_loop_log in Hf. minv. exact Hf.
  - intros H. minv. reflexivity.
Qed.

Lemma render_taskbar_loop_log tls : forall x (w w' : world) x',
  render_taskbar_loop tls x w = Some (x', w') ->
  unknown_logged (w_log w') = unknown_logged (w_log w).
Proof.
  induction tls as [|t tls IH]; intros x w w' x' H.
  - simpl in H. minv. reflexivity.
  - simpl in H. minv. prim_inv.
    apply IH in H. rewrite H. cbn [w_log].
    rewrite unknown_logged_app.
    destruct (alloc_ok (w_allocs w)); cbn [unknown_logged];
      apply app_nil_r.
Qed.

Lemma layout_loop_log sw items : forall x (w w' : world) x',
  layout_loop sw items x w = Some (x', w') ->
  unknown_logged (w_log w') =
  unknown_logged (w_log w) ++ unknown_codes items.
Proof.
  induction items as [|c items IH]; intros x w w' x' H;
    cbn [layout_loop unknown_codes] in *.
  - minv. rewrite app_nil_r. reflexivity.
  - apply bind_inv in H. destruct H as (x1 & w1 & Hs & H).
    apply IH in H. rewrite H. clear IH H. unfold known_code.
    destruct (Ascii.eqb c "T") eqn:ET; [|destruct (Ascii.eqb c "C") eqn:EC;
      [|destruct (Ascii.eqb c "S") eqn:ES]]; cbn [orb].
    + apply bind_inv in Hs. destruct Hs as (d & v2 & E & Ha).
      apply int_add_inv in Ha. destruct Ha as (_ & -> & _).
      unfold render_taskbar in E.
      apply bind_inv in E. destruct E as (x0 & v3 & Ea & E).
      apply int_add_inv in Ea. destruct Ea as (_ & -> & _).
      rewrite (bind_Some get_panel _ w w (w_panel w) eq_refl) in E.
      apply bind_inv in E. destruct E as (x2 & v5 & El & E).
      unfold int_sub in E. destruct (int_of (x2 - x)); [|discriminate].
      injection E as _ <-.
      apply render_taskbar_loop_log in El. rewrite El. reflexivity.
    + apply bind_inv in Hs. destruct Hs as (d & v2 & E & Ha).
      apply int_add_inv in Ha. destruct Ha as (_ & -> & _).
      unfold render_clock in E. minv. prim_inv. cbn [w_log].
      rewrite unknown_logged_app.
      destruct (alloc_ok (w_allocs w)); cbn [unknown_logged];
        rewrite app_nil_r; reflexivity.
    + apply int_add_inv in Hs. destruct Hs as (_ & -> & _). reflexivity.
    + minv. prim_inv. cbn [w_log].
      rewrite unknown_logged_app. cbn [unknown_logged].
      rewrite <- app_assoc. reflexivity.
Qed.

(** X14. An item code other than T, C and S is reported in the log,
    once per occurrence and in order, and is otherwise skipped: the
    widgets of the pass are those of the item string with such codes
    left out. *)
Theorem unknown_codes_skipped (w w' : world) (u : unit) (items : string) :
  panel_items (panel_conf (w_panel w)) = Some items ->
  render_to_cairo w = Some (u, w') ->
  unknown_logged (w_log w') = unknown_logged (w_log w) ++ unknown_codes items
  /\
  widgets (w_panel w') =
    allocated (w_allocs w)
      (layout_widgets (toplevels (w_panel w))
         (spacer_of (toplevels (w_panel w)) (known_codes items)
            (w_time_calls w) (panel_width (w_panel w)))
         (known_codes items) 0
         (layout_start (known_codes items) (w_time_calls w))).
Proof.
  intros Hi H. split.
  - unfold render_to_cairo, widgets_free, draw_separator in H.
    apply bind_inv in H. destruct H as (u1 & w1 & E1 & H).
    apply bind_inv in H. destruct H as (p & w2 & E2 & H).
    apply bind_inv in H. destruct H as (u3 & w3 & E3 & H).
    apply bind_inv in H. destruct H as (u4 & w4 & E4 & H).
    apply bind_inv in H. destruct H as (u5 & w5 & E5 & H).
    apply bind_inv in H. destruct H as (u6 & w6 & E6 & H).
    minv. prim_inv. rewrite Hi in E6.
    apply bind_inv in E6. destruct E6 as (xe & wa & E6 & Hret).
    unfold ret in Hret. injection Hret as _ <-.
    unfold render_items in E6.
    apply bind_inv in E6. destruct E6 as (sw & wb & Esw & El).
    apply compute_spacer_width_log in Esw. apply layout_loop_log in El.
    cbn [w_log] in *. rewrite El, Esw. reflexivity.
  - apply render_to_cairo_widgets in H. rewrite H.
    cbn [widgets set_widgets]. unfold pass_widgets. rewrite Hi.
    rewrite known_codes_layout. unfold spacer_of, layout_start.
    rewrite known_codes_strchr, known_codes_natural_sum by reflexivity.
    rewrite known_codes_count by reflexivity. reflexivity.
Qed.

(** ** From the announcement of a window to its button *)

Lemma render_frame_keeps (w w' : world) u :
  render_frame w = Some (u, w') ->
  toplevels (w_panel w') = toplevels (w_panel w) /\
  panel_scale (w_panel w') = panel_scale (w_panel w) /\
  panel_output (w_panel w') = panel_output (w_panel w) /\
  outputs (w_panel w') = outputs (w_panel w) /\
  seats (w_panel w') = seats (w_panel w) /\
  panel_width (w_panel w') = panel_width (w_panel w) /\
  panel_height (w_panel w') = panel_height (w_panel w) /\
  run_display (w_panel w') = run_display (w_panel w).
Proof.
  intros H.
  destruct (render_frame_cases _ _ _ H) as [(_ & ->)|(Hr & Hw & Hh)];
    [repeat split; reflexivity|].
  apply render_frame_inv in H; [|exact Hr|exact Hw|exact Hh].
  destruct H as (w1 & Hp & ->).
  apply render_to_cairo_widgets in Hp. cbn [w_panel] in *. rewrite Hp.
  repeat split; reflexivity.
Qed.

Lemma find_toplevel_fresh h tls (t : toplevel) :
  ~ In h (map handle tls) -> handle t = h ->
  find_toplevel h (tls ++ [t]) = Some t.
Proof.
  unfold find_toplevel. intros Hn <-.
  induction tls as [|v tls IH]; cbn [app find].
  - rewrite Nat.eqb_refl. reflexivity.
  - destruct (Nat.eqb (handle v) (handle t)) eqn:E.
    + apply Nat.eqb_eq in E. exfalso. apply Hn. left. exact E.
    + apply IH. intros Hc. apply Hn. right. exact Hc.
Qed.

Lemma store_toplevel_fresh tls (t t' : toplevel) :
  ~ In (handle t) (map handle tls) -> handle t' = handle t ->
  store_toplevel t' (tls ++ [t]) = tls ++ [t'].
Proof.
  intros Hn Eh. induction tls as [|v tls IH]; cbn [app store_toplevel].
  - rewrite Eh, Nat.eqb_refl. reflexivity.
  - destruct (Nat.eqb (handle v) (handle t')) eqn:E.
    + apply Nat.eqb_eq in E. exfalso. apply Hn. left. congruence.
    + f_equal. apply IH. intros Hc. apply Hn. right. exact Hc.
Qed.

Lemma taskbar_buttons_entry tls (t : toplevel) : forall x,
  In t tls ->
  exists x', In (mkWidget x' (button_width t) (Some (handle t)))
               (taskbar_buttons x tls).
Proof.
  induction tls as [|v tls IH]; intros x Hin; [destruct Hin|].
  cbn [taskbar_buttons]. destruct Hin as [->|Hin].
  - exists x. left. reflexivity.
  - destruct (IH (x + (button_width v + BUTTON_PADDING)) Hin) as (x' & H).
    exists x'. right. exact H.
Qed.

Lemma layout_widgets_entry tls sw items (t : toplevel) : forall x k,
  strchr items "T" = true -> In t tls ->
  exists x', In (mkWidget x' (button_width t) (Some (handle t)))
               (layout_widgets tls sw items x k).
Proof.
  induction items as [|c items IH]; intros x k Hs Hin;
    cbn [layout_widgets strchr] in *; [discriminate|].
  destruct (Ascii.eqb c "T") eqn:ET.
  - destruct (taskbar_buttons_entry tls t (x + BUTTON_PADDING) Hin)
      as (x' & H).
    exists x'. apply in_or_app. left. exact H.
  - destruct (Ascii.eqb c "C"); [|destruct (Ascii.eqb c "S")].
    + destruct (IH (x + clock_width k) (S k) Hs Hin) as (x' & H).
      exists x'. right. exact H.
    + apply (IH _ _ Hs Hin).
    + apply (IH _ _ Hs Hin).
Qed.

(** X15. A window is announced, its title is sent, then the done event.
    On a running panel with a size whose items contain a taskbar, and when
    the allocations succeed, the registry gains one entry at its end, with
    that title, no app-id and not active, and the frame drawn at the done
    event has a widget for the window whose width is the width of the
    title plus twice the padding, capped at the maximum. *)
Theorem new_window_gets_button (w w' : world) (u : unit) (h : nat)
    (s items : string) :
  (forall k, alloc_ok k = true) ->
  ~ In h (map handle (toplevels (w_panel w))) ->
  run_display (w_panel w) = true ->
  panel_width (w_panel w) <> 0 -> panel_height (w_panel w) <> 0 ->
  panel_items (panel_conf (w_panel w)) = Some items ->
  strchr items "T" = true ->
  run [EvToplevel h; EvTitle h s; EvDone h] w = Some (u, w') ->
  toplevels (w_panel w') =
    toplevels (w_panel w) ++ [mkToplevel h (Some s) None false] /\
  exists a,
    In a (widgets (w_panel w')) /\ widget_toplevel a = Some h /\
    widget_width a =
      Z.min (fst (text_size s) + 2 * BUTTON_PADDING) BUTTON_MAX_WIDTH.
Proof.
  intros Ha Hn Hr Hw Hh Hi HT H.
  set (t0 := mkToplevel h None None false).
  set (t1 := mkToplevel h (Some s) None false).
  set (w1 := mkWorld (set_toplevels (w_panel w) (toplevels (w_panel w) ++ [t0]))
               (w_cairo w) (w_log w) (w_commits w) (w_requests w)
               (w_time_calls w) (S (w_allocs w))).
  set (w2 := mkWorld (set_toplevels (w_panel w) (toplevels (w_panel w) ++ [t1]))
               (w_cairo w) (w_log w) (w_commits w) (w_requests w)
               (w_time_calls w) (S (S (w_allocs w)))).
  assert (E1 : dispatch (EvToplevel h) w = Some (tt, w1)).
  { unfold dispatch, handle_toplevel_manager_toplevel, bind, get_panel,
      alloc, modify_panel. rewrite Ha. reflexivity. }
  assert (Ef : find_toplevel h (toplevels (w_panel w1)) = Some t0).
  { cbn [w1 w_panel toplevels set_toplevels].
    apply find_toplevel_fresh; [exact Hn | reflexivity]. }
  assert (E2 : dispatch (EvTitle h s) w1 = Some (tt, w2)).
  { unfold dispatch.
    rewrite (bind_Some get_panel _ w1 w1 (w_panel w1) eq_refl).
    pose proof (strdup_entry w1 s
                  (fun d => mkToplevel (handle t0) d (app_id t0) (active t0)))
      as Hs.
    rewrite (with_toplevel_pure w1 h t0 _ _
               (fun t => handle_toplevel_title t s) Ef Hs).
    cbn [w1 w_allocs w_panel w_cairo w_log w_commits w_requests w_time_calls
         toplevels set_toplevels].
    rewrite Ha, app_nil_r.
    rewrite (store_toplevel_fresh (toplevels (w_panel w)) t0
               (mkToplevel (handle t0) (Some s) (app_id t0) (active t0)))
      by (first [exact Hn | reflexivity]).
    reflexivity. }
  assert (E3 : dispatch (EvDone h) w2 = render_frame w2).
  { unfold dispatch.
    rewrite (bind_Some get_panel _ w2 w2 (w_panel w2) eq_refl).
    cbn [w2 w_panel toplevels set_toplevels].
    rewrite (find_toplevel_fresh h (toplevels (w_panel w)) t1 Hn eq_refl).
    reflexivity. }
  cbn [run] in H.
  rewrite (bind_Some _ _ w w1 tt E1) in H.
  rewrite (bind_Some _ _ w1 w2 tt E2) in H.
  apply bind_inv in H. destruct H as ([] & w3 & H & Hret).
  unfold ret in Hret. injection Hret as _ <-.
  rewrite E3 in H.
  pose proof (render_frame_keeps _ _ _ H) as (Ht & _).
  split; [rewrite Ht; reflexivity|].
  apply render_frame_inv in H; [|exact Hr|exact Hw|exact Hh].
  destruct H as (wp & Hp & ->).
  apply render_to_cairo_widgets in Hp.
  cbn [w_panel w_allocs w_time_calls widgets set_buffer] in *.
  rewrite Hp. cbn [widgets set_widgets].
  rewrite allocated_all by exact Ha. unfold pass_widgets.
  cbn [w2 w_panel panel_conf toplevels set_toplevels]. rewrite Hi.
  match goal with
  | |- context [layout_widgets ?tls ?sw items 0 ?k] =>
      destruct (layout_widgets_entry tls sw items t1 0 k HT) as (x' & Hin)
  end.
  { apply in_or_app. right. left. reflexivity. }
  eexists. split; [exact Hin|]. split; reflexivity.
Qed.

(** X16. An output is announced while the panel is on no output, a scale
    is sent for it, and the surface of the panel enters it.  When the
    allocation succeeds the panel is then on that output and draws at the
    scale sent. *)
Theorem output_scale_then_enter (w w' : world) (u : unit) (o : nat)
    (factor : Z) :
  alloc_ok (w_allocs w) = true ->
  panel_output (w_panel w) = None ->
  INT_MIN <= factor <= INT_MAX ->
  run [EvGlobalOutput o; EvOutputScale o factor; EvSurfaceEnter o] w
    = Some (u, w') ->
  panel_output (w_panel w') = Some o /\
  panel_scale (w_panel w') = factor /\
  (run_display (w_panel w) = true ->
   panel_width (w_panel w) <> 0 -> panel_height (w_panel w) <> 0 ->
   exists ops, w_cairo w' = Scale factor factor :: ops).
Proof.
  intros Ha Ho Hfac H.
  set (w1 := mkWorld (set_outputs (w_panel w) (mkOutput o 1 :: outputs (w_panel w)))
               (w_cairo w) (w_log w) (w_commits w) (w_requests w)
               (w_time_calls w) (S (w_allocs w))).
  assert (E1 : dispatch (EvGlobalOutput o) w = Some (tt, w1)).
  { unfold dispatch, handle_global_output, bind, get_panel, alloc,
      modify_panel. rewrite Ho, Ha. reflexivity. }
  set (os := map (fun po => if Nat.eqb (wl_output po) o
                            then mkOutput (wl_output po) (u32 factor) else po)
               (outputs (w_panel w))).
  set (w2 := mkWorld (set_outputs (w_panel w) (mkOutput o (u32 factor) :: os))
               (w_cairo w) (w_log w) (w_commits w) (w_requests w)
               (w_time_calls w) (S (w_allocs w))).
  assert (E2 : dispatch (EvOutputScale o factor) w1 = Some (tt, w2)).
  { unfold dispatch, output_scale, bind, get_panel, modify_panel.
    cbn [w1 w_panel w_cairo w_log w_commits w_requests w_time_calls w_allocs
         panel_output set_outputs outputs map wl_output].
    rewrite Ho, Nat.eqb_refl. reflexivity. }
  set (w3 := mkWorld (set_output (w_panel w2) (Some o)
                        (int_of_u32 (u32 factor)))
               (w_cairo w) (w_log w) (w_commits w) (w_requests w)
               (w_time_calls w) (S (w_allocs w))).
  assert (E3 : dispatch (EvSurfaceEnter o) w2 = render_frame w3).
  { unfold dispatch, surface_enter, bind, get_panel, modify_panel.
    cbn [w2 w_panel w_cairo w_log w_commits w_requests w_time_calls w_allocs
         set_outputs outputs find wl_output out_scale].
    rewrite Nat.eqb_refl. reflexivity. }
  cbn [run] in H.
  rewrite (bind_Some _ _ w w1 tt E1) in H.
  rewrite (bind_Some _ _ w1 w2 tt E2) in H.
  apply bind_inv in H. destruct H as ([] & w4 & H & Hret).
  unfold ret in Hret. injection Hret as _ <-.
  rewrite E3 in H.
  pose proof (render_frame_keeps _ _ _ H) as (_ & Hs & Hout & _).
  cbn [w3 w_panel panel_scale panel_output set_output] in Hs, Hout.
  rewrite (int_of_u32_u32 _ Hfac) in Hs.
  split; [exact Hout|]. split; [exact Hs|].
  intros Hr Hw Hh.
  apply render_frame_inv in H; [|exact Hr|exact Hw|exact Hh].
  destruct H as (wp & Hp & ->).
  apply render_to_cairo_inv in Hp.
  destruct Hp as (sw & k & ops & _ & _ & Hc & _).
  cbn [w_cairo w3 w2 w_panel panel_scale set_output] in *.
  rewrite Hc, (int_of_u32_u32 _ Hfac). cbn [app]. eexists. reflexivity.
Qed.

(** ** A press on the button of a window that is gone *)

(** X17. While the panel is not running or has no size, the frame that
    follows the close of a window is skipped, so that the widget of the
    window stays in the list after its entry is freed.  A press inside
    that widget then reads the handle from the freed entry: the press is
    undefined. *)
Theorem press_after_close_undefined (w : world) (h sid : nat) (s : seat)
    (pre post : list widget) (a : widget) :
  NoDup (map handle (toplevels (w_panel w))) ->
  In h (map handle (toplevels (w_panel w))) ->
  run_display (w_panel w) = false \/
  panel_width (w_panel w) = 0 \/ panel_height (w_panel w) = 0 ->
  Forall fits (widgets (w_panel w)) ->
  widgets (w_panel w) = pre ++ a :: post ->
  Forall (fun b => ~ in_widget b (ptr_x (seat_pointer s))) pre ->
  in_widget a (ptr_x (seat_pointer s)) ->
  widget_toplevel a = Some h ->
  find_seat sid (seats (w_panel w)) = Some s ->
  (exists w1,
      dispatch (EvClosed h) w = Some (tt, w1) /\
      widgets (w_panel w1) = widgets (w_panel w) /\
      ~ In h (map handle (toplevels (w_panel w1)))) /\
  run [EvClosed h; EvPointerButton sid BUTTON_STATE_PRESSED] w = None.
Proof.
  intros Hn Hin Hskip Hf Hw Hm Hx Et Hs.
  set (w1 := mkWorld
               (set_toplevels (w_panel w)
                  (filter (fun t => negb (Nat.eqb (handle t) h))
                     (toplevels (w_panel w))))
               (w_cairo w) (w_log w) (w_commits w) (w_requests w)
               (w_time_calls w) (w_allocs w)).
  assert (E1 : dispatch (EvClosed h) w = Some (tt, w1)).
  { unfold dispatch.
    rewrite (bind_Some get_panel _ w w (w_panel w) eq_refl).
    destruct (find_toplevel_In _ _ Hin) as (t & Ef). rewrite Ef.
    unfold handle_toplevel_closed, toplevel_destroy.
    rewrite (bind_Some (modify_panel _) _ _ _ tt eq_refl).
    rewrite (remove_toplevel_filter _ _ Hn).
    apply render_frame_skip.
    cbn [w_panel run_display panel_width panel_height set_toplevels].
    exact Hskip. }
  assert (Hnot : ~ In h (map handle (toplevels (w_panel w1)))).
  { cbn [w1 w_panel toplevels set_toplevels]. intros Hc.
    apply in_map_iff in Hc. destruct Hc as (t' & E & Hc).
    apply filter_In in Hc. destruct Hc as (_ & Hc).
    rewrite E, Nat.eqb_refl in Hc. discriminate. }
  split.
  - exists w1. split; [exact E1|]. split; [reflexivity | exact Hnot].
  - cbn [run]. rewrite (bind_Some _ _ w w1 tt E1).
    assert (E2 : dispatch (EvPointerButton sid BUTTON_STATE_PRESSED) w1
                 = None).
    { unfold dispatch.
      rewrite (bind_Some get_panel _ w1 w1 (w_panel w1) eq_refl).
      cbn [w1 w_panel seats set_toplevels]. rewrite Hs.
      unfold wl_pointer_button. rewrite Z.eqb_refl. cbn [negb].
      rewrite (bind_Some get_panel _ _ _ _ eq_refl).
      cbn [w1 w_panel widgets set_toplevels]. rewrite Hw.
      apply button_scan_stale.
      - rewrite <- Hw. exact Hf.
      - exact Hm.
      - exact Hx.
      - intros Hal. apply Hnot. exact (Hal h Et). }
    unfold bind. rewrite E2. reflexivity.
Qed.

End Proofs.

(** * The statements on the concrete setting *)

(** The default item string on the example panel: the spacer is 800 minus
    the 74 of the taskbar and the 51 of the clock. *)
Lemma spacer_width_single_witness :
  exists ns w1 sw,
    @natural_widths unit ext_example "TSC" editor_world = Some (ns, w1) /\
    sw = Z.max 0 (800 - @sum_Z ns) /\
    @compute_spacer_width unit ext_example "TSC" editor_world = Some (sw, w1) /\
    sw = 675.
Proof.
  destruct (@spacer_width_single unit ext_example "TSC" editor_world
              (mkWorld (set_widgets editor_panel
                          [mkWidget 8 58 (Some 1%nat); mkWidget 749 51 None])
                 [SetSourceRGBA (@channel 1246382847 3) (@channel 1246382847 2)
                    (@channel 1246382847 1) (@channel 1246382847 0);
                  Rectangle 8 2 58 26; Fill; Save; Rectangle 16 0 42 30; Clip;
                  SetSourceRGBA (@channel 4294967295 3) (@channel 4294967295 2)
                    (@channel 4294967295 1) (@channel 4294967295 0);
                  MoveTo 16 (QArith_base.Qmake 7 1); ShowText "Editor"; Restore;
                  SetSourceRGBA (@channel 4294967295 3) (@channel 4294967295 2)
                    (@channel 4294967295 1) (@channel 4294967295 0);
                  MoveTo 757 (QArith_base.Qmake 15 2); ShowText "09:05"]
                 [] [] [] 2 2) 800)
    as (ns & w1 & sw & Hn & Hsw & Hc & _).
  - simpl. tauto.
  - vm_compute. split; discriminate.
  - vm_compute. reflexivity.
  - exists ns, w1, sw. repeat split; try assumption.
    vm_compute in Hc. injection Hc as <- _. reflexivity.
Defined.

(** On the example panel a press at 10 activates the window of the first
    button, a press at 400, between the widgets, and a press at 760, on the
    clock, request nothing, and a release requests nothing. *)
Lemma wl_pointer_button_dispatch_witness :
  @wl_pointer_button unit ext_example (mkSeat 0 (mkPointer 0 10 0)) 0
    editor_rendered = Some (tt, editor_rendered) /\
  @wl_pointer_button unit ext_example (mkSeat 0 (mkPointer 0 10 0)) 1
    editor_rendered = Some (tt, sent editor_rendered (Activate 1 0)) /\
  @wl_pointer_button unit ext_example (mkSeat 0 (mkPointer 0 400 0)) 1
    editor_rendered = Some (tt, editor_rendered) /\
  @wl_pointer_button unit ext_example (mkSeat 0 (mkPointer 0 760 0)) 1
    editor_rendered = Some (tt, editor_rendered).
Proof.
  assert (R : Forall fits (widgets (w_panel editor_rendered))).
  { repeat constructor; vm_compute; discriminate. }
  split; [|split; [|split]].
  - apply (proj1 (@wl_pointer_button_dispatch unit ext_example
                    (mkSeat 0 (mkPointer 0 10 0)) 0 editor_rendered R)).
    discriminate.
  - apply (proj1 (proj2 (@wl_pointer_button_dispatch unit ext_example
                    (mkSeat 0 (mkPointer 0 10 0)) 1 editor_rendered R)
                    eq_refl) [] (mkWidget 8 58 (Some 1%nat))
             [mkWidget 749 51 None]).
    + reflexivity.
    + constructor.
    + vm_compute. split; [discriminate | reflexivity].
    + intros h E. injection E as <-. left. reflexivity.
  - apply (proj2 (proj2 (proj2 (@wl_pointer_button_dispatch unit ext_example
                    (mkSeat 0 (mkPointer 0 400 0)) 1 editor_rendered R)
                    eq_refl))).
    repeat constructor; unfold in_widget; cbn; lia.
  - apply (proj1 (proj2 (@wl_pointer_button_dispatch unit ext_example
                    (mkSeat 0 (mkPointer 0 760 0)) 1 editor_rendered R)
                    eq_refl) [mkWidget 8 58 (Some 1%nat)]
             (mkWidget 749 51 None) []).
    + reflexivity.
    + repeat constructor; unfold in_widget; cbn; lia.
    + vm_compute. split; [discriminate | reflexivity].
    + intros h E. discriminate E.
Defined.

(** C3, as stated, fails on the example panel: the pass leaves two
    widgets, not three, there is no widget for the spacer, and the right
    edge of the clock is at 800, not at 792. *)
Lemma editor_layout_counterexample :
  exists w',
    @render_to_cairo unit ext_example editor_world = Some (tt, w') /\
    widgets (w_panel w') =
      [mkWidget 8 58 (Some 1%nat); mkWidget 749 51 None] /\
    ~ claimed_editor_layout (widgets (w_panel w')) 1 /\
    ~ exists c, In c (widgets (w_panel w')) /\
                widget_toplevel c = None /\
                widget_x c + widget_width c = 800 - BUTTON_PADDING.
Proof.
  eexists. split; [vm_compute; reflexivity|].
  cbn [w_panel widgets snd].
  split; [reflexivity|]. split.
  - intros (b & sp & c & E & _). discriminate E.
  - intros (c & [E|[E|[]]] & Hn & Hr); subst c; cbn in Hn, Hr;
      [discriminate Hn | discriminate Hr].
Qed.

Lemma editor_layout_witness :
  exists w' c,
    @render_to_cairo unit ext_example editor_world = Some (tt, w') /\
    widgets (w_panel w') = [mkWidget 8 58 (Some 1%nat); c] /\
    widget_toplevel c = None /\
    widget_x c + widget_width c = 800.
Proof.
  destruct (@editor_layout unit ext_example editor_world editor)
    as (w' & c & H1 & H2 & H3 & _ & H5 & _).
  - reflexivity.
  - reflexivity.
  - reflexivity.
  - reflexivity.
  - reflexivity.
  - reflexivity.
  - vm_compute. reflexivity.
  - vm_compute. split; discriminate.
  - vm_compute. discriminate.
  - vm_compute. discriminate.
  - exists w', c. split; [exact H1|]. split; [exact H2|].
    split; [exact H3 | exact H5].
Defined.

(** On the example panel, 30 high, the separator is the rectangle of the
    row 30, the first row below the panel. *)
Lemma separator_below_panel_witness :
  exists w' ops,
    @render_to_cairo unit ext_example editor_world = Some (tt, w') /\
    w_cairo w' =
      ops ++
      [SetSourceRGBA (channel 4294967295 3) (channel 4294967295 2)
         (channel 4294967295 1) (channel 4294967295 0);
       Rectangle 0 30 800 1; Fill] /\
    ~ (0 <= 30 /\ 30 + 1 <= 30).
Proof.
  destruct (@render_to_cairo unit ext_example editor_world)
    as [[[] w']|] eqn:E; [|vm_compute in E; discriminate E].
  destruct (@separator_below_panel unit ext_example editor_world w' tt E)
    as (ops & C & N).
  exists w', ops. split; [reflexivity|]. split; [exact C | exact N].
Defined.

Lemma render_taskbar_buttons_witness :
  exists w' bs,
    @render_taskbar unit ext_example 0 editor_world = Some (74, w') /\
    widgets (w_panel w') = bs /\
    (exists b, nth_error bs 0 = Some b /\
               widget_toplevel b = Some 1%nat /\ widget_width b = 58) /\
    (forall b, nth_error bs 0 = Some b -> widget_x b = 8).
Proof.
  destruct (@render_taskbar_buttons unit ext_example 0 editor_world
              (fun _ => eq_refl)) as (Hprops & Hdef).
  destruct (Hdef 42) as (d & w' & E).
  - repeat constructor; vm_compute; discriminate.
  - vm_compute. discriminate.
  - lia.
  - vm_compute. discriminate.
  - assert (Hd : d = 74) by (vm_compute in E; congruence).
    subst d.
    destruct (Hprops 74 w' E) as (bs & Hw & _ & Hn & Hx & _).
    exists w', bs. split; [exact E|]. split; [exact Hw|].
    split; [exact (Hn 0%nat editor eq_refl) | exact Hx].
Defined.

Lemma toplevel_label_shown_witness :
  exists w' ops,
    @render_taskbar unit ext_example 0 editor_world = Some (74, w') /\
    w_cairo w' = ops /\ shown ops = ["Editor"] /\
    toplevel_label (mkToplevel 2 None (Some "foot") true) = "foot" /\
    toplevel_label (mkToplevel 3 None None false) = "?".
Proof.
  destruct (@render_taskbar unit ext_example 0 editor_world)
    as [[d w']|] eqn:E; [|vm_compute in E; discriminate E].
  assert (Hd : d = 74) by (vm_compute in E; congruence).
  subst d.
  destruct (@toplevel_label_shown unit ext_example 0 editor_world w' 74 E)
    as ((ops & C & S) & _ & Ha & Hq).
  exists w', ops. split; [reflexivity|]. split; [exact C|].
  split; [exact S|]. split.
  - apply (Ha (mkToplevel 2 None (Some "foot") true) "foot"); reflexivity.
  - apply (Hq (mkToplevel 3 None None false)); reflexivity.
Defined.

(** At 09:05:59 the timer of the default configuration first expires at
    09:06:00. *)
Lemma panel_setup_clock_armed_witness :
  exists w' t,
    @panel_setup_clock unit 32759 editor_world = Some (tt, w') /\
    fd_clock (w_panel w') = Some t /\
    it_value_sec t = 32760 /\ it_interval_sec t = 60 /\
    tfd_abstime t = true.
Proof.
  destruct (@panel_setup_clock_armed unit 32759 editor_world)
    as (w' & Hs & Hiff & Ht).
  - vm_compute. split; discriminate.
  - destruct (fd_clock (w_panel w')) as [t|] eqn:Ef.
    + destruct (Ht t eq_refl) as (H1 & H2 & _ & _ & H5).
      exists w', t. split; [exact Hs|]. split; [exact Ef|].
      split; [rewrite H2; reflexivity|]. split; assumption.
    + exfalso. apply (proj2 Hiff); [|reflexivity].
      exists "TSC". split; [reflexivity|]. simpl. tauto.
Defined.

Lemma widgets_ordered_disjoint_witness :
  exists w' a b,
    @render_to_cairo unit ext_example editor_world = Some (tt, w') /\
    nth_error (widgets (w_panel w')) 0 = Some a /\
    nth_error (widgets (w_panel w')) 1 = Some b /\
    widget_x a <= widget_x b /\
    (forall z, ~ (in_widget a z /\ in_widget b z)).
Proof.
  destruct (@render_to_cairo unit ext_example editor_world)
    as [[[] w']|] eqn:E; [|vm_compute in E; discriminate E].
  assert (Hnn : forall s, 0 <= fst (@text_size unit ext_example s)).
  { intros s. change (0 <= 7 * Z.of_nat (String.length s)). lia. }
  destruct (@widgets_ordered_disjoint unit ext_example editor_world w' tt Hnn E)
    as (Ho & _).
  assert (Hw : widgets (w_panel w') =
               [mkWidget 8 58 (Some 1%nat); mkWidget 749 51 None])
    by (vm_compute in E; injection E as <-; reflexivity).
  exists w', (mkWidget 8 58 (Some 1%nat)), (mkWidget 749 51 None).
  split; [reflexivity|].
  split; [rewrite Hw; reflexivity|]. split; [rewrite Hw; reflexivity|].
  apply (Ho 0%nat 1%nat); [lia | rewrite Hw; reflexivity | rewrite Hw; reflexivity].
Defined.

(** Before the first configure event with a size, a press finds no
    widget. *)
Lemma render_frame_not_ready_witness :
  @render_frame unit ext_example editor_unsized = Some (tt, editor_unsized) /\
  exists w',
    @run unit ext_example
      [EvGlobalSeat 0; EvPanelRun; EvToplevel 2; EvTitle 2 "foot";
       EvState 2 [2]; EvDone 2; EvConfigure 0 30; EvPointerMotion 0 2560 0;
       EvPointerButton 0 1; EvRenderFrame]
      editor_unsized = Some (tt, w') /\
    widgets (w_panel w') = [] /\
    w_requests w' = [] /\ w_commits w' = [] /\ w_cairo w' = [].
Proof.
  destruct (@render_frame_not_ready unit ext_example) as (H1 & H2 & _).
  split.
  - apply H1. right. left. reflexivity.
  - apply H2.
    + reflexivity.
    + left. reflexivity.
    + repeat constructor.
Defined.


(** ** Further statements on the concrete setting *)

(** The clock label of the example has five characters at every reading,
    so that the clock is 51 wide. *)
Lemma ext_example_clock_width (k : nat) :
  @clock_width unit ext_example k = 51.
Proof. reflexivity. Qed.

Lemma ext_example_text_nonneg :
  forall s, 0 <= fst (@text_size unit ext_example s).
Proof. intros s. change (0 <= 7 * Z.of_nat (String.length s)). lia. Qed.

(** On the example panel the taskbar is 74 wide, measured or drawn from
    the cursor 100. *)
Lemma natural_width_is_advance_witness :
  exists n d w1 w2,
    @taskbar_natural_width unit ext_example editor_world = Some (n, w1) /\
    @render_taskbar unit ext_example 100 editor_world = Some (d, w2) /\
    d = n.
Proof.
  destruct (@taskbar_natural_width unit ext_example editor_world)
    as [[n w1]|] eqn:E1; [|vm_compute in E1; discriminate E1].
  destruct (@render_taskbar unit ext_example 100 editor_world)
    as [[d w2]|] eqn:E2; [|vm_compute in E2; discriminate E2].
  exists n, d, w1, w2. split; [reflexivity|]. split; [reflexivity|].
  exact (proj1 (@natural_width_is_advance unit ext_example editor_world)
           100 n d w1 w2 E1 E2).
Defined.

(** The items "TSC" of the example end at 800. *)
Lemma layout_ends_at_panel_width_witness :
  exists x_end w',
    @render_items unit ext_example "TSC" editor_world = Some (x_end, w') /\
    x_end = 800.
Proof.
  destruct (@render_items unit ext_example "TSC" editor_world)
    as [[x_end w']|] eqn:E; [|vm_compute in E; discriminate E].
  exists x_end, w'. split; [reflexivity|].
  rewrite (@layout_ends_at_panel_width unit ext_example "TSC" editor_world
             w' x_end).
  - vm_compute. reflexivity.
  - reflexivity.
  - vm_compute. split; discriminate.
  - intros i _. rewrite !ext_example_clock_width. reflexivity.
  - exact E.
Defined.

Lemma render_to_cairo_idempotent_witness :
  exists w1 w2,
    @render_to_cairo unit ext_example editor_world = Some (tt, w1) /\
    @render_to_cairo unit ext_example w1 = Some (tt, w2) /\
    widgets (w_panel w2) = widgets (w_panel w1).
Proof.
  destruct (@render_to_cairo unit ext_example editor_world)
    as [[[] w1]|] eqn:E1; [|vm_compute in E1; discriminate E1].
  assert (E2 : exists w2,
             @render_to_cairo unit ext_example w1 = Some (tt, w2)).
  { pose proof E1 as E. vm_compute in E. injection E as <-.
    eexists. vm_compute. reflexivity. }
  destruct E2 as (w2 & E2).
  exists w1, w2. split; [reflexivity|]. split; [exact E2|].
  apply (@render_to_cairo_idempotent unit ext_example editor_world w1 w2
           tt tt).
  - intros k. reflexivity.
  - intros items i _ _. rewrite !ext_example_clock_width. reflexivity.
  - exact E1.
  - exact E2.
Defined.

(** A press at 30, inside the button of the editor. *)
Lemma press_reaches_widget_witness :
  @wl_pointer_button unit ext_example (mkSeat 0 (mkPointer 0 30 0)) 1
    editor_rendered = Some (tt, sent editor_rendered (Activate 1 0)).
Proof.
  destruct (@render_to_cairo unit ext_example editor_world)
    as [[[] w]|] eqn:E; [|vm_compute in E; discriminate E].
  assert (Hw : widgets (w_panel w) =
               [mkWidget 8 58 (Some 1%nat); mkWidget 749 51 None])
    by (vm_compute in E; injection E as <-; reflexivity).
  apply (@press_reaches_widget unit ext_example editor_world w
           editor_rendered tt (mkSeat 0 (mkPointer 0 30 0))
           (mkWidget 8 58 (Some 1%nat))).
  - exact ext_example_text_nonneg.
  - exact E.
  - rewrite Hw. reflexivity.
  - rewrite Hw. left. reflexivity.
  - vm_compute. split; [discriminate | reflexivity].
  - intros h Eh. injection Eh as <-. left. reflexivity.
Defined.

Lemma widgets_match_registry_witness :
  exists w' a,
    @render_to_cairo unit ext_example editor_world = Some (tt, w') /\
    In a (widgets (w_panel w')) /\ widget_toplevel a = Some 1%nat.
Proof.
  destruct (@render_to_cairo unit ext_example editor_world)
    as [[[] w']|] eqn:E; [|vm_compute in E; discriminate E].
  destruct (proj2 (@widgets_match_registry unit ext_example editor_world w'
                     tt E) (fun _ => eq_refl) "TSC" editor)
    as (a & Hin & Ht).
  - reflexivity.
  - left. reflexivity.
  - left. reflexivity.
  - exists w', a. split; [reflexivity|]. split; [exact Hin | exact Ht].
Defined.

(** A frame of the example panel is committed with the buffer 0, the
    scale 1 and the damage 800 by 30. *)
Lemma render_frame_commits_witness :
  exists w',
    @render_frame unit ext_example editor_world = Some (tt, w') /\
    current_buffer (w_panel w') = Some 0%nat /\
    w_commits w' = [mkCommit 0 1 (w_cairo w') (800, 30)].
Proof.
  destruct (@render_frame unit ext_example editor_world)
    as [[[] w']|] eqn:E; [|vm_compute in E; discriminate E].
  destruct (@render_frame_commits unit ext_example editor_world w' tt)
    as (_ & Hb & _ & Hc & _).
  - reflexivity.
  - discriminate.
  - discriminate.
  - exact E.
  - exists w'. split; [reflexivity|]. split; [exact Hb|].
    exact (Hc 0%nat Hb).
Defined.

(** The editor is closed: the registry is empty and no widget refers to
    the window. *)
Lemma closed_window_forgotten_witness :
  exists w',
    @dispatch unit ext_example (EvClosed 1) editor_world = Some (tt, w') /\
    toplevels (w_panel w') = [] /\
    forall a, In a (widgets (w_panel w')) -> widget_toplevel a <> Some 1%nat.
Proof.
  destruct (@dispatch unit ext_example (EvClosed 1) editor_world)
    as [[[] w']|] eqn:E; [|vm_compute in E; discriminate E].
  destruct (@closed_window_forgotten unit ext_example editor_world w' tt 1)
    as (Ht & Hw & _).
  - repeat constructor. intros [].
  - left. reflexivity.
  - exact E.
  - exists w'. split; [reflexivity|]. split; [exact Ht|].
    apply Hw; [reflexivity | discriminate | discriminate].
Defined.

(** The editor is given the title "Notes". *)
Lemma toplevel_event_updates_entry_witness :
  exists w',
    @dispatch unit ext_example (EvTitle 1 "Notes") editor_world
      = Some (tt, w') /\
    find_toplevel 1 (toplevels (w_panel w')) =
      Some (mkToplevel 1 (Some "Notes") None false) /\
    widgets (w_panel w') = [] /\ w_commits w' = [].
Proof.
  destruct (@toplevel_event_updates_entry unit ext_example editor_world 1
              editor eq_refl (EvTitle 1 "Notes")
              (mkToplevel 1 (Some "Notes") None false))
    as (w' & Hd & Hf & _ & _ & Hw & _ & Hc & _).
  - left. exists "Notes". split; reflexivity.
  - exists w'. split; [exact Hd|]. split; [exact Hf|].
    split; [exact Hw | exact Hc].
Defined.

(** The pointer of the seat 0 moves to 10.5 and its button is pressed:
    the editor is activated. *)
Lemma motion_then_press_witness :
  exists v',
    @run unit ext_example [EvPointerMotion 0 2688 0; EvPointerButton 0 1]
      editor_rendered = Some (tt, v') /\
    w_requests v' = [Activate 1 0].
Proof.
  destruct (@render_to_cairo unit ext_example editor_world)
    as [[[] w]|] eqn:E; [|vm_compute in E; discriminate E].
  assert (Hw : widgets (w_panel w) =
               [mkWidget 8 58 (Some 1%nat); mkWidget 749 51 None])
    by (vm_compute in E; injection E as <-; reflexivity).
  destruct (@motion_then_press unit ext_example editor_world w
              editor_rendered tt 0 (mkSeat 0 (mkPointer 0 0 0))
              2688 0 10 128)
    as (v' & Hrun & _ & _ & _ & Hhit & _).
  - exact ext_example_text_nonneg.
  - exact E.
  - rewrite Hw. reflexivity.
  - rewrite Hw. constructor; [|constructor; [|constructor]].
    + intros h Eh. injection Eh as <-. left. reflexivity.
    + intros h Eh. discriminate Eh.
  - reflexivity.
  - reflexivity.
  - lia.
  - lia.
  - exists v'. split; [exact Hrun|].
    apply (Hhit (mkWidget 8 58 (Some 1%nat))).
    + rewrite Hw. left. reflexivity.
    + vm_compute. split; [discriminate | reflexivity].
Defined.

(** The output 5 of the panel goes to the scale 2. *)
Lemma output_scale_applies_witness :
  exists w',
    @output_scale unit ext_example 5 2 editor_on_output = Some (tt, w') /\
    panel_scale (w_panel w') = 2.
Proof.
  destruct (@output_scale unit ext_example 5 2 editor_on_output)
    as [[[] w']|] eqn:E; [|vm_compute in E; discriminate E].
  destruct (proj2 (@output_scale_applies unit ext_example editor_on_output
                     w' tt 5 2 E)) as (Hs & _).
  - reflexivity.
  - vm_compute. split; discriminate.
  - exists w'. split; [reflexivity | exact Hs].
Defined.

(** The global of the output 5 is removed: the panel stops, and a
    configure event and a tick of the clock commit nothing. *)
Lemma handle_global_remove_stops_witness :
  exists w1 w',
    @handle_global_remove unit 5 editor_on_output
      = Some (tt, w1) /\
    run_display (w_panel w1) = false /\
    @run unit ext_example [EvConfigure 800 30; EvRenderFrame] w1
      = Some (tt, w') /\
    w_commits w' = [].
Proof.
  destruct (@handle_global_remove_stops unit ext_example editor_on_output
              5 5 eq_refl)
    as (w1 & H1 & _ & _ & _ & _ & _ & Hstop).
  destruct (Hstop eq_refl) as (Hr & Hev).
  assert (E : exists w',
             @run unit ext_example [EvConfigure 800 30; EvRenderFrame] w1
             = Some (tt, w')).
  { pose proof H1 as H. vm_compute in H. injection H as <-.
    eexists. vm_compute. reflexivity. }
  destruct E as (w' & E).
  exists w1, w'. split; [exact H1|]. split; [exact Hr|].
  split; [exact E|].
  destruct (Hev [EvConfigure 800 30; EvRenderFrame] w' tt) as (Hc & _);
    [|exact E|exact Hc].
  intros [H|[H|[]]]; discriminate H.
Defined.

(** The button of the editor: filled from 8, 58 wide, the label clipped
    to the 42 between the paddings. *)
Lemma render_taskbar_draws_witness :
  exists w',
    @render_taskbar unit ext_example 0 editor_world = Some (74, w') /\
    rectangles (w_cairo w') = [(8, 2, 58, 26); (16, 0, 42, 30)].
Proof.
  destruct (@render_taskbar unit ext_example 0 editor_world)
    as [[d w']|] eqn:E; [|vm_compute in E; discriminate E].
  assert (Hd : d = 74) by (vm_compute in E; congruence).
  subst d.
  destruct (@render_taskbar_draws unit ext_example editor_world w' 0 74 E)
    as (Hc & _).
  exists w'. split; [reflexivity|]. rewrite Hc. vm_compute. reflexivity.
Defined.

(** Opaque red. *)
Lemma cairo_set_source_u32_bytes_witness :
  exists w',
    @cairo_set_source_u32 unit 4278190335 editor_world = Some (tt, w') /\
    w_cairo w' =
      [SetSourceRGBA (QArith_base.Qmake 255 255) (QArith_base.Qmake 0 255)
         (QArith_base.Qmake 0 255) (QArith_base.Qmake 255 255)].
Proof.
  destruct (proj1 (@cairo_set_source_u32_bytes unit editor_world)
              255 0 0 255) as (w' & H & Hc & _); try lia.
  exists w'. split; [exact H | exact Hc].
Defined.

(** The items "TxSC": the code x is logged and the widgets are those of
    "TSC". *)
Lemma unknown_codes_skipped_witness :
  exists w',
    @render_to_cairo unit ext_example editor_unknown_code = Some (tt, w') /\
    unknown_logged (w_log w') = ["x"%char] /\
    widgets (w_panel w') =
      [mkWidget 8 58 (Some 1%nat); mkWidget 749 51 None].
Proof.
  destruct (@render_to_cairo unit ext_example editor_unknown_code)
    as [[[] w']|] eqn:E; [|vm_compute in E; discriminate E].
  destruct (@unknown_codes_skipped unit ext_example editor_unknown_code w'
              tt "TxSC" eq_refl E) as (Hl & Hw).
  exists w'. split; [reflexivity|]. split; [exact Hl|].
  rewrite Hw. vm_compute. reflexivity.
Defined.

(** A second window, titled "Notes", gets a button 51 wide. *)
Lemma new_window_gets_button_witness :
  exists w' a,
    @run unit ext_example [EvToplevel 2; EvTitle 2 "Notes"; EvDone 2]
      editor_world = Some (tt, w') /\
    In a (widgets (w_panel w')) /\
    widget_toplevel a = Some 2%nat /\ widget_width a = 51.
Proof.
  destruct (@run unit ext_example [EvToplevel 2; EvTitle 2 "Notes"; EvDone 2]
              editor_world)
    as [[[] w']|] eqn:E; [|vm_compute in E; discriminate E].
  destruct (@new_window_gets_button unit ext_example editor_world w' tt 2
              "Notes" "TSC")
    as (_ & a & Hin & Ht & Hw).
  - intros k. reflexivity.
  - intros [H|[]]. discriminate H.
  - reflexivity.
  - discriminate.
  - discriminate.
  - reflexivity.
  - reflexivity.
  - exact E.
  - exists w', a. split; [reflexivity|]. split; [exact Hin|].
    split; [exact Ht | exact Hw].
Defined.

(** The output 3 is announced, set to the scale 2 and entered. *)
Lemma output_scale_then_enter_witness :
  exists w',
    @run unit ext_example
      [EvGlobalOutput 3; EvOutputScale 3 2; EvSurfaceEnter 3]
      editor_world = Some (tt, w') /\
    panel_output (w_panel w') = Some 3%nat /\
    panel_scale (w_panel w') = 2.
Proof.
  destruct (@run unit ext_example
              [EvGlobalOutput 3; EvOutputScale 3 2; EvSurfaceEnter 3]
              editor_world)
    as [[[] w']|] eqn:E; [|vm_compute in E; discriminate E].
  destruct (@output_scale_then_enter unit ext_example editor_world w' tt 3 2)
    as (Ho & Hs & _).
  - reflexivity.
  - reflexivity.
  - vm_compute. split; discriminate.
  - exact E.
  - exists w'. split; [reflexivity|]. split; [exact Ho | exact Hs].
Defined.


(** The panel is configured to the width 0 after a pass, the editor is
    closed, and a press at 10 falls on its old button. *)
Lemma press_after_close_undefined_witness :
  @run unit ext_example [EvClosed 1; EvPointerButton 0 1] editor_shrunk
    = None.
Proof.
  destruct (@press_after_close_undefined unit ext_example editor_shrunk
              1 0 (mkSeat 0 (mkPointer 0 10 0)) []
              [mkWidget 749 51 None] (mkWidget 8 58 (Some 1%nat)))
    as (_ & H); [| | | | | | | | |exact H].
  - repeat constructor. intros [].
  - left. reflexivity.
  - right. left. reflexivity.
  - repeat constructor; vm_compute; discriminate.
  - reflexivity.
  - constructor.
  - vm_compute. split; [discriminate | reflexivity].
  - reflexivity.
  - reflexivity.
Defined.
